(** * NestlyFlow backend: title resolution, task store, dashboard,
      assistant dispatcher and password reset

    A shallow embedding of [crud.py], [routes/dashboard.py],
    [routes/chatbot.py] and the password-reset handlers of
    [routes/auth.py].  Tables are lists of rows in storage order
    ([.first()] is the first matching row, [.all()] every matching row);
    Python exceptions are the [Raise] branch of [result]; the
    [while True] loop of [create_user_todo] runs on fuel, [None] meaning
    that the fuel ran out before the loop left.  The storage engine is
    the one the test-suite runs on: [lower] folds the letters A..Z,
    strings compare byte for byte, a new integer key is one more than
    the largest in the table, the unique constraints are enforced and
    foreign keys are not. *)

From Stdlib Require Import ZArith List String Ascii Bool Lia Arith.
From Stdlib Require Import Numbers.DecimalString Numbers.DecimalNat.
Import ListNotations.

Open Scope string_scope.
Open Scope Z_scope.

(* ================================================================= *)
(** ** Strings: SQL [lower], decimal rendering, [str.join] *)

Module Str.

(** [func.lower] as the storage engine of the test-suite (SQLite)
    computes it: the letters A..Z are folded, every other character is
    kept. *)
Definition lower_ascii (c : ascii) : ascii :=
  let n := N_of_ascii c in
  if ((65 <=? n) && (n <=? 90))%N then ascii_of_N (n + 32) else c.

Fixpoint lower (s : string) : string :=
  match s with
  | EmptyString => EmptyString
  | String c r => String (lower_ascii c) (lower r)
  end.

(** [func.lower(a) == func.lower(b)] *)
Definition eq_ci (a b : string) : bool := String.eqb (lower a) (lower b).

(** [f"{n}"] for a non-negative Python int. *)
Definition dec (n : nat) : string := NilEmpty.string_of_uint (Nat.to_uint n).

(** [len(s)]: the characters of a UTF-8 string, that is the bytes that
    do not continue a character. *)
Fixpoint char_count (s : string) : nat :=
  match s with
  | EmptyString => O
  | String c r =>
      let n := N_of_ascii c in
      if ((128 <=? n) && (n <? 192))%N then char_count r
      else S (char_count r)
  end.

(** [sep.join(l)] *)
Fixpoint join (sep : string) (l : list string) : string :=
  match l with
  | [] => ""
  | [x] => x
  | x :: r => x ++ sep ++ join sep r
  end.

(** [needle in hay] *)
Fixpoint prefixb (p s : string) : bool :=
  match p, s with
  | EmptyString, _ => true
  | String a p', String b s' => Ascii.eqb a b && prefixb p' s'
  | String _ _, EmptyString => false
  end.

Fixpoint containsb (needle hay : string) : bool :=
  prefixb needle hay ||
  match hay with
  | EmptyString => false
  | String _ r => containsb needle r
  end.

(** The propositional reading of [needle in hay]. *)
Definition contains (needle hay : string) : Prop :=
  exists pre post, hay = pre ++ needle ++ post.

End Str.

(* ================================================================= *)
(** ** Exceptions *)

Inductive exn : Type :=
| HTTPException (status_code : Z) (detail : string)
| AttributeError (msg : string)
| IntegrityError (msg : string)
| ValidationError (msg : string).

Inductive result (A : Type) : Type :=
| Ok (a : A)
| Raise (e : exn).
Arguments Ok {A} a.
Arguments Raise {A} e.

Definition bind {A B} (r : result A) (k : A -> result B) : result B :=
  match r with
  | Ok a => k a
  | Raise e => Raise e
  end.

Notation "x <- c ;; k" := (bind c (fun x => k))
  (at level 61, c at next level, right associativity).

(* ================================================================= *)
(** ** models.py *)

Definition datetime := Z.

Record User : Type := mkUser {
  user_id : Z;
  username : string;
  email : string;
  hashed_password : string
}.

Record Todo : Type := mkTodo {
  id : Z;
  title : string;
  description : option string;
  completed : bool;
  due_at : option datetime;
  created_at : datetime;
  updated_at : datetime;
  priority : string;
  category : string;
  owner_id : option Z
}.

Record PasswordResetToken : Type := mkToken {
  token_id : Z;
  token_user_id : Z;
  token : string;
  expires_at : datetime
}.

(** The session: the three tables. *)
Record Db : Type := mkDb {
  users : list User;
  todos : list Todo;
  password_reset_tokens : list PasswordResetToken
}.

(** The integer primary key given to a new row: one more than the
    largest in the table. *)
Definition next_id (ids : list Z) : Z := 1 + fold_right Z.max 0 ids.

(* ================================================================= *)
(** ** schemas.py *)

Record TodoCreate : Type := mkTodoCreate {
  c_title : string;
  c_description : option string;
  c_due_at : option datetime;
  c_priority : option string;
  c_category : option string
}.

(** [TodoUpdate] after [exclude_unset]: a field is [None] when the
    request left it out, [Some None] when the request set it to null
    (every field of the schema is [Optional]) and [Some (Some v)] when
    it carries a value. *)
Record TodoUpdate : Type := mkTodoUpdate {
  u_title : option (option string);
  u_description : option (option string);
  u_due_at : option (option datetime);
  u_completed : option (option bool);
  u_priority : option (option string);
  u_category : option (option string)
}.

Record CategoryStat : Type := mkCategoryStat {
  cs_category : string;
  cs_count : Z
}.

Record PriorityStat : Type := mkPriorityStat {
  ps_priority : string;
  ps_count : Z
}.

Record TaskStats : Type := mkTaskStats {
  total : Z;
  stats_completed : Z;
  in_progress : Z;
  overdue : Z
}.

Record DashboardStats : Type := mkDashboardStats {
  stats : TaskStats;
  priorities : list PriorityStat;
  categories : list CategoryStat;
  deadlines : list Todo
}.

(* ================================================================= *)
(** ** crud.py *)

Module crud.

(** [Todo.owner_id == user_id] *)
Definition owned_by (user : Z) (t : Todo) : bool :=
  match owner_id t with
  | Some o => o =? user
  | None => false
  end.

(** [func.lower(Todo.title) == func.lower(title), Todo.owner_id == user_id] *)
Definition title_filter (ttl : string) (user : Z) (t : Todo) : bool :=
  Str.eq_ci (title t) ttl && owned_by user t.

(** OFFSET and LIMIT: a negative offset skips nothing, a negative limit
    keeps everything. *)
Definition offset_limit {A} (skip limit : Z) (l : list A) : list A :=
  let l' := skipn (Z.to_nat skip) l in
  if limit <? 0 then l' else firstn (Z.to_nat limit) l'.

Definition get_todos (db : Db) (user : Z) (skip limit : Z) : list Todo :=
  offset_limit skip limit (filter (owned_by user) (todos db)).

Definition get_todos_by_title (db : Db) (ttl : string) (user : Z) : list Todo :=
  filter (title_filter ttl user) (todos db).

(** [f"{original_title} ({counter})"] *)
Definition suffixed (original_title : string) (counter : nat) : string :=
  original_title ++ " (" ++ Str.dec counter ++ ")".

(** The [while True] loop of [create_user_todo], entered with
    [counter]. *)
Fixpoint suffix_loop (fuel : nat) (db : Db) (user : Z)
    (original_title : string) (counter : nat) : option string :=
  match fuel with
  | O => None
  | S fuel' =>
      let suffixed_title := suffixed original_title counter in
      match find (title_filter suffixed_title user) (todos db) with
      | None => Some suffixed_title
      | Some _ => suffix_loop fuel' db user original_title (S counter)
      end
  end.

(** The [Todo] built from the fields of [todo] and [owner_id=user_id],
    then [db.add], [db.commit], [db.refresh]: the row as stored, with
    the column defaults. *)
Definition new_row (db : Db) (todo : TodoCreate) (ttl : string)
    (user : Z) (now : datetime) : Todo :=
  {| id := next_id (map id (todos db));
     title := ttl;
     description := c_description todo;
     completed := false;
     due_at := c_due_at todo;
     created_at := now;
     updated_at := now;
     priority := match c_priority todo with Some p => p | None => "low" end;
     category := match c_category todo with Some c => c | None => "others" end;
     owner_id := Some user |}.

Definition add_todo (db : Db) (t : Todo) : Db :=
  {| users := users db;
     todos := todos db ++ [t];
     password_reset_tokens := password_reset_tokens db |}.

Definition create_user_todo (fuel : nat) (db : Db) (todo : TodoCreate)
    (user : Z) (now : datetime) : option (Db * Todo) :=
  let original_title := c_title todo in
  let existing_todo := find (title_filter original_title user) (todos db) in
  let resolved :=
    match existing_todo with
    | Some _ => suffix_loop fuel db user original_title 2
    | None => Some original_title
    end in
  match resolved with
  | None => None
  | Some ttl =>
      let db_todo := new_row db todo ttl user now in
      Some (add_todo db db_todo, db_todo)
  end.

(** Python passes [todo] without checking its annotation: the routes
    hand over the [TodoUpdate] model, the assistant the plain dict it
    got from [.dict(exclude_unset=True)]. *)
Inductive pyobj : Type :=
| Model (m : TodoUpdate)
| Dict (d : TodoUpdate).

(** [todo.model_dump(exclude_unset=True)]: a method of the model; a dict
    has no such attribute. *)
Definition model_dump (todo : pyobj) : result TodoUpdate :=
  match todo with
  | Model m => Ok m
  | Dict _ => Raise (AttributeError "'dict' object has no attribute 'model_dump'")
  end.

(** [Todo.id == id, Todo.owner_id == user_id] *)
Definition id_filter (i user : Z) (t : Todo) : bool :=
  (id t =? i) && owned_by user t.

Definition not_found {A} : result A :=
  Raise (HTTPException 404 "Todo not found").

Definition get_todo (db : Db) (i user : Z) : result Todo :=
  match find (id_filter i user) (todos db) with
  | None => not_found
  | Some todo => Ok todo
  end.

(** A null set on a column declared [nullable=False]: the commit
    refuses the row. *)
Definition is_null {A} (v : option (option A)) : bool :=
  match v with
  | Some None => true
  | _ => false
  end.

Definition null_in_required (update_data : TodoUpdate) : bool :=
  is_null (u_title update_data) || is_null (u_completed update_data)
  || is_null (u_priority update_data) || is_null (u_category update_data).

(** The value a supplied field sets on a NOT NULL column. *)
Definition set_required {A} (v : option (option A)) (old : A) : A :=
  match v with
  | Some (Some x) => x
  | _ => old
  end.

(** The loop [for field, value in update_data.items(): setattr(...)],
    for a patch the commit accepts. *)
Definition setattrs (t : Todo) (update_data : TodoUpdate) : Todo :=
  {| id := id t;
     title := set_required (u_title update_data) (title t);
     description :=
       match u_description update_data with Some v => v | None => description t end;
     completed := set_required (u_completed update_data) (completed t);
     due_at := match u_due_at update_data with Some v => v | None => due_at t end;
     created_at := created_at t;
     updated_at := updated_at t;
     priority := set_required (u_priority update_data) (priority t);
     category := set_required (u_category update_data) (category t);
     owner_id := owner_id t |}.

Definition opt_eqb {A} (eqb : A -> A -> bool) (a b : option A) : bool :=
  match a, b with
  | Some x, Some y => eqb x y
  | None, None => true
  | _, _ => false
  end.

(** Whether the unit of work has anything to write for the row. *)
Definition dirty (old new : Todo) : bool :=
  negb (String.eqb (title old) (title new)
        && opt_eqb String.eqb (description old) (description new)
        && Bool.eqb (completed old) (completed new)
        && opt_eqb Z.eqb (due_at old) (due_at new)
        && String.eqb (priority old) (priority new)
        && String.eqb (category old) (category new)).

Definition touch (t : Todo) (now : datetime) : Todo :=
  {| id := id t; title := title t; description := description t;
     completed := completed t; due_at := due_at t;
     created_at := created_at t; updated_at := now;
     priority := priority t; category := category t;
     owner_id := owner_id t |}.

(** [db.add(db_todo); db.commit(); db.refresh(db_todo)] for a row that
    is already stored: the UPDATE by primary key, which also stamps
    [updated_at] ([onupdate=func.now()]). *)
Definition flush (old new : Todo) (now : datetime) : Todo :=
  if dirty old new then touch new now else new.

Definition write_row (db : Db) (row : Todo) : Db :=
  {| users := users db;
     todos := map (fun t => if id t =? id row then row else t) (todos db);
     password_reset_tokens := password_reset_tokens db |}.

Definition update_user_todo (db : Db) (i : Z) (todo : pyobj) (user : Z)
    (now : datetime) : result (Db * Todo) :=
  match find (id_filter i user) (todos db) with
  | None => not_found
  | Some db_todo =>
      update_data <- model_dump todo ;;
      existing_todo <-
        match u_title update_data with
        | Some (Some new_title) =>
            Ok (if negb (String.eqb (Str.lower new_title)
                                    (Str.lower (title db_todo)))
                then find (title_filter new_title user) (todos db)
                else None)
        | Some None =>
            Raise (AttributeError "'NoneType' object has no attribute 'lower'")
        | None => Ok None
        end ;;
      let apply :=
        if null_in_required update_data
        then Raise (IntegrityError "NOT NULL constraint failed: todos")
        else
          let row := flush db_todo (setattrs db_todo update_data) now in
          Ok (write_row db row, row) in
      match existing_todo with
      | Some _ => (* pass *) apply
      | None => apply
      end
  end.

Definition delete_user_todo (db : Db) (i user : Z) : result Db :=
  match find (id_filter i user) (todos db) with
  | None => not_found
  | Some db_todo =>
      Ok {| users := users db;
            todos := filter (fun t => negb (id t =? id db_todo)) (todos db);
            password_reset_tokens := password_reset_tokens db |}
  end.

(** [.count()] *)
Definition count {A} (l : list A) : Z := Z.of_nat (List.length l).

Definition get_task_stats (db : Db) (user : Z) (now : datetime) : TaskStats :=
  let n_total := count (filter (owned_by user) (todos db)) in
  let n_completed :=
    count (filter (fun t => owned_by user t && completed t) (todos db)) in
  let n_overdue :=
    count (filter (fun t => owned_by user t && negb (completed t) &&
                            match due_at t with
                            | Some d => d <? now
                            | None => false
                            end) (todos db)) in
  {| total := n_total; stats_completed := n_completed;
     in_progress := n_total - n_completed; overdue := n_overdue |}.

(** [query(col, func.count(Todo.id)).group_by(col)]: one pair for each
    value of the column that occurs. *)
Definition group_count (keys : list string) : list (string * Z) :=
  map (fun k => (k, Z.of_nat (count_occ string_dec keys k)))
      (nodup string_dec keys).

Definition get_tasks_by_priority (db : Db) (user : Z) : list PriorityStat :=
  map (fun r => mkPriorityStat (fst r) (snd r))
      (group_count (map priority (filter (owned_by user) (todos db)))).

Definition get_tasks_by_category (db : Db) (user : Z) : list CategoryStat :=
  map (fun r => mkCategoryStat (fst r) (snd r))
      (group_count (map category (filter (owned_by user) (todos db)))).

(** [order_by(Todo.due_at.asc())] *)
Definition due_key (t : Todo) : Z :=
  match due_at t with Some d => d | None => 0 end.

Fixpoint insert_by_due (t : Todo) (l : list Todo) : list Todo :=
  match l with
  | [] => [t]
  | x :: r => if due_key t <=? due_key x then t :: l else x :: insert_by_due t r
  end.

Definition order_by_due (l : list Todo) : list Todo :=
  fold_right insert_by_due [] l.

Definition get_upcoming_deadlines (db : Db) (user : Z) (now : datetime)
    (limit : Z) : list Todo :=
  offset_limit 0 limit
    (order_by_due
       (filter (fun t => owned_by user t && negb (completed t) &&
                         match due_at t with
                         | Some d => now <? d
                         | None => false
                         end) (todos db))).

End crud.

(* ================================================================= *)
(** ** A Python [dict] with string keys: insertion-ordered, a repeated
       key overwrites in place *)

Module dict.

Definition t (V : Type) : Type := list (string * V).

Fixpoint set {V} (d : t V) (k : string) (v : V) : t V :=
  match d with
  | [] => [(k, v)]
  | (k', v') :: r =>
      if String.eqb k' k then (k', v) :: r else (k', v') :: set r k v
  end.

(** [d.get(k, default)] *)
Definition get {V} (d : t V) (k : string) (default : V) : V :=
  match find (fun kv => String.eqb (fst kv) k) d with
  | Some kv => snd kv
  | None => default
  end.

(** [{key(x): val(x) for x in l}] *)
Definition comprehension {A V} (key : A -> string) (val : A -> V)
    (l : list A) : t V :=
  fold_left (fun d x => set d (key x) (val x)) l [].

End dict.

(* ================================================================= *)
(** ** routes/dashboard.py *)

Module dashboard.

Definition all_categories : list string :=
  ["work"; "personal"; "shopping"; "health"; "education"; "others"].

Definition get_dashboard_data (db : Db) (current_user : User)
    (now : datetime) : DashboardStats :=
  let stats := crud.get_task_stats db (user_id current_user) now in
  let priorities := crud.get_tasks_by_priority db (user_id current_user) in
  let categories := crud.get_tasks_by_category db (user_id current_user) in
  let deadlines := crud.get_upcoming_deadlines db (user_id current_user) now 5 in
  let category_map := dict.comprehension cs_category cs_count categories in
  let full_categories :=
    map (fun cat_name =>
           mkCategoryStat cat_name (dict.get category_map cat_name 0))
        all_categories in
  {| stats := stats; priorities := priorities;
     categories := full_categories; deadlines := deadlines |}.

End dashboard.

(* ================================================================= *)
(** ** routes/auth.py: forgotten passwords *)

Module auth.

Record response : Type := mkResponse {
  status : Z;
  message : string
}.

Record email_params : Type := mkEmail {
  email_from : string;
  email_to : string;
  subject : string;
  html : string
}.

Definition dquote : string := String (ascii_of_nat 34) "".

Definition invalid_or_expired {A} : result A :=
  Raise (HTTPException 400 "Invalid or expired token").

Section Handlers.

(** The collaborators: the password hasher and the mail client, whose
    [send] may raise. *)
Variable get_password_hash : string -> string.
Variable emails_send : email_params -> result unit.

Definition registered_message : string :=
  "If your email is registered, a password reset link has been sent.".

(** [db.add(reset_token); db.commit()]: the [token] column is unique. *)
Definition add_token (db : Db) (row : PasswordResetToken) : result Db :=
  if existsb (fun r => String.eqb (token r) (token row))
             (password_reset_tokens db)
  then Raise (IntegrityError "UNIQUE constraint failed: password_reset_tokens.token")
  else Ok {| users := users db;
             todos := todos db;
             password_reset_tokens := password_reset_tokens db ++ [row] |}.

(** [forgot_password]; [fresh_token] is what [secrets.token_urlsafe(32)]
    gave, [now] is [datetime.utcnow()] in seconds. *)
Definition forgot_password (db : Db) (request_email : string)
    (fresh_token : string) (now : datetime) : result (Db * response) :=
  match find (fun u => String.eqb (email u) request_email) (users db) with
  | None => Ok (db, mkResponse 200 registered_message)
  | Some user =>
      let expires := now + 3600 in
      let reset_token :=
        mkToken (next_id (map token_id (password_reset_tokens db)))
                (user_id user) fresh_token expires in
      db' <- add_token db reset_token ;;
      let base_url := "http://localhost:3000/" in
      let reset_link := base_url ++ "reset-password?token=" ++ fresh_token in
      let params :=
        {| email_from := "onboarding@resend.dev";
           email_to := email user;
           subject := "Password Reset Request";
           html := "<p>Hi " ++ username user ++ ",</p>"
                   ++ "<p>You requested a password reset. Click the link below to reset your password:</p>"
                   ++ "<a href=" ++ dquote ++ reset_link ++ dquote ++ ">Reset Password</a>"
                   ++ "<p>If you did not request this, please ignore this email.</p>" |} in
      match emails_send params with
      | Ok _ => Ok (db', mkResponse 200 registered_message)
      | Raise _ => Ok (db', mkResponse 200 registered_message)
      end
  end.

(** [db.delete(reset_token)]: the row with that primary key. *)
Definition delete_token (db : Db) (row : PasswordResetToken) : Db :=
  {| users := users db;
     todos := todos db;
     password_reset_tokens :=
       filter (fun r => negb (token_id r =? token_id row))
              (password_reset_tokens db) |}.

Definition set_password (db : Db) (user : User) (hashed : string) : Db :=
  {| users :=
       map (fun u => if user_id u =? user_id user
                     then mkUser (user_id u) (username u) (email u) hashed
                     else u) (users db);
     todos := todos db;
     password_reset_tokens := password_reset_tokens db |}.

(** [reset_password_confirm]: the session after the request, and what
    the request returned ([Ok tt] is the 204). *)
Definition reset_password_confirm (db : Db) (tok : string)
    (new_password : string) (now : datetime) : Db * result unit :=
  match find (fun r => String.eqb (token r) tok) (password_reset_tokens db) with
  | None => (db, invalid_or_expired)
  | Some reset_token =>
      if expires_at reset_token <? now then
        (delete_token db reset_token, invalid_or_expired)
      else
        match find (fun u => user_id u =? token_user_id reset_token) (users db) with
        | None => (db, Raise (HTTPException 400 "User not found"))
        | Some user =>
            let hashed_password := get_password_hash new_password in
            let db1 := set_password db user hashed_password in
            (delete_token db1 reset_token, Ok tt)
        end
  end.

End Handlers.

(** *** Accounts: signup, login, rename, password change, deletion *)

Record UserCreate : Type := mkUserCreate {
  uc_username : string;
  uc_email : string;
  uc_password : string
}.

Record UserWithToken : Type := mkUserWithToken {
  uw_id : Z;
  uw_username : string;
  uw_email : string;
  uw_todos : list Todo;
  uw_access_token : string;
  uw_token_type : string
}.

Record Token : Type := mkAccessToken {
  access_token : string;
  token_type : string
}.

Definition ACCESS_TOKEN_EXPIRE_MINUTES : Z := 30.

(** [db_user.todos], the relationship: the tasks whose owner is the
    user. *)
Definition todos_of (db : Db) (u : User) : list Todo :=
  filter (crud.owned_by (user_id u)) (todos db).

(** ["@" in s] *)
Definition has_at (s : string) : bool := Str.containsb "@" s.

Section Accounts.

(** The collaborators: the hasher, its check, and the signer of access
    tokens, given the subject and the minutes a token lasts. *)
Variable get_password_hash : string -> string.
Variable verify_password : string -> string -> bool.
Variable create_access_token : string -> Z -> string.

(** [db.add(db_user); db.commit()]: [username] and [email] are unique
    columns. *)
Definition add_user (db : Db) (row : User) : result Db :=
  if existsb (fun u => String.eqb (username u) (username row)
                       || String.eqb (email u) (email row)) (users db)
  then Raise (IntegrityError "UNIQUE constraint failed: users")
  else Ok {| users := users db ++ [row];
             todos := todos db;
             password_reset_tokens := password_reset_tokens db |}.

Definition with_token (db : Db) (u : User) : UserWithToken :=
  {| uw_id := user_id u;
     uw_username := username u;
     uw_email := email u;
     uw_todos := todos_of db u;
     uw_access_token :=
       create_access_token (username u) ACCESS_TOKEN_EXPIRE_MINUTES;
     uw_token_type := "bearer" |}.

(** [create_user], the signup handler ([Ok] is the 201). *)
Definition create_user (db : Db) (user : UserCreate)
  : result (Db * UserWithToken) :=
  match find (fun u => String.eqb (email u) (uc_email user)) (users db) with
  | Some _ => Raise (HTTPException 400 "Email already registered")
  | None =>
      let hashed_password := get_password_hash (uc_password user) in
      let db_user :=
        mkUser (next_id (map user_id (users db)))
               (uc_username user) (uc_email user) hashed_password in
      match add_user db db_user with
      | Raise (IntegrityError _) =>
          Raise (HTTPException 400 "Username or email already registered")
      | Raise e => Raise e
      | Ok db' => Ok (db', with_token db' db_user)
      end
  end.

(** The [.first()] of the query on [username == name] or
    [email == name]: the engine answers the disjunction through the two
    unique indexes, the one on [username] first, so a match by username
    comes before a match by address. *)
Definition first_by_name (db : Db) (name : string) : option User :=
  match find (fun u => String.eqb (username u) name) (users db) with
  | Some u => Some u
  | None => find (fun u => String.eqb (email u) name) (users db)
  end.

(** [login_for_access_token]; [name] is the form's [username] field. *)
Definition login_for_access_token (db : Db) (name password : string)
  : result Token :=
  match first_by_name db name with
  | None =>
      if has_at name
      then Raise (HTTPException 404 "Account with that email does not exist")
      else Raise (HTTPException 404 "Account with that username does not exist")
  | Some user =>
      if negb (verify_password password (hashed_password user))
      then Raise (HTTPException 401 "Incorrect username or password")
      else Ok {| access_token :=
                   create_access_token (username user) ACCESS_TOKEN_EXPIRE_MINUTES;
                 token_type := "bearer" |}
  end.

Definition set_username (db : Db) (user : User) (name : string) : Db :=
  {| users :=
       map (fun u => if user_id u =? user_id user
                     then mkUser (user_id u) name (email u) (hashed_password u)
                     else u) (users db);
     todos := todos db;
     password_reset_tokens := password_reset_tokens db |}.

(** [update_user_me]; [new_username] is [user_update.username], [None]
    when the body leaves it out or sets it to null.  The schema has no
    other field, so the set of other keys is empty and the first check
    never fires. *)
Definition update_user_me (db : Db) (new_username : option string)
    (current_user : User) : result (Db * UserWithToken) :=
  match new_username with
  | Some name =>
      if negb (String.eqb name (username current_user)) then
        match find (fun u => String.eqb (username u) name) (users db) with
        | Some _ => Raise (HTTPException 400 "Username already taken")
        | None =>
            let db' := set_username db current_user name in
            let current_user' :=
              mkUser (user_id current_user) name (email current_user)
                     (hashed_password current_user) in
            Ok (db', with_token db' current_user')
        end
      else Ok (db, with_token db current_user)
  | None => Ok (db, with_token db current_user)
  end.

(** [reset_password], the change of password by its owner ([Ok] is the
    204). *)
Definition reset_password (db : Db) (current_password new_password : string)
    (current_user : User) : result Db :=
  if negb (verify_password current_password (hashed_password current_user))
  then Raise (HTTPException 400 "Incorrect current password")
  else Ok (set_password db current_user (get_password_hash new_password)).

(** [delete_user_me]: the owner's tasks first, then the user. *)
Definition delete_user_me (db : Db) (password : string) (current_user : User)
  : result Db :=
  if negb (verify_password password (hashed_password current_user))
  then Raise (HTTPException 401 "Incorrect password")
  else Ok {| users :=
               filter (fun u => negb (user_id u =? user_id current_user))
                      (users db);
             todos :=
               filter (fun t => negb (crud.owned_by (user_id current_user) t))
                      (todos db);
             password_reset_tokens := password_reset_tokens db |}.

End Accounts.

End auth.

(* ================================================================= *)
(** ** routes/chatbot.py: the tool dispatcher *)

Module chatbot.

(** The arguments of a tool call, typed as the tool schemas declare
    them; a field is [None] when the key is absent. *)
Record Args : Type := mkArgs {
  a_title : option string;
  a_original_title : option string;
  a_new_title : option string;
  a_description : option string;
  a_due_at : option string;
  a_completed : option bool;
  a_priority : option string;
  a_category : option string
}.

Definition nl : string := String (ascii_of_nat 10) "".

Definition allowed_priorities : list string := ["low"; "medium"; "high"].
Definition allowed_categories : list string :=
  ["work"; "personal"; "study"; "home"; "health"; "shopping"; "others"].

(** [x in s] *)
Definition mem (x : string) (s : list string) : bool :=
  existsb (String.eqb x) s.

Definition login_message : string :=
  "You must be logged in to manage your to-do list. Please log in and try again.".
Definition no_todos_message : string := "You have no outstanding todos.".
Definition apology : string := "Sorry, I ran into an unexpected issue.".
Definition no_fields_message : string :=
  "Please provide at least one field to update (e.g., new title, description, due date, completed status, priority, or category).".

Definition str_bool (b : bool) : string := if b then "True" else "False".

(** One line of the listing. *)
Definition todo_line (t : Todo) : string :=
  "- " ++ title t ++ " (Priority: " ++ priority t ++ ", Category: "
  ++ category t ++ ", Completed: " ++ str_bool (completed t) ++ ")".

(** [f"'{t.title}'"] *)
Definition quoted (s : string) : string := "'" ++ s ++ "'".

Definition multiple_update_message (original_title : string)
    (matching_todos : list Todo) : string :=
  "Multiple todos found with a title similar to '" ++ original_title
  ++ "'. Please provide the exact title you wish to update from the following: "
  ++ Str.join ", " (map (fun t => quoted (title t)) matching_todos) ++ ".".

Definition multiple_delete_message (matching_todos : list Todo) : string :=
  "Multiple todos found. Please provide the exact title: "
  ++ Str.join ", " (map (fun t => quoted (title t)) matching_todos) ++ ".".

Definition not_found_message (ttl : string) : string :=
  "No todo found with title '" ++ ttl ++ "' for your account.".

(** What the field validation of the schemas reports. *)
Definition too_long : string := "String should have at most 255 characters".
Definition field_required : string := "Field required".

Definition check_title (ttl : string) : result string :=
  if (255 <? Str.char_count ttl)%nat then Raise (ValidationError too_long)
  else Ok ttl.

Definition opt_or {A} (a b : option A) : option A :=
  match a with Some _ => a | None => b end.

(** [k in update_data and update_data[k] not in allowed]: the value
    that is turned down, if any. *)
Definition rejected (v : option string) (allowed : list string)
  : option string :=
  match v with
  | Some x => if negb (mem x allowed) then Some x else None
  | None => None
  end.

(** [update_data[k]], a string when the key is there. *)
Definition given {A} (v : option (option A)) : option A :=
  match v with
  | Some (Some x) => Some x
  | _ => None
  end.

(** [list(clean_update_data.keys())] *)
Definition keys (d : TodoUpdate) : list string :=
  (match u_title d with Some _ => ["title"] | None => [] end)
  ++ (match u_description d with Some _ => ["description"] | None => [] end)
  ++ (match u_due_at d with Some _ => ["due_at"] | None => [] end)
  ++ (match u_completed d with Some _ => ["completed"] | None => [] end)
  ++ (match u_priority d with Some _ => ["priority"] | None => [] end)
  ++ (match u_category d with Some _ => ["category"] | None => [] end).

Section Dispatcher.

(** [dateparser.parse], and the order in which the interpreter walks a
    set of strings when it joins one. *)
Variable parse : string -> option datetime.
Variable iter : list string -> list string.

Definition invalid_priority (p : string) : string :=
  "Invalid priority '" ++ p ++ "'. Allowed values are: "
  ++ Str.join ", " (iter allowed_priorities) ++ ".".

Definition invalid_category (c : string) : string :=
  "Invalid category '" ++ c ++ "'. Allowed values are: "
  ++ Str.join ", " (iter allowed_categories) ++ ".".

Definition bad_date (s : string) : string :=
  "Could not understand the date '" ++ s
  ++ "'. Please use a more specific format (e.g., 'tomorrow at 5pm', '2026-02-10').".

(** [TodoCreate] built from the keyword arguments [args], once
    [due_at] is parsed and the defaults are set; keys the schema does
    not know are dropped. *)
Definition make_create (args : Args) (due : option datetime)
    (prio cat : string) : result TodoCreate :=
  match a_title args with
  | None => Raise (ValidationError field_required)
  | Some ttl =>
      ttl' <- check_title ttl ;;
      Ok {| c_title := ttl'; c_description := a_description args;
            c_due_at := due; c_priority := Some prio;
            c_category := Some cat |}
  end.

(** [update_data]: every key of [args] but [original_title], with
    [new_title] moved to [title]. *)
Definition update_data_of (args : Args) (due : option datetime) : TodoUpdate :=
  {| u_title := option_map Some (opt_or (a_new_title args) (a_title args));
     u_description := option_map Some (a_description args);
     u_due_at := option_map Some due;
     u_completed := option_map Some (a_completed args);
     u_priority := option_map Some (a_priority args);
     u_category := option_map Some (a_category args) |}.

(** [TodoUpdate] built from the keyword arguments [update_data]. *)
Definition make_update (update_data : TodoUpdate) : result TodoUpdate :=
  match u_title update_data with
  | Some (Some ttl) => _ <- check_title ttl ;; Ok update_data
  | _ => Ok update_data
  end.

(** An early [return] inside the [try], or the value that falls
    through. *)
Definition reply (db : Db) (s : string) : option (result (Db * string)) :=
  Some (Ok (db, s)).

Definition do_create (fuel : nat) (now : datetime) (args : Args)
    (due : option datetime) (db : Db) (current_user : User)
  : option (result (Db * string)) :=
  let prio := match a_priority args with Some p => p | None => "low" end in
  let cat := match a_category args with Some c => c | None => "others" end in
  if negb (mem prio allowed_priorities) then reply db (invalid_priority prio)
  else if negb (mem cat allowed_categories) then reply db (invalid_category cat)
  else
    match make_create args due prio cat with
    | Raise (ValidationError error_msg) =>
        reply db ("There was an issue creating the todo: " ++ error_msg)
    | Raise e => Some (Raise e)
    | Ok todo_data =>
        match crud.create_user_todo fuel db todo_data (user_id current_user) now with
        | None => None
        | Some (db', new_todo) =>
            reply db' ("Successfully created todo: '" ++ title new_todo ++ "'.")
        end
    end.

Definition do_list (db : Db) (current_user : User)
  : option (result (Db * string)) :=
  match crud.get_todos db (user_id current_user) 0 100 with
  | [] => reply db no_todos_message
  | todos =>
      let todo_list_str := Str.join nl (map todo_line todos) in
      reply db ("Your todos:" ++ nl ++ todo_list_str)
  end.

Definition do_update (now : datetime) (args : Args) (due : option datetime)
    (db : Db) (current_user : User) : option (result (Db * string)) :=
  match a_original_title args with
  | None | Some "" =>
      reply db "Please provide the title of the todo you want to update."
  | Some original_title =>
      let update_data := update_data_of args due in
      match rejected (given (u_priority update_data)) allowed_priorities with
      | Some p => reply db (invalid_priority p)
      | None =>
      match rejected (given (u_category update_data)) allowed_categories with
      | Some c => reply db (invalid_category c)
      | None =>
      match keys update_data with
      | [] => reply db no_fields_message
      | _ =>
      match crud.get_todos_by_title db original_title (user_id current_user) with
      | [] => reply db (not_found_message original_title)
      | [target_todo] =>
          match make_update update_data with
          | Raise (ValidationError error_msg) =>
              reply db ("There was an issue updating the todo: " ++ error_msg)
          | Raise e => Some (Raise e)
          | Ok clean_update_data =>
              Some (r <- crud.update_user_todo db (id target_todo)
                           (crud.Dict clean_update_data)
                           (user_id current_user) now ;;
                    let '(db', updated_todo) := r in
                    let update_fields := keys clean_update_data in
                    if mem "completed" update_fields
                       && (List.length update_fields =? 1)%nat
                    then Ok (db', "Successfully marked '" ++ title updated_todo
                                  ++ "' as complete.")
                    else Ok (db', "Successfully updated '" ++ original_title
                                  ++ "'. Changed fields: "
                                  ++ Str.join ", " update_fields ++ "."))
          end
      | matching_todos =>
          reply db (multiple_update_message original_title matching_todos)
      end end end end
  end.

Definition do_delete (args : Args) (db : Db) (current_user : User)
  : option (result (Db * string)) :=
  match a_title args with
  | None | Some "" =>
      reply db "Please provide the title of the todo you want to delete."
  | Some todo_title =>
      match crud.get_todos_by_title db todo_title (user_id current_user) with
      | [] => reply db (not_found_message todo_title)
      | [target_todo] =>
          Some (db' <- crud.delete_user_todo db (id target_todo)
                         (user_id current_user) ;;
                Ok (db', "Successfully deleted todo: '" ++ title target_todo
                         ++ "'."))
      | matching_todos => reply db (multiple_delete_message matching_todos)
      end
  end.

(** [execute_todo_action]: the session after the call and the text
    handed back to the model; [None] when the fuel of the suffix search
    ran out. *)
Definition execute_todo_action (fuel : nat) (now : datetime)
    (action_type : string) (args : Args) (db : Db)
    (current_user : option User) : option (Db * string) :=
  match current_user with
  | None => Some (db, login_message)
  | Some user =>
      let dated := String.eqb action_type "create_todo"
                   || String.eqb action_type "update_todo" in
      let parsed_date :=
        match a_due_at args with
        | Some s => if dated then Some (s, parse s) else None
        | None => None
        end in
      match parsed_date with
      | Some (s, None) => Some (db, bad_date s)
      | _ =>
          let due := match parsed_date with
                     | Some (_, d) => d
                     | None => None
                     end in
          let body :=
            if String.eqb action_type "create_todo" then
              do_create fuel now args due db user
            else if String.eqb action_type "list_todos" then
              do_list db user
            else if String.eqb action_type "update_todo" then
              do_update now args due db user
            else if String.eqb action_type "delete_todo" then
              do_delete args db user
            else reply db ("Unknown action: " ++ action_type) in
          match body with
          | None => None
          | Some (Ok r) => Some r
          | Some (Raise _) => (* except Exception *) Some (db, apology)
          end
      end
  end.

End Dispatcher.

End chatbot.


(* ================================================================= *)
(** ** Vocabulary of the statements *)

Module Resolver.
Import crud.

(** No task of the owner matches the title, whatever the case. *)
Definition free (db : Db) (user : Z) (ttl : string) : Prop :=
  get_todos_by_title db ttl user = [].

Definition taken (db : Db) (user : Z) (ttl : string) : Prop :=
  get_todos_by_title db ttl user <> [].

(** How many tasks the owner has. *)
Definition owned (db : Db) (user : Z) : nat :=
  List.length (filter (owned_by user) (todos db)).

(** How many tasks the owner has in a category. *)
Definition tasks_in (db : Db) (user : Z) (cat : string) : Z :=
  count (filter (fun t => owned_by user t && String.eqb (category t) cat)
                (todos db)).

(** The call names something to change: a key besides
    [original_title]. *)
Definition has_change (args : chatbot.Args) : bool :=
  match chatbot.a_title args, chatbot.a_new_title args,
        chatbot.a_description args, chatbot.a_due_at args,
        chatbot.a_completed args, chatbot.a_priority args,
        chatbot.a_category args with
  | None, None, None, None, None, None, None => false
  | _, _, _, _, _, _, _ => true
  end.

(** A supplied value is one of the allowed ones. *)
Definition allowed_if_given (v : option string) (allowed : list string) : Prop :=
  forall x, v = Some x -> chatbot.mem x allowed = true.

(** No stored reset token has that string. *)
Definition fresh (db : Db) (tok : string) : Prop :=
  forall r, In r (password_reset_tokens db) -> token r <> tok.

(** The unique constraint of the [token] column. *)
Definition tokens_unique (db : Db) : Prop :=
  NoDup (map token (password_reset_tokens db)).

(** What a supplied field does to a column. *)
Definition applied {A} (supplied : option A) (old new : A) : Prop :=
  match supplied with
  | Some v => new = v
  | None => new = old
  end.

(** What a supplied field does to a column that is NOT NULL. *)
Definition applied_required {A} (supplied : option (option A)) (old new : A)
  : Prop :=
  match supplied with
  | Some (Some v) => new = v
  | Some None => False
  | None => new = old
  end.

(** The [try] and its [except Exception]. *)
Definition guarded (db : Db) (body : option (result (Db * string)))
  : option (Db * string) :=
  match body with
  | None => None
  | Some (Ok r) => Some r
  | Some (Raise _) => Some (db, chatbot.apology)
  end.

End Resolver.

(** Invariants of the store and measures used by the statements. *)
Module Invariants.
Import crud.

(** Primary keys of the tasks are pairwise different. *)
Definition ids_unique (db : Db) : Prop := NoDup (map id (todos db)).

(** The owner's titles are pairwise different, whatever the case. *)
Definition titles_distinct (db : Db) (user : Z) : Prop :=
  NoDup (map (fun t => Str.lower (title t))
             (filter (owned_by user) (todos db))).

(** The unique constraints of the [users] table. *)
Definition users_unique (db : Db) : Prop :=
  NoDup (map username (users db)) /\ NoDup (map email (users db)).

Definition sum (l : list Z) : Z := fold_right Z.add 0 l.

(** Ascending due dates. *)
Fixpoint due_ascending (l : list Todo) : Prop :=
  match l with
  | [] => True
  | x :: r => (forall y, In y r -> due_key x <= due_key y) /\ due_ascending r
  end.

(** The task's category is one of the six the dashboard lists. *)
Definition canonical (t : Todo) : bool :=
  chatbot.mem (category t) dashboard.all_categories.

(** The parsed date, when the date of the call parses. *)
Definition due_of (parse : string -> option datetime) (args : chatbot.Args)
  : option datetime :=
  match chatbot.a_due_at args with
  | Some s => parse s
  | None => None
  end.

End Invariants.

(** Stores and requests the statements are tried on. *)
Module Sample.

Definition alice : User := mkUser 1 "alice" "alice@x.com" "digest".

Definition task (i : Z) (ttl : string) : Todo :=
  mkTodo i ttl None false None 0 0 "low" "others" (Some 1).

Definition request (ttl : string) : TodoCreate :=
  mkTodoCreate ttl None None None None.

(** Alice's store after her first task. *)
Definition milk : Db := mkDb [alice] [task 1 "Buy milk"] [].

(** Alice's store with a title and its second copy. *)
Definition milk2 : Db :=
  mkDb [alice] [task 1 "Buy milk"; task 2 "Buy milk (2)"] [].

(** Two tasks of Alice and one of somebody else. *)
Definition chores : Db :=
  mkDb [alice]
       [task 1 "Buy milk"; task 2 "Call mom";
        mkTodo 3 "Buy milk" None false None 0 0 "high" "work" (Some 2)]
       [].

(** A rename of task 2 onto the title of task 1, with two more fields. *)
Definition rename_onto_milk : TodoUpdate :=
  {| u_title := Some (Some "buy MILK");
     u_description := Some (Some "2 litres");
     u_due_at := None;
     u_completed := Some (Some true);
     u_priority := Some (Some "high");
     u_category := None |}.

(** The same rename with [completed] set to null. *)
Definition rename_with_null : TodoUpdate :=
  {| u_title := Some (Some "buy MILK");
     u_description := None;
     u_due_at := None;
     u_completed := Some None;
     u_priority := None;
     u_category := None |}.

(** Alice just after signup. *)
Definition signup : Db := mkDb [alice] [] [].

(** Alice with 101 tasks, "task 1" to "task 101". *)
Definition crowded : Db :=
  mkDb [alice]
       (map (fun n => task (Z.of_nat n) ("task " ++ Str.dec n)) (seq 1 101))
       [].

Definition no_args : chatbot.Args :=
  chatbot.mkArgs None None None None None None None None.

(** A date parser that knows one phrase, and sets walked in the order
    they are written. *)
Definition parse (s : string) : option datetime :=
  if String.eqb s "tomorrow" then Some 86400 else None.

Definition iter (s : list string) : list string := s.

(** Two tasks of Alice whose titles differ by case only, as a rename
    leaves them. *)
Definition twins : Db :=
  mkDb [alice] [task 1 "Buy milk"; task 2 "buy milk"] [].

Definition mark_done : chatbot.Args :=
  chatbot.mkArgs None (Some "buy milk") None None None (Some true) None None.

Definition mark_not_done : chatbot.Args :=
  chatbot.mkArgs None (Some "buy milk") None None None (Some false) None None.

Definition make_urgent : chatbot.Args :=
  chatbot.mkArgs None (Some "buy milk") None None None None (Some "urgent") None.

Definition due_whenever : chatbot.Args :=
  chatbot.mkArgs None (Some "buy milk") None None (Some "whenever") None None None.

Definition hash (password : string) : string := "digest of " ++ password.

(** A mail client that delivers, and one that is down. *)
Definition send (_ : auth.email_params) : result unit := Ok tt.
Definition send_down (_ : auth.email_params) : result unit :=
  Raise (AttributeError "connection refused").

(** Alice asked for a reset at time 1000; an older request of hers ran
    out at time 500. *)
Definition pending : Db :=
  mkDb [alice] []
       [mkToken 1 1 "stale" 500; mkToken 2 1 "s3cret" 4600].

(** A request with every optional field left out but the category. *)
Definition errand (ttl : string) : TodoCreate :=
  mkTodoCreate ttl (Some "before noon") None None (Some "shopping").

(** A week of Alice's: two tasks done, one late, two to come, one in a
    category the dashboard does not list, and a task of somebody else. *)
Definition week : Db :=
  mkDb [alice]
       [mkTodo 1 "Report" None true (Some 50) 0 0 "high" "work" (Some 1);
        mkTodo 2 "Gym" None false (Some 80) 0 0 "low" "health" (Some 1);
        mkTodo 3 "Thesis" None false (Some 300) 0 0 "high" "study" (Some 1);
        mkTodo 4 "Milk" None false (Some 200) 0 0 "low" "shopping" (Some 1);
        mkTodo 5 "Call" None true None 0 0 "medium" "personal" (Some 1);
        mkTodo 6 "Taxes" None false (Some 150) 0 0 "high" "work" (Some 2)]
       [].

Definition add_errand : chatbot.Args :=
  chatbot.mkArgs (Some "Buy Milk") None None (Some "2 litres")
                 (Some "tomorrow") None (Some "high") None.

Definition add_hobby : chatbot.Args :=
  chatbot.mkArgs (Some "Paint") None None None None None None (Some "hobby").

Definition drop_call : chatbot.Args :=
  chatbot.mkArgs (Some "CALL MOM") None None None None None None None.

Definition drop_milk : chatbot.Args :=
  chatbot.mkArgs (Some "buy milk") None None None None None None None.

Definition retitle : chatbot.Args :=
  chatbot.mkArgs None (Some "call mom") (Some "Call dad") None None None
                 (Some "high") None.

(** A hasher's check and a signer to go with [hash]. *)
Definition verify (password hashed : string) : bool :=
  String.eqb hashed (hash password).

Definition sign (subject : string) (minutes : Z) : string :=
  "token for " ++ subject.

Definition bob : User := mkUser 2 "bob" "bob@x.com" (hash "hunter2").

(** Alice and Bob, with a task each and a reset token of Bob's. *)
Definition town : Db :=
  mkDb [mkUser 1 "alice" "alice@x.com" (hash "pw"); bob]
       [task 1 "Buy milk";
        mkTodo 2 "Taxes" None false None 0 0 "high" "work" (Some 2)]
       [mkToken 1 2 "bobs" 900].

Definition carol : auth.UserCreate :=
  auth.mkUserCreate "carol" "carol@x.com" "s3same".

(** A reset token whose user is gone. *)
Definition orphaned : Db :=
  mkDb [alice] [] [mkToken 1 7 "ghost" 5000].

(** The town once Bob has deleted his account: his tasks are gone, his
    reset token is still there. *)
Definition town_without_bob : Db :=
  mkDb [mkUser 1 "alice" "alice@x.com" (hash "pw")]
       [task 1 "Buy milk"]
       [mkToken 1 2 "bobs" 900].

(** Ann's address is Bob's username. *)
Definition namesakes : Db :=
  mkDb [mkUser 1 "ann" "bob" (hash "ann's");
        mkUser 2 "bob" "bob@x.com" (hash "bob's")]
       [] [].

End Sample.

(* ================================================================= *)
(** * Properties *)

(** ** Strings *)

Module StrFacts.
Import Str.

Lemma lower_app (a b : string) : lower (a ++ b) = lower a ++ lower b.
Proof.
  induction a as [|c a IH]; simpl; [reflexivity | now rewrite IH].
Qed.

Lemma lower_uint (d : Decimal.uint) :
  lower (NilEmpty.string_of_uint d) = NilEmpty.string_of_uint d.
Proof.
  induction d; simpl; try reflexivity; now rewrite IHd.
Qed.

Lemma lower_dec (n : nat) : lower (dec n) = dec n.
Proof. apply lower_uint. Qed.

Lemma dec_inj (n m : nat) : dec n = dec m -> n = m.
Proof.
  unfold dec. intros H.
  assert (E : Some (Nat.to_uint n) = Some (Nat.to_uint m)).
  { rewrite <- !NilEmpty.usu. now rewrite H. }
  injection E as E.
  rewrite <- (DecimalNat.Unsigned.of_to n), <- (DecimalNat.Unsigned.of_to m).
  now rewrite E.
Qed.

Lemma app_inv_head (a b c : string) : a ++ b = a ++ c -> b = c.
Proof.
  induction a as [|x a IH]; simpl; intros H; [exact H|].
  injection H as H. auto.
Qed.

Lemma app_length (a b : string) :
  String.length (a ++ b) = (String.length a + String.length b)%nat.
Proof. induction a; simpl; auto. Qed.

Lemma app_inv_tail (a b c : string) : a ++ c = b ++ c -> a = b.
Proof.
  revert b. induction a as [|x a IH]; intros [|y b] H; simpl in *.
  - reflexivity.
  - apply (f_equal String.length) in H. simpl in H. rewrite app_length in H. lia.
  - apply (f_equal String.length) in H. simpl in H. rewrite app_length in H. lia.
  - injection H as -> H. f_equal. auto.
Qed.

Lemma app_assoc (a b c : string) : (a ++ b) ++ c = a ++ b ++ c.
Proof. induction a; simpl; congruence. Qed.

Lemma eq_ci_true (a b : string) : eq_ci a b = true <-> lower a = lower b.
Proof. unfold eq_ci. apply String.eqb_eq. Qed.

Lemma eq_ci_false (a b : string) : eq_ci a b = false <-> lower a <> lower b.
Proof. unfold eq_ci. apply String.eqb_neq. Qed.

Lemma contains_refl (s : string) : contains s s.
Proof.
  exists "", "". simpl.
  induction s; simpl; congruence.
Qed.

Lemma contains_app_l (n a b : string) : contains n a -> contains n (a ++ b).
Proof.
  intros (pre & post & ->). exists pre, (post ++ b).
  now rewrite !app_assoc.
Qed.

Lemma contains_app_r (n a b : string) : contains n b -> contains n (a ++ b).
Proof.
  intros (pre & post & ->). exists (a ++ pre), post.
  now rewrite !app_assoc.
Qed.

Lemma contains_join (sep x : string) (l : list string) :
  In x l -> contains x (join sep l).
Proof.
  induction l as [|y [|z r] IH]; intros Hin.
  - destruct Hin.
  - destruct Hin as [->|[]]. apply contains_refl.
  - destruct Hin as [->|Hin].
    + change (contains x (x ++ sep ++ join sep (z :: r))).
      apply contains_app_l, contains_refl.
    + change (contains x (y ++ sep ++ join sep (z :: r))).
      apply contains_app_r, contains_app_r, IH, Hin.
Qed.

End StrFacts.

(** ** The title resolver of [create_user_todo] *)

Module ResolverFacts.
Import Str StrFacts crud Resolver.

Lemma find_filter_nil {A} (f : A -> bool) (l : list A) :
  find f l = None <-> filter f l = [].
Proof.
  induction l as [|x l IH]; simpl; [tauto|].
  destruct (f x); [split; discriminate | exact IH].
Qed.

Lemma find_free db user ttl :
  find (title_filter ttl user) (todos db) = None <-> free db user ttl.
Proof. apply find_filter_nil. Qed.

Lemma find_taken db user ttl :
  (exists t, find (title_filter ttl user) (todos db) = Some t) <->
  taken db user ttl.
Proof.
  unfold taken, get_todos_by_title. rewrite <- find_filter_nil.
  destruct (find _ _); split; intros H; try congruence; eauto.
  now destruct H.
Qed.

Lemma free_not_taken db user ttl : free db user ttl <-> ~ taken db user ttl.
Proof.
  unfold free, taken. destruct (get_todos_by_title db ttl user); split;
    intros H; try congruence; try tauto.
  exfalso. apply H. discriminate.
Qed.

Lemma taken_in db user ttl :
  taken db user ttl <->
  exists t, In t (todos db) /\ owned_by user t = true
            /\ lower (title t) = lower ttl.
Proof.
  unfold taken, get_todos_by_title. split.
  - intros H. destruct (filter _ _) as [|t r] eqn:E; [congruence|].
    assert (Hin : In t (filter (title_filter ttl user) (todos db)))
      by (rewrite E; now left).
    apply filter_In in Hin. destruct Hin as [Hin Hf].
    unfold title_filter in Hf. apply andb_true_iff in Hf.
    destruct Hf as [Hc Ho]. apply eq_ci_true in Hc. eauto.
  - intros (t & Hin & Ho & Hc) E.
    assert (Hf : In t (filter (title_filter ttl user) (todos db))).
    { apply filter_In. split; [exact Hin|].
      unfold title_filter. apply andb_true_iff. split; [|exact Ho].
      now apply eq_ci_true. }
    rewrite E in Hf. destruct Hf.
Qed.

(** Matching only looks at the title with its case folded. *)
Lemma taken_lower db user a b :
  lower a = lower b -> taken db user a -> taken db user b.
Proof.
  intros E H. apply taken_in in H. apply taken_in.
  destruct H as (t & ? & ? & ?). exists t. repeat split; congruence.
Qed.

Lemma free_lower db user a b :
  lower a = lower b -> free db user a -> free db user b.
Proof.
  intros E H. apply free_not_taken in H. apply free_not_taken.
  intros Hb. apply H. now apply (taken_lower db user b a).
Qed.

Lemma lower_suffixed ttl k :
  lower (suffixed ttl k) = lower ttl ++ " (" ++ dec k ++ ")".
Proof.
  unfold suffixed. rewrite !lower_app, lower_dec. reflexivity.
Qed.

Lemma lower_suffixed_eq a b k :
  lower a = lower b -> lower (suffixed a k) = lower (suffixed b k).
Proof. intros E. now rewrite !lower_suffixed, E. Qed.

(** Two counters never give the same candidate. *)
Lemma suffixed_inj ttl j k :
  lower (suffixed ttl j) = lower (suffixed ttl k) -> j = k.
Proof.
  rewrite !lower_suffixed. intros H.
  apply app_inv_head in H. apply (app_inv_head " (") in H.
  apply app_inv_tail in H. now apply dec_inj.
Qed.

(** The loop with a list [l] that holds every folded title still in the
    way: each turn that does not leave removes one of them. *)
Lemma suffix_loop_bounded db user ttl :
  forall fuel (l : list string) k,
    (forall j, (k <= j)%nat -> taken db user (suffixed ttl j) ->
               In (lower (suffixed ttl j)) l) ->
    (List.length l < fuel)%nat ->
    exists j, (k <= j)%nat
      /\ suffix_loop fuel db user ttl k = Some (suffixed ttl j)
      /\ free db user (suffixed ttl j)
      /\ forall i, (k <= i < j)%nat -> taken db user (suffixed ttl i).
Proof.
  induction fuel as [|fuel IH]; intros l k Hl Hlen; [lia|].
  simpl. destruct (find _ _) as [t|] eqn:E.
  - assert (Hk : taken db user (suffixed ttl k)) by (apply find_taken; eauto).
    pose proof (Hl k (le_n k) Hk) as Hin.
    destruct (IH (remove string_dec (lower (suffixed ttl k)) l) (S k))
      as (j & Hj & Hrun & Hfree & Hmin).
    + intros j Hj Ht. apply in_in_remove.
      * intros Heq. apply suffixed_inj in Heq. lia.
      * apply Hl; [lia | exact Ht].
    + pose proof (remove_length_lt string_dec l _ Hin). lia.
    + exists j. split; [lia|]. split; [exact Hrun|]. split; [exact Hfree|].
      intros i Hi. destruct (Nat.eq_dec i k) as [->|Hne]; [exact Hk|].
      apply Hmin. lia.
  - exists k. split; [lia|]. split; [reflexivity|]. split.
    + now apply find_free.
    + intros i Hi. lia.
Qed.

Lemma taken_owned_titles db user ttl :
  taken db user ttl ->
  In (lower ttl) (map (fun t => lower (title t))
                      (filter (owned_by user) (todos db))).
Proof.
  intros H. apply taken_in in H. destruct H as (t & Hin & Ho & Hc).
  rewrite <- Hc. apply (in_map (fun t => lower (title t))).
  apply filter_In. now split.
Qed.

Lemma suffix_loop_total db user ttl fuel :
  (owned db user < fuel)%nat ->
  exists k, (2 <= k)%nat
    /\ suffix_loop fuel db user ttl 2 = Some (suffixed ttl k)
    /\ free db user (suffixed ttl k)
    /\ forall i, (2 <= i < k)%nat -> taken db user (suffixed ttl i).
Proof.
  intros Hfuel.
  apply (suffix_loop_bounded db user ttl fuel
           (map (fun t => lower (title t)) (filter (owned_by user) (todos db)))).
  - intros j _ Ht. now apply taken_owned_titles.
  - rewrite length_map. exact Hfuel.
Qed.

(** The loop run by hand when the first candidates are known. *)
Lemma suffix_loop_here db user ttl fuel k :
  free db user (suffixed ttl k) ->
  suffix_loop (S fuel) db user ttl k = Some (suffixed ttl k).
Proof.
  intros H. apply find_free in H. simpl. now rewrite H.
Qed.

Lemma suffix_loop_next db user ttl fuel k :
  taken db user (suffixed ttl k) ->
  suffix_loop (S fuel) db user ttl k = suffix_loop fuel db user ttl (S k).
Proof.
  intros H. apply find_taken in H. destruct H as [t H]. simpl. now rewrite H.
Qed.

End ResolverFacts.

(** ** Creation *)

Module CreateFacts.
Import Str StrFacts crud Resolver ResolverFacts.

Lemma create_free fuel db todo user now :
  free db user (c_title todo) ->
  create_user_todo fuel db todo user now =
    Some (add_todo db (new_row db todo (c_title todo) user now),
          new_row db todo (c_title todo) user now).
Proof.
  intros H. apply find_free in H. unfold create_user_todo. now rewrite H.
Qed.

Lemma create_taken fuel db todo user now :
  taken db user (c_title todo) ->
  create_user_todo fuel db todo user now =
    match suffix_loop fuel db user (c_title todo) 2 with
    | Some ttl => Some (add_todo db (new_row db todo ttl user now),
                        new_row db todo ttl user now)
    | None => None
    end.
Proof.
  intros H. apply find_taken in H. destruct H as [t H].
  unfold create_user_todo. now rewrite H.
Qed.

(** A colliding creation stores the first free candidate. *)
Lemma create_first_free fuel db todo user now :
  taken db user (c_title todo) ->
  (owned db user < fuel)%nat ->
  exists k row,
    (2 <= k)%nat
    /\ create_user_todo fuel db todo user now = Some (add_todo db row, row)
    /\ title row = suffixed (c_title todo) k
    /\ free db user (title row)
    /\ forall i, (2 <= i < k)%nat -> taken db user (suffixed (c_title todo) i).
Proof.
  intros Ht Hfuel.
  destruct (suffix_loop_total db user (c_title todo) fuel Hfuel)
    as (k & Hk & Hrun & Hfree & Hmin).
  exists k, (new_row db todo (suffixed (c_title todo) k) user now).
  rewrite (create_taken _ _ _ _ _ Ht), Hrun. simpl. auto.
Qed.

End CreateFacts.

(* ================================================================= *)
(** * Main results *)

Import Str StrFacts crud Resolver ResolverFacts CreateFacts.

Lemma first_free_2 db user ttl k :
  (2 <= k)%nat ->
  (forall i, (2 <= i < k)%nat -> taken db user (suffixed ttl i)) ->
  free db user (suffixed ttl 2) -> k = 2%nat.
Proof.
  intros Hk Hmin Hfree. apply free_not_taken in Hfree.
  destruct (Nat.eq_dec k 2) as [|Hne]; [assumption|].
  exfalso. apply Hfree, Hmin. lia.
Qed.

Lemma first_free_3 db user ttl k :
  (2 <= k)%nat ->
  (forall i, (2 <= i < k)%nat -> taken db user (suffixed ttl i)) ->
  free db user (suffixed ttl k) ->
  taken db user (suffixed ttl 2) ->
  free db user (suffixed ttl 3) -> k = 3%nat.
Proof.
  intros Hk Hmin Hfree H2 H3. apply free_not_taken in H3.
  destruct (Nat.eq_dec k 2) as [->|Hne2].
  { apply free_not_taken in Hfree. contradiction. }
  destruct (Nat.eq_dec k 3) as [|Hne3]; [assumption|].
  exfalso. apply H3, Hmin. lia.
Qed.

(** C9. The suffix search of task creation ends: with more fuel than the
    owner has tasks the loop leaves with the candidate of some counter
    [k >= 2]; that candidate matches none of the owner's titles, every
    candidate of a smaller counter matches one, and [create_user_todo]
    returns. *)
Theorem suffix_search_terminates db user todo now fuel :
  (owned db user < fuel)%nat ->
  (exists k,
      (2 <= k)%nat
      /\ suffix_loop fuel db user (c_title todo) 2
         = Some (suffixed (c_title todo) k)
      /\ free db user (suffixed (c_title todo) k)
      /\ forall i, (2 <= i < k)%nat ->
                   taken db user (suffixed (c_title todo) i))
  /\ exists r, create_user_todo fuel db todo user now = Some r.
Proof.
  intros Hfuel. split.
  - now apply suffix_loop_total.
  - destruct (find (title_filter (c_title todo) user) (todos db)) eqn:E.
    + assert (Ht : taken db user (c_title todo)) by (apply find_taken; eauto).
      destruct (create_first_free fuel db todo user now Ht Hfuel)
        as (k & row & _ & Hc & _).
      eauto.
    + apply find_free in E. rewrite (create_free _ _ _ _ _ E). eauto.
Qed.

Lemma suffix_search_terminates_witness :
  (owned Sample.milk 1 < 2)%nat
  /\ ((exists k,
        (2 <= k)%nat
        /\ suffix_loop 2 Sample.milk 1 "buy milk" 2 = Some (suffixed "buy milk" k)
        /\ free Sample.milk 1 (suffixed "buy milk" k)
        /\ forall i, (2 <= i < k)%nat ->
                     taken Sample.milk 1 (suffixed "buy milk" i))
      /\ exists r,
          create_user_todo 2 Sample.milk (Sample.request "buy milk") 1 0 = Some r).
Proof.
  assert (H : (owned Sample.milk 1 < 2)%nat) by (vm_compute; lia).
  split; [exact H|].
  exact (suffix_search_terminates Sample.milk 1 (Sample.request "buy milk") 0 2 H).
Defined.

(** C1 (as amended). When the requested title [T] matches a task of the
    owner whatever the case, creation stores the requested title as it
    was typed followed by a suffix [" (k)"], [k >= 2], and the stored
    title matches no task the owner had: it is ["T (2)"] when that is
    free (the second colliding creation) and ["T (3)"] when ["T (2)"]
    is held and ["T (3)"] free (the third). *)
Theorem create_collision_suffix db user todo now fuel :
  taken db user (c_title todo) ->
  (owned db user < fuel)%nat ->
  exists k row,
    (2 <= k)%nat
    /\ create_user_todo fuel db todo user now = Some (add_todo db row, row)
    /\ title row = c_title todo ++ " (" ++ dec k ++ ")"
    /\ free db user (title row)
    /\ (free db user (c_title todo ++ " (2)") -> k = 2%nat)
    /\ (taken db user (c_title todo ++ " (2)") ->
        free db user (c_title todo ++ " (3)") -> k = 3%nat).
Proof.
  intros Ht Hfuel.
  destruct (create_first_free fuel db todo user now Ht Hfuel)
    as (k & row & Hk & Hc & Htitle & Hfree & Hmin).
  exists k, row. repeat (split; [assumption|]). split.
  - apply (first_free_2 db user (c_title todo) k Hk Hmin).
  - rewrite Htitle in Hfree.
    apply (first_free_3 db user (c_title todo) k Hk Hmin Hfree).
Qed.

Lemma create_collision_suffix_witness :
  taken Sample.milk 1 "buy milk"
  /\ (owned Sample.milk 1 < 2)%nat
  /\ exists k row,
      (2 <= k)%nat
      /\ create_user_todo 2 Sample.milk (Sample.request "buy milk") 1 0
         = Some (add_todo Sample.milk row, row)
      /\ title row = "buy milk" ++ " (" ++ dec k ++ ")"
      /\ free Sample.milk 1 (title row)
      /\ (free Sample.milk 1 ("buy milk" ++ " (2)") -> k = 2%nat)
      /\ (taken Sample.milk 1 ("buy milk" ++ " (2)") ->
          free Sample.milk 1 ("buy milk" ++ " (3)") -> k = 3%nat).
Proof.
  assert (H1 : taken Sample.milk 1 "buy milk") by (vm_compute; discriminate).
  assert (H2 : (owned Sample.milk 1 < 2)%nat) by (vm_compute; lia).
  split; [exact H1|]. split; [exact H2|].
  exact (create_collision_suffix Sample.milk 1 (Sample.request "buy milk") 0 2 H1 H2).
Defined.

(** C1 as it is written fails: with "Buy milk" stored, creating
    "buy milk" stores "buy milk (2)", not "Buy milk (2)". *)
Lemma create_buy_milk_keeps_requested_case :
  option_map (fun r => title (snd r))
    (create_user_todo 2 Sample.milk (Sample.request "buy milk") 1 0)
  = Some "buy milk (2)"
  /\ ~ (exists db' row,
          create_user_todo 2 Sample.milk (Sample.request "buy milk") 1 0
          = Some (db', row)
          /\ title row = "Buy milk (2)").
Proof.
  split; [reflexivity|].
  intros (db' & row & H & Ht). vm_compute in H.
  injection H as _ H. subst row. discriminate Ht.
Qed.

Lemma suffixed_2_not_3 ttl k : suffixed (suffixed ttl 2) k <> suffixed ttl 3.
Proof.
  unfold suffixed. rewrite app_assoc. intros H.
  apply app_inv_head in H. discriminate H.
Qed.

(** C2 (as amended). With [T] and ["T (2)"] held by the owner and
    ["T (3)"] free, a request for [T] is stored as ["T (3)"].  A request
    for ["T (2)"] is suffixed in its turn: it is stored as
    ["T (2) (k)"] for the first free [k >= 2] -- every ["T (2) (i)"]
    with [2 <= i < k] is held, so [k = 2] when ["T (2) (2)"] is free --
    never as ["T (3)"]; in both cases the stored title matches no task
    the owner had. *)
Theorem allocation_skips_taken_suffix db user todo todo2 now fuel :
  taken db user (c_title todo) ->
  taken db user (c_title todo ++ " (2)") ->
  free db user (c_title todo ++ " (3)") ->
  c_title todo2 = c_title todo ++ " (2)" ->
  (owned db user < fuel)%nat ->
  (exists row,
      create_user_todo fuel db todo user now = Some (add_todo db row, row)
      /\ title row = c_title todo ++ " (3)"
      /\ free db user (title row))
  /\ (exists k row,
         (2 <= k)%nat
         /\ create_user_todo fuel db todo2 user now = Some (add_todo db row, row)
         /\ title row = c_title todo ++ " (2)" ++ " (" ++ dec k ++ ")"
         /\ free db user (title row)
         /\ (forall i, (2 <= i < k)%nat ->
                       taken db user
                         (c_title todo ++ " (2)" ++ " (" ++ dec i ++ ")"))
         /\ (free db user (c_title todo ++ " (2)" ++ " (2)") -> k = 2%nat)
         /\ title row <> c_title todo ++ " (3)").
Proof.
  intros Ht Ht2 Hf3 E2 Hfuel. split.
  - destruct (create_first_free fuel db todo user now Ht Hfuel)
      as (k & row & Hk & Hc & Htitle & Hfree & Hmin).
    assert (k = 3%nat) as ->.
    { rewrite Htitle in Hfree.
      exact (first_free_3 db user (c_title todo) k Hk Hmin Hfree Ht2 Hf3). }
    exists row. auto.
  - assert (Ht' : taken db user (c_title todo2)) by (rewrite E2; exact Ht2).
    destruct (create_first_free fuel db todo2 user now Ht' Hfuel)
      as (k & row & Hk & Hc & Htitle & Hfree & Hmin).
    pose proof (first_free_2 db user (c_title todo2) k Hk Hmin) as H2.
    rewrite E2 in Htitle, H2.
    change ((c_title todo ++ " (2)") ++ " (" ++ dec k ++ ")")
      with (suffixed (suffixed (c_title todo) 2) k) in Htitle.
    exists k, row. split; [exact Hk|]. split; [exact Hc|]. split.
    { rewrite Htitle. unfold suffixed. now rewrite !app_assoc. }
    split; [exact Hfree|]. split.
    { intros i Hi. specialize (Hmin i Hi). rewrite E2 in Hmin.
      unfold suffixed in Hmin. now rewrite !app_assoc in Hmin. }
    split.
    { intros Hf. apply H2.
      change (free db user (suffixed (suffixed (c_title todo) 2) 2)).
      unfold suffixed. now rewrite !app_assoc. }
    rewrite Htitle. apply suffixed_2_not_3.
Qed.

Lemma allocation_skips_taken_suffix_witness :
  taken Sample.milk2 1 "Buy milk"
  /\ taken Sample.milk2 1 ("Buy milk" ++ " (2)")
  /\ free Sample.milk2 1 ("Buy milk" ++ " (3)")
  /\ (owned Sample.milk2 1 < 3)%nat
  /\ (exists row,
        create_user_todo 3 Sample.milk2 (Sample.request "Buy milk") 1 0
        = Some (add_todo Sample.milk2 row, row)
        /\ title row = "Buy milk" ++ " (3)"
        /\ free Sample.milk2 1 (title row))
  /\ (exists k row,
        (2 <= k)%nat
        /\ create_user_todo 3 Sample.milk2 (Sample.request "Buy milk (2)") 1 0
           = Some (add_todo Sample.milk2 row, row)
        /\ title row = "Buy milk" ++ " (2)" ++ " (" ++ dec k ++ ")"
        /\ free Sample.milk2 1 (title row)
        /\ (forall i, (2 <= i < k)%nat ->
                      taken Sample.milk2 1
                        ("Buy milk" ++ " (2)" ++ " (" ++ dec i ++ ")"))
        /\ (free Sample.milk2 1 ("Buy milk" ++ " (2)" ++ " (2)") -> k = 2%nat)
        /\ title row <> "Buy milk" ++ " (3)").
Proof.
  assert (H1 : taken Sample.milk2 1 "Buy milk") by (vm_compute; discriminate).
  assert (H2 : taken Sample.milk2 1 ("Buy milk" ++ " (2)"))
    by (vm_compute; discriminate).
  assert (H3 : free Sample.milk2 1 ("Buy milk" ++ " (3)")) by reflexivity.
  assert (H4 : (owned Sample.milk2 1 < 3)%nat) by (vm_compute; lia).
  split; [exact H1|]. split; [exact H2|]. split; [exact H3|]. split; [exact H4|].
  exact (allocation_skips_taken_suffix Sample.milk2 1
           (Sample.request "Buy milk") (Sample.request "Buy milk (2)") 0 3
           H1 H2 H3 eq_refl H4).
Defined.

(** C2 as it is written fails: with "Buy milk" and "Buy milk (2)"
    stored, a request for "Buy milk (2)" is stored as
    "Buy milk (2) (2)", not as "Buy milk (3)". *)
Lemma request_for_suffixed_title_is_suffixed_again :
  option_map (fun r => title (snd r))
    (create_user_todo 3 Sample.milk2 (Sample.request "Buy milk (2)") 1 0)
  = Some "Buy milk (2) (2)"
  /\ ~ (exists db' row,
          create_user_todo 3 Sample.milk2 (Sample.request "Buy milk (2)") 1 0
          = Some (db', row)
          /\ title row = "Buy milk (3)").
Proof.
  split; [reflexivity|].
  intros (db' & row & H & Ht). vm_compute in H.
  injection H as _ H. subst row. discriminate Ht.
Qed.

(** ** Update *)

Lemma flush_fields old new now :
  id (flush old new now) = id new
  /\ title (flush old new now) = title new
  /\ description (flush old new now) = description new
  /\ completed (flush old new now) = completed new
  /\ due_at (flush old new now) = due_at new
  /\ priority (flush old new now) = priority new
  /\ category (flush old new now) = category new
  /\ owner_id (flush old new now) = owner_id new.
Proof. unfold flush. destruct (dirty old new); simpl; repeat split. Qed.

Lemma write_row_in db row :
  (exists t, In t (todos db) /\ id t = id row) ->
  In row (todos (write_row db row)).
Proof.
  intros (t & Hin & Hid). simpl.
  apply in_map_iff. exists t. split; [|exact Hin].
  apply Z.eqb_eq in Hid. now rewrite Hid.
Qed.

(** C3 (as amended). An update of an owned task whose new title
    matches, whatever the case, another task of the same owner goes
    through when it sets no null on a column that is NOT NULL (title,
    completed, priority, category): it returns the row, whose title is
    the requested one as typed, every other supplied field is set and
    every field left out is kept, and the store holds that row. *)
Theorem update_collision_not_blocked db i patch user now db_todo other new_title :
  find (id_filter i user) (todos db) = Some db_todo ->
  u_title patch = Some (Some new_title) ->
  null_in_required patch = false ->
  In other (todos db) ->
  owned_by user other = true ->
  id other <> id db_todo ->
  lower (title other) = lower new_title ->
  exists row,
    update_user_todo db i (Model patch) user now = Ok (write_row db row, row)
    /\ In row (todos (write_row db row))
    /\ id row = id db_todo
    /\ owner_id row = owner_id db_todo
    /\ title row = new_title
    /\ applied (u_description patch) (description db_todo) (description row)
    /\ applied (u_due_at patch) (due_at db_todo) (due_at row)
    /\ applied_required (u_completed patch) (completed db_todo) (completed row)
    /\ applied_required (u_priority patch) (priority db_todo) (priority row)
    /\ applied_required (u_category patch) (category db_todo) (category row).
Proof.
  intros Hfind Htitle Hnull Hin Hown Hdiff Hci.
  exists (flush db_todo (setattrs db_todo patch) now).
  destruct (flush_fields db_todo (setattrs db_todo patch) now)
    as (Hid & Ht & Hd & Hc & Hdue & Hp & Hcat & Ho).
  split.
  { unfold update_user_todo. rewrite Hfind. simpl. rewrite Htitle, Hnull.
    simpl. now destruct (if negb _ then _ else _). }
  split.
  { apply write_row_in. exists db_todo. split.
    - now apply find_some in Hfind.
    - now rewrite Hid. }
  rewrite Hid, Ho, Ht, Hd, Hc, Hdue, Hp, Hcat. simpl.
  rewrite Htitle. unfold applied, applied_required, set_required.
  unfold null_in_required in Hnull. rewrite Htitle in Hnull. simpl in Hnull.
  repeat split;
    try (destruct (u_description patch)); try (destruct (u_due_at patch));
    try (destruct (u_completed patch) as [[|]|]);
    try (destruct (u_priority patch) as [[|]|]);
    try (destruct (u_category patch) as [[|]|]);
    simpl in Hnull; try discriminate Hnull; reflexivity.
Qed.

Lemma update_collision_not_blocked_witness :
  find (id_filter 2 1) (todos Sample.chores) = Some (Sample.task 2 "Call mom")
  /\ u_title Sample.rename_onto_milk = Some (Some "buy MILK")
  /\ null_in_required Sample.rename_onto_milk = false
  /\ In (Sample.task 1 "Buy milk") (todos Sample.chores)
  /\ owned_by 1 (Sample.task 1 "Buy milk") = true
  /\ id (Sample.task 1 "Buy milk") <> id (Sample.task 2 "Call mom")
  /\ lower (title (Sample.task 1 "Buy milk")) = lower "buy MILK"
  /\ exists row,
      update_user_todo Sample.chores 2 (Model Sample.rename_onto_milk) 1 9
      = Ok (write_row Sample.chores row, row)
      /\ In row (todos (write_row Sample.chores row))
      /\ id row = 2
      /\ owner_id row = Some 1
      /\ title row = "buy MILK"
      /\ description row = Some "2 litres"
      /\ due_at row = None
      /\ completed row = true
      /\ priority row = "high"
      /\ category row = "others".
Proof.
  assert (H1 : find (id_filter 2 1) (todos Sample.chores)
               = Some (Sample.task 2 "Call mom")) by reflexivity.
  assert (H2 : u_title Sample.rename_onto_milk = Some (Some "buy MILK"))
    by reflexivity.
  assert (H2' : null_in_required Sample.rename_onto_milk = false) by reflexivity.
  assert (H3 : In (Sample.task 1 "Buy milk") (todos Sample.chores))
    by (left; reflexivity).
  assert (H4 : owned_by 1 (Sample.task 1 "Buy milk") = true) by reflexivity.
  assert (H5 : id (Sample.task 1 "Buy milk") <> id (Sample.task 2 "Call mom"))
    by (simpl; lia).
  assert (H6 : lower (title (Sample.task 1 "Buy milk")) = lower "buy MILK")
    by reflexivity.
  repeat (split; [assumption|]).
  exact (update_collision_not_blocked Sample.chores 2 Sample.rename_onto_milk
           1 9 (Sample.task 2 "Call mom") (Sample.task 1 "Buy milk") "buy MILK"
           H1 H2 H2' H3 H4 H5 H6).
Defined.

(** C3 as it is written fails: task 2 is Alice's, the new title matches
    her task 1 up to case, and the body also sets [completed] to null,
    which the schema lets through; the commit refuses the row and
    nothing is stored. *)
Lemma update_with_null_completed_fails :
  find (id_filter 2 1) (todos Sample.chores) = Some (Sample.task 2 "Call mom")
  /\ u_title Sample.rename_with_null = Some (Some "buy MILK")
  /\ lower (title (Sample.task 1 "Buy milk")) = lower "buy MILK"
  /\ u_completed Sample.rename_with_null = Some None
  /\ update_user_todo Sample.chores 2 (Model Sample.rename_with_null) 1 9
     = Raise (IntegrityError "NOT NULL constraint failed: todos").
Proof. repeat split. Qed.

(** ** Dashboard *)

Module DictFacts.

Lemma get_set {V} (d : dict.t V) k v k' (default : V) :
  dict.get (dict.set d k v) k' default =
  if String.eqb k k' then v else dict.get d k' default.
Proof.
  unfold dict.get.
  induction d as [|[k0 v0] r IH]; simpl.
  - now destruct (String.eqb k k').
  - destruct (String.eqb k0 k) eqn:E0; simpl.
    + apply String.eqb_eq in E0. subst k0.
      now destruct (String.eqb k k').
    + destruct (String.eqb k0 k') eqn:E1.
      * apply String.eqb_eq in E1. subst k0.
        rewrite String.eqb_sym, E0. reflexivity.
      * exact IH.
Qed.

(** A comprehension read at [k]: the value of the last element with
    that key. *)
Lemma get_fold {A V} (key : A -> string) (val : A -> V) l d k (default : V) :
  dict.get (fold_left (fun d x => dict.set d (key x) (val x)) l d) k default =
  fold_left (fun acc x => if String.eqb (key x) k then val x else acc) l
            (dict.get d k default).
Proof.
  revert d. induction l as [|x l IH]; intros d; simpl; [reflexivity|].
  now rewrite IH, get_set.
Qed.

Lemma get_comprehension_keys {A V} (key : A -> string) (val : A -> V)
    (h : string -> A) (f : string -> V) keys k :
  (forall x, key (h x) = x) ->
  (forall x, val (h x) = f x) ->
  forall default : V,
  dict.get (dict.comprehension key val (map h keys)) k default
  = if in_dec string_dec k keys then f k else default.
Proof.
  intros Hkey Hval default. unfold dict.comprehension. rewrite get_fold.
  change (dict.get [] k default) with default.
  revert default.
  induction keys as [|x keys IH]; intros default; simpl; [reflexivity|].
  rewrite IH, Hkey, Hval.
  destruct (string_dec x k) as [->|N].
  - rewrite String.eqb_refl.
    now destruct (in_dec string_dec k keys).
  - rewrite (proj2 (String.eqb_neq x k) N).
    now destruct (in_dec string_dec k keys).
Qed.

End DictFacts.

Module DashboardFacts.
Import DictFacts dashboard.

Lemma count_occ_category user c (l : list Todo) :
  count_occ string_dec (map category (filter (owned_by user) l)) c =
  List.length (filter (fun t => owned_by user t && String.eqb (category t) c) l).
Proof.
  induction l as [|t l IH]; simpl; [reflexivity|].
  destruct (owned_by user t); simpl; [|exact IH].
  destruct (string_dec (category t) c) as [->|N].
  - rewrite String.eqb_refl. simpl. now rewrite IH.
  - rewrite (proj2 (String.eqb_neq _ _) N). exact IH.
Qed.

(** The grouped query, one row for each category the owner uses. *)
Lemma get_tasks_by_category_rows db user :
  get_tasks_by_category db user =
  map (fun k => mkCategoryStat k
                  (Z.of_nat (count_occ string_dec
                     (map category (filter (owned_by user) (todos db))) k)))
      (nodup string_dec (map category (filter (owned_by user) (todos db)))).
Proof.
  unfold get_tasks_by_category, group_count. now rewrite map_map.
Qed.

(** The zero-filled lookup gives the number of the owner's tasks in the
    category, whether or not the grouped query has a row for it. *)
Lemma category_map_get db user c :
  dict.get (dict.comprehension cs_category cs_count
              (get_tasks_by_category db user)) c 0
  = tasks_in db user c.
Proof.
  rewrite get_tasks_by_category_rows.
  rewrite (get_comprehension_keys cs_category cs_count _
             (fun k => Z.of_nat (count_occ string_dec
                (map category (filter (owned_by user) (todos db))) k)))
    by reflexivity.
  unfold tasks_in, count. rewrite <- count_occ_category.
  destruct (in_dec _ _ _) as [|N]; [reflexivity|].
  rewrite nodup_In in N.
  now rewrite (proj1 (count_occ_not_In string_dec _ _) N).
Qed.

Lemma tasks_in_nonneg db user c : 0 <= tasks_in db user c.
Proof. unfold tasks_in, count. lia. Qed.

Lemma tasks_in_none db user c : owned db user = 0%nat -> tasks_in db user c = 0.
Proof.
  unfold owned, tasks_in, count. intros H.
  apply length_zero_iff_nil in H.
  assert (E : filter (fun t => owned_by user t && String.eqb (category t) c)
                     (todos db) = []).
  { induction (todos db) as [|t l IH]; simpl in *; [reflexivity|].
    destruct (owned_by user t); simpl in *; [discriminate|auto]. }
  now rewrite E.
Qed.

End DashboardFacts.

Import DashboardFacts.

(** C5. Whoever the owner, the dashboard's [categories] are the six
    entries work, personal, shopping, health, education, others, in that
    order, each with the number of the owner's tasks in that category:
    a count that is never negative, and 0 for all six when the owner
    has no task. *)
Theorem dashboard_categories_fixed db current_user now :
  categories (dashboard.get_dashboard_data db current_user now)
  = map (fun c => mkCategoryStat c (tasks_in db (user_id current_user) c))
        ["work"; "personal"; "shopping"; "health"; "education"; "others"]
  /\ (forall c,
        In c (categories (dashboard.get_dashboard_data db current_user now)) ->
        0 <= cs_count c)
  /\ (owned db (user_id current_user) = 0%nat ->
      categories (dashboard.get_dashboard_data db current_user now)
      = [mkCategoryStat "work" 0; mkCategoryStat "personal" 0;
         mkCategoryStat "shopping" 0; mkCategoryStat "health" 0;
         mkCategoryStat "education" 0; mkCategoryStat "others" 0]).
Proof.
  assert (E : categories (dashboard.get_dashboard_data db current_user now)
              = map (fun c => mkCategoryStat c
                                (tasks_in db (user_id current_user) c))
                    dashboard.all_categories).
  { unfold dashboard.get_dashboard_data.
    cbv beta iota zeta delta [categories].
    apply map_ext. intros c. now rewrite category_map_get. }
  split; [exact E|]. split.
  - intros c Hin. rewrite E in Hin. apply in_map_iff in Hin.
    destruct Hin as (k & <- & _). apply tasks_in_nonneg.
  - intros Hnone. rewrite E. unfold dashboard.all_categories. simpl.
    now rewrite !(tasks_in_none _ _ _ Hnone).
Qed.

Lemma dashboard_categories_fixed_witness :
  owned Sample.signup 1 = 0%nat
  /\ categories (dashboard.get_dashboard_data Sample.signup Sample.alice 0)
     = [mkCategoryStat "work" 0; mkCategoryStat "personal" 0;
        mkCategoryStat "shopping" 0; mkCategoryStat "health" 0;
        mkCategoryStat "education" 0; mkCategoryStat "others" 0].
Proof.
  assert (H : owned Sample.signup (user_id Sample.alice) = 0%nat) by reflexivity.
  split; [exact H|].
  exact (proj2 (proj2 (dashboard_categories_fixed Sample.signup Sample.alice 0)) H).
Defined.

(** ** The dispatcher: listing *)

Module ListFacts.
Import chatbot.

Lemma prefixb_spec p s : prefixb p s = true <-> exists post, s = p ++ post.
Proof.
  revert s. induction p as [|a p IH]; intros s; simpl.
  - split; eauto.
  - destruct s as [|b s].
    + split; [discriminate | intros [post H]; discriminate].
    + rewrite andb_true_iff, Ascii.eqb_eq, IH. split.
      * intros [-> [post ->]]. eauto.
      * intros [post H]. injection H as -> ->. eauto.
Qed.

Lemma containsb_spec n h : containsb n h = true <-> contains n h.
Proof.
  unfold contains. induction h as [|c h IH].
  - simpl. rewrite orb_false_r, prefixb_spec. split.
    + intros [post H]. exists "", post. exact H.
    + intros (pre & post & H). destruct pre; [eauto|discriminate].
  - change (containsb n (String c h))
      with (prefixb n (String c h) || containsb n h).
    rewrite orb_true_iff, prefixb_spec, IH. split.
    + intros [[post H]|(pre & post & H)].
      * exists "", post. exact H.
      * exists (String c pre), post. simpl. now rewrite H.
    + intros (pre & post & H). destruct pre as [|c' pre].
      * left. eauto.
      * right. simpl in H. injection H as _ H. eauto.
Qed.

Lemma get_todos_default db user :
  get_todos db user 0 100 = firstn 100 (filter (owned_by user) (todos db)).
Proof. reflexivity. Qed.

Lemma firstn_nil_iff {A} (l : list A) n :
  firstn (S n) l = [] <-> l = [].
Proof. destruct l; simpl; split; congruence. Qed.

Lemma do_list_empty db user :
  owned db (user_id user) = 0%nat ->
  do_list db user = Some (Ok (db, no_todos_message)).
Proof.
  unfold owned, do_list. intros H. apply length_zero_iff_nil in H.
  rewrite get_todos_default, H. reflexivity.
Qed.

Lemma do_list_some db user :
  owned db (user_id user) <> 0%nat ->
  do_list db user =
    Some (Ok (db, "Your todos:" ++ nl ++
                  join nl (map todo_line
                     (firstn 100 (filter (owned_by (user_id user)) (todos db)))))).
Proof.
  unfold owned, do_list. intros H. rewrite get_todos_default.
  destruct (filter _ _) as [|t l] eqn:E; [simpl in H; congruence|].
  reflexivity.
Qed.

Lemma execute_list parse iter fuel now args db user :
  execute_todo_action parse iter fuel now "list_todos" args db (Some user) =
  match do_list db user with
  | Some (Ok r) => Some r
  | Some (Raise _) => Some (db, apology)
  | None => None
  end.
Proof.
  unfold execute_todo_action. simpl.
  now destruct (a_due_at args).
Qed.

End ListFacts.

Import ListFacts.

(** What the listing does hold.  For a logged-in owner [list_todos]
    changes nothing and answers the fixed no-tasks message when the
    owner has no task; otherwise it answers a listing with one line for
    each of the owner's first 100 tasks, which are all of them when the
    owner has at most 100. *)
Theorem list_todos_first_hundred parse iter fuel now args db user :
  exists out,
    chatbot.execute_todo_action parse iter fuel now "list_todos" args db
      (Some user) = Some (db, out)
    /\ (owned db (user_id user) = 0%nat ->
        out = "You have no outstanding todos.")
    /\ (owned db (user_id user) <> 0%nat ->
        out = "Your todos:" ++ chatbot.nl ++
              join chatbot.nl
                (map chatbot.todo_line
                   (firstn 100 (filter (owned_by (user_id user)) (todos db))))
        /\ (forall t,
              In t (firstn 100 (filter (owned_by (user_id user)) (todos db))) ->
              contains (chatbot.todo_line t) out)
        /\ ((owned db (user_id user) <= 100)%nat ->
            forall t, In t (todos db) -> owned_by (user_id user) t = true ->
                      contains (chatbot.todo_line t) out)).
Proof.
  rewrite execute_list.
  destruct (Nat.eq_dec (owned db (user_id user)) 0) as [Hz|Hnz].
  - rewrite (do_list_empty _ _ Hz). eexists. split; [reflexivity|].
    split; [reflexivity | intros N; contradiction].
  - rewrite (do_list_some _ _ Hnz). eexists. split; [reflexivity|].
    split; [intros Z; contradiction|]. intros _.
    split; [reflexivity|].
    assert (Hline : forall t,
      In t (firstn 100 (filter (owned_by (user_id user)) (todos db))) ->
      contains (chatbot.todo_line t)
        ("Your todos:" ++ chatbot.nl ++ join chatbot.nl
           (map chatbot.todo_line
              (firstn 100 (filter (owned_by (user_id user)) (todos db)))))).
    { intros t Hin. apply contains_app_r, contains_app_r, contains_join.
      now apply in_map. }
    split; [exact Hline|].
    intros Hle t Hin Ho. apply Hline.
    rewrite firstn_all2 by exact Hle. apply filter_In. now split.
Qed.

Lemma list_todos_first_hundred_witness :
  owned Sample.chores 1 <> 0%nat
  /\ (owned Sample.chores 1 <= 100)%nat
  /\ In (Sample.task 2 "Call mom") (todos Sample.chores)
  /\ owned_by 1 (Sample.task 2 "Call mom") = true
  /\ exists out,
      chatbot.execute_todo_action Sample.parse Sample.iter 0 0 "list_todos"
        Sample.no_args Sample.chores (Some Sample.alice) = Some (Sample.chores, out)
      /\ contains (chatbot.todo_line (Sample.task 2 "Call mom")) out.
Proof.
  assert (H1 : owned Sample.chores (user_id Sample.alice) <> 0%nat)
    by (vm_compute; lia).
  assert (H2 : (owned Sample.chores (user_id Sample.alice) <= 100)%nat)
    by (vm_compute; lia).
  assert (H3 : In (Sample.task 2 "Call mom") (todos Sample.chores))
    by (right; left; reflexivity).
  assert (H4 : owned_by (user_id Sample.alice) (Sample.task 2 "Call mom") = true)
    by reflexivity.
  repeat (split; [assumption|]).
  destruct (list_todos_first_hundred Sample.parse Sample.iter 0 0 Sample.no_args
              Sample.chores Sample.alice) as (out & Hrun & _ & Hsome).
  exists out. split; [exact Hrun|].
  exact (proj2 (proj2 (Hsome H1)) H2 _ H3 H4).
Defined.

(** C6 on the code.  Alice has 101 tasks and asks for her list: the
    call to [get_todos] keeps the default limit of 100 rows, so the
    listing she gets does not mention the last one, "task 101". *)
Lemma list_todos_omits_task_101 :
  In (Sample.task 101 "task 101") (todos Sample.crowded)
  /\ owned_by 1 (Sample.task 101 "task 101") = true
  /\ exists out,
      chatbot.execute_todo_action Sample.parse Sample.iter 0 0 "list_todos"
        Sample.no_args Sample.crowded (Some Sample.alice)
      = Some (Sample.crowded, out)
      /\ ~ contains "task 101" out
      /\ ~ contains (chatbot.todo_line (Sample.task 101 "task 101")) out.
Proof.
  split.
  { apply (in_map (fun n => Sample.task (Z.of_nat n) ("task " ++ dec n))
                  (seq 1 101) 101%nat).
    apply in_seq. lia. }
  split; [reflexivity|].
  eexists. split; [vm_compute; reflexivity|].
  split; intros H; apply containsb_spec in H; vm_compute in H; discriminate H.
Qed.

(** ** The dispatcher: updates *)

Module UpdateFacts.
Import chatbot.

(** The dict the dispatcher hands over stops [update_user_todo] before
    it writes anything. *)
Lemma update_user_todo_dict db i d user now :
  exists e, update_user_todo db i (Dict d) user now = Raise e.
Proof.
  unfold update_user_todo.
  destruct (find (id_filter i user) (todos db)); simpl; eauto.
  unfold not_found. eauto.
Qed.

Lemma execute_update parse iter fuel now args db user :
  execute_todo_action parse iter fuel now "update_todo" args db (Some user) =
  match a_due_at args with
  | None => guarded db (do_update iter now args None db user)
  | Some s =>
      match parse s with
      | None => Some (db, bad_date s)
      | Some d => guarded db (do_update iter now args (Some d) db user)
      end
  end.
Proof.
  unfold execute_todo_action, guarded. simpl.
  destruct (a_due_at args) as [s|]; [|reflexivity].
  now destruct (parse s).
Qed.

Lemma given_map {A} (v : option A) : given (option_map Some v) = v.
Proof. now destruct v. Qed.

Lemma rejected_none v allowed :
  allowed_if_given v allowed -> rejected v allowed = None.
Proof.
  unfold allowed_if_given, rejected. intros H.
  destruct v as [x|]; [|reflexivity].
  now rewrite (H x eq_refl).
Qed.

Lemma keys_nonempty args due :
  has_change args = true ->
  (a_due_at args <> None -> due <> None) ->
  keys (update_data_of args due) <> [].
Proof.
  unfold has_change, keys, update_data_of. intros Hch Hdue E.
  assert (Hd : a_due_at args = None \/ due <> None).
  { destruct (a_due_at args); [right; apply Hdue; discriminate | now left]. }
  clear Hdue. simpl in E.
  destruct (a_new_title args), (a_title args), (a_description args),
    (a_due_at args), due, (a_completed args), (a_priority args),
    (a_category args);
    try discriminate E; try discriminate Hch;
    destruct Hd as [Hd|Hd]; try discriminate Hd; now apply Hd.
Qed.

(** Whatever the arguments, an update through the dispatcher leaves the
    store as it was. *)
Lemma do_update_pure iter now args due db user :
  exists r, do_update iter now args due db user = Some r
            /\ forall db' out, r = Ok (db', out) -> db' = db.
Proof.
  assert (R : forall s, exists r, reply db s = Some r
                /\ forall db' out, r = Ok (db', out) -> db' = db).
  { intros s. eexists. split; [reflexivity|]. now intros db' out [= <- _]. }
  unfold do_update.
  destruct (a_original_title args) as [[|c ot]|]; try apply R.
  destruct (rejected _ allowed_priorities); try apply R.
  destruct (rejected _ allowed_categories); try apply R.
  destruct (keys _); try apply R.
  destruct (get_todos_by_title _ _ _) as [|t [|t2 rest]]; try apply R.
  destruct (make_update _) as [d|[]]; try apply R;
    try (eexists; split; [reflexivity | intros ? ? H; discriminate H]).
  destruct (update_user_todo_dict db (id t) d (user_id user) now) as [e He].
  rewrite He. simpl. eexists. split; [reflexivity | intros ? ? H; discriminate H].
Qed.

Lemma guarded_pure db body :
  (exists r, body = Some r /\ forall db' out, r = Ok (db', out) -> db' = db) ->
  exists out, guarded db body = Some (db, out).
Proof.
  intros (r & -> & H). destruct r as [[db' out]|e]; simpl; [|eauto].
  rewrite (H db' out eq_refl). eauto.
Qed.

Lemma execute_update_pure parse iter fuel now args db user :
  exists out,
    execute_todo_action parse iter fuel now "update_todo" args db (Some user)
    = Some (db, out).
Proof.
  rewrite execute_update.
  destruct (a_due_at args) as [s|]; [destruct (parse s)|]; eauto;
    apply guarded_pure, do_update_pure.
Qed.

(** Past the guards, two matches or more give the question back. *)
Lemma do_update_many iter now args due db user original_title :
  a_original_title args = Some original_title ->
  original_title <> "" ->
  has_change args = true ->
  (a_due_at args <> None -> due <> None) ->
  allowed_if_given (a_priority args) allowed_priorities ->
  allowed_if_given (a_category args) allowed_categories ->
  (2 <= List.length (get_todos_by_title db original_title (user_id user)))%nat ->
  do_update iter now args due db user =
    Some (Ok (db, multiple_update_message original_title
                    (get_todos_by_title db original_title (user_id user)))).
Proof.
  intros Hot Hne Hch Hdue Hp Hc Hlen.
  unfold do_update. rewrite Hot.
  destruct original_title as [|c ot]; [congruence|].
  cbv zeta. cbn [u_priority u_category update_data_of]. rewrite !given_map.
  rewrite (rejected_none _ _ Hp), (rejected_none _ _ Hc).
  pose proof (keys_nonempty args due Hch Hdue) as K.
  destruct (keys (update_data_of args due)); [congruence|].
  destruct (get_todos_by_title db (String c ot) (user_id user))
    as [|t [|t2 rest]]; simpl in Hlen; try lia.
  reflexivity.
Qed.

Lemma contains_quoted_title original_title (l : list Todo) t :
  In t l -> contains (quoted (title t)) (multiple_update_message original_title l).
Proof.
  intros Hin. unfold multiple_update_message.
  apply contains_app_r, contains_app_r, contains_app_r, contains_app_l.
  apply contains_join. now apply (in_map (fun t => quoted (title t))).
Qed.

End UpdateFacts.

Import UpdateFacts.

(** C4 (as amended). An [update_todo] call whose [original_title]
    matches two or more of the owner's tasks never changes the store.
    When the title is not empty, the call names a field to change, its
    [due_at] (if any) parses and its priority and category (if any) are
    allowed values, the answer is the disambiguation message, which
    quotes the title of every matching task. *)
Theorem update_todo_ambiguous parse iter fuel now args db user original_title :
  chatbot.a_original_title args = Some original_title ->
  (2 <= List.length (get_todos_by_title db original_title (user_id user)))%nat ->
  exists out,
    chatbot.execute_todo_action parse iter fuel now "update_todo" args db
      (Some user) = Some (db, out)
    /\ (original_title <> "" ->
        has_change args = true ->
        (forall s, chatbot.a_due_at args = Some s -> parse s <> None) ->
        allowed_if_given (chatbot.a_priority args) chatbot.allowed_priorities ->
        allowed_if_given (chatbot.a_category args) chatbot.allowed_categories ->
        out = chatbot.multiple_update_message original_title
                (get_todos_by_title db original_title (user_id user))
        /\ forall t,
             In t (get_todos_by_title db original_title (user_id user)) ->
             contains (chatbot.quoted (title t)) out).
Proof.
  intros Hot Hlen.
  destruct (execute_update_pure parse iter fuel now args db user) as [out Hrun].
  exists out. split; [exact Hrun|].
  intros Hne Hch Hdue Hp Hc.
  assert (E : out = chatbot.multiple_update_message original_title
                      (get_todos_by_title db original_title (user_id user))).
  { rewrite execute_update in Hrun.
    destruct (chatbot.a_due_at args) as [s|] eqn:Es.
    - destruct (parse s) as [d|] eqn:Ed; [|now destruct (Hdue s eq_refl)].
      assert (D : chatbot.a_due_at args <> None -> Some d <> None)
        by (intros _; discriminate).
      rewrite (do_update_many iter now args (Some d) db user original_title
                 Hot Hne Hch D Hp Hc Hlen) in Hrun.
      simpl in Hrun. congruence.
    - assert (D : chatbot.a_due_at args <> None -> @None datetime <> None)
        by (rewrite Es; intros N; now destruct N).
      rewrite (do_update_many iter now args None db user original_title
                 Hot Hne Hch D Hp Hc Hlen) in Hrun.
      simpl in Hrun. congruence. }
  split; [exact E|].
  intros t Hin. rewrite E. now apply contains_quoted_title.
Qed.

Lemma update_todo_ambiguous_witness :
  chatbot.a_original_title Sample.mark_done = Some "buy milk"
  /\ (2 <= List.length (get_todos_by_title Sample.twins "buy milk" 1))%nat
  /\ "buy milk" <> ""
  /\ has_change Sample.mark_done = true
  /\ exists out,
      chatbot.execute_todo_action Sample.parse Sample.iter 0 0 "update_todo"
        Sample.mark_done Sample.twins (Some Sample.alice)
      = Some (Sample.twins, out)
      /\ out = chatbot.multiple_update_message "buy milk"
                 [Sample.task 1 "Buy milk"; Sample.task 2 "buy milk"]
      /\ contains "'Buy milk'" out
      /\ contains "'buy milk'" out.
Proof.
  assert (H1 : chatbot.a_original_title Sample.mark_done = Some "buy milk")
    by reflexivity.
  assert (H2 : (2 <= List.length
                  (get_todos_by_title Sample.twins "buy milk"
                     (user_id Sample.alice)))%nat) by (vm_compute; lia).
  assert (H3 : "buy milk" <> "") by discriminate.
  assert (H4 : has_change Sample.mark_done = true) by reflexivity.
  assert (H5 : forall s, chatbot.a_due_at Sample.mark_done = Some s ->
                         Sample.parse s <> None) by discriminate.
  assert (H6 : allowed_if_given (chatbot.a_priority Sample.mark_done)
                 chatbot.allowed_priorities) by (intros x; discriminate).
  assert (H7 : allowed_if_given (chatbot.a_category Sample.mark_done)
                 chatbot.allowed_categories) by (intros x; discriminate).
  repeat (split; [assumption|]).
  destruct (update_todo_ambiguous Sample.parse Sample.iter 0 0 Sample.mark_done
              Sample.twins Sample.alice "buy milk" H1 H2)
    as (out & Hrun & Hmsg).
  destruct (Hmsg H3 H4 H5 H6 H7) as [E Hall].
  exists out. split; [exact Hrun|]. split; [exact E|]. split.
  - apply (Hall (Sample.task 1 "Buy milk")). left. reflexivity.
  - apply (Hall (Sample.task 2 "buy milk")). right. left. reflexivity.
Defined.

(** C4 as it is written fails: "buy milk" matches two tasks of Alice and
    the call names a field to change, but the priority it names is not
    an allowed one, so the answer is the rejection of that priority; it
    quotes neither matching title. *)
Lemma ambiguous_update_with_bad_priority :
  chatbot.a_original_title Sample.make_urgent = Some "buy milk"
  /\ has_change Sample.make_urgent = true
  /\ get_todos_by_title Sample.twins "buy milk" 1
     = [Sample.task 1 "Buy milk"; Sample.task 2 "buy milk"]
  /\ chatbot.execute_todo_action Sample.parse Sample.iter 0 0 "update_todo"
       Sample.make_urgent Sample.twins (Some Sample.alice)
     = Some (Sample.twins,
             "Invalid priority 'urgent'. Allowed values are: low, medium, high.")
  /\ ~ contains "'Buy milk'"
         "Invalid priority 'urgent'. Allowed values are: low, medium, high."
  /\ ~ contains "'buy milk'"
         "Invalid priority 'urgent'. Allowed values are: low, medium, high.".
Proof.
  repeat (split; [reflexivity|]).
  split; intros H; apply containsb_spec in H; vm_compute in H; discriminate H.
Qed.

(** With one match and [completed] the only field, the dispatcher gets
    as far as [update_user_todo], which stops on the dict it is given:
    the answer is the apology of the [except] clause, whatever the
    boolean, and nothing is written. *)
Lemma update_completed_only_apologises parse iter fuel now db user
    original_title b t :
  original_title <> "" ->
  get_todos_by_title db original_title (user_id user) = [t] ->
  chatbot.execute_todo_action parse iter fuel now "update_todo"
    (chatbot.mkArgs None (Some original_title) None None None (Some b) None None)
    db (Some user)
  = Some (db, chatbot.apology).
Proof.
  intros Hne Hm. rewrite execute_update. simpl chatbot.a_due_at. cbv iota.
  unfold chatbot.do_update. simpl chatbot.a_original_title. cbv iota.
  destruct original_title as [|c ot]; [congruence|].
  cbv zeta. rewrite Hm.
  cbn -[update_user_todo String.append].
  match goal with
  | |- context [update_user_todo ?a ?i (Dict ?d) ?u ?n] =>
      destruct (update_user_todo_dict a i d u n) as [e He]; rewrite He
  end.
  reflexivity.
Qed.

(** C10 on the code. "buy milk" matches the one task "Buy milk" and
    [completed] is the only field: with [completed=true] and with
    [completed=false] alike the dispatcher answers the apology, not
    "Successfully marked 'Buy milk' as complete.", and the task stays
    as it was. *)
Theorem mark_complete_never_reported :
  get_todos_by_title Sample.milk "buy milk" 1 = [Sample.task 1 "Buy milk"]
  /\ chatbot.keys (chatbot.update_data_of Sample.mark_done None) = ["completed"]
  /\ chatbot.execute_todo_action Sample.parse Sample.iter 0 0 "update_todo"
       Sample.mark_done Sample.milk (Some Sample.alice)
     = Some (Sample.milk, "Sorry, I ran into an unexpected issue.")
  /\ chatbot.execute_todo_action Sample.parse Sample.iter 0 0 "update_todo"
       Sample.mark_not_done Sample.milk (Some Sample.alice)
     = Some (Sample.milk, "Sorry, I ran into an unexpected issue.")
  /\ update_user_todo Sample.milk 1
       (Dict (chatbot.update_data_of Sample.mark_done None)) 1 0
     = Raise (AttributeError "'dict' object has no attribute 'model_dump'").
Proof. repeat split. Qed.

(** ** Password reset *)

Module AuthFacts.
Import auth.

Lemma find_none_iff {A} (f : A -> bool) (l : list A) :
  find f l = None <-> forall x, In x l -> f x = false.
Proof.
  split.
  - intros H x Hin. now apply (find_none f l H).
  - induction l as [|a l IH]; intros H; simpl; [reflexivity|].
    rewrite (H a (or_introl eq_refl)). apply IH.
    intros x Hin. apply H. now right.
Qed.

(** Under the unique constraint a token string names one row. *)
Lemma unique_row (l : list PasswordResetToken) a b :
  NoDup (map token l) -> In a l -> In b l -> token a = token b -> a = b.
Proof.
  induction l as [|x l IH]; intros Hnd Ha Hb E; [destruct Ha|].
  simpl in Hnd. inversion Hnd as [|? ? Hnotin Hnd']; subst.
  destruct Ha as [->|Ha], Hb as [->|Hb]; auto.
  - exfalso. apply Hnotin. rewrite E. now apply in_map.
  - exfalso. apply Hnotin. rewrite <- E. now apply in_map.
Qed.

Lemma find_token db r :
  tokens_unique db ->
  In r (password_reset_tokens db) ->
  find (fun x => String.eqb (token x) (token r)) (password_reset_tokens db)
  = Some r.
Proof.
  intros Hu Hin.
  destruct (find _ _) as [x|] eqn:E.
  - apply find_some in E. destruct E as [Hx Ex].
    apply String.eqb_eq in Ex. f_equal.
    exact (unique_row _ x r Hu Hx Hin Ex).
  - pose proof (find_none _ _ E r Hin) as N. simpl in N.
    now rewrite String.eqb_refl in N.
Qed.

Lemma delete_token_fresh db r :
  tokens_unique db ->
  In r (password_reset_tokens db) ->
  fresh (delete_token db r) (token r).
Proof.
  intros Hu Hin x Hx E. simpl in Hx. apply filter_In in Hx.
  destruct Hx as [Hx Hne].
  rewrite (unique_row _ x r Hu Hx Hin E), Z.eqb_refl in Hne. discriminate.
Qed.

Lemma fresh_find db tok :
  fresh db tok ->
  find (fun x => String.eqb (token x) tok) (password_reset_tokens db) = None.
Proof.
  intros Hf. apply find_none_iff. intros x Hin.
  apply String.eqb_neq. now apply Hf.
Qed.

(** A token that is not stored is turned down and nothing changes. *)
Lemma confirm_fresh hash db tok new_password now :
  fresh db tok ->
  reset_password_confirm hash db tok new_password now
  = (db, invalid_or_expired).
Proof.
  intros Hf. unfold reset_password_confirm. now rewrite fresh_find.
Qed.

Lemma find_set_password db user hashed :
  find (fun u => user_id u =? user_id user) (users db) = Some user ->
  exists user',
    find (fun u => user_id u =? user_id user) (users (set_password db user hashed))
    = Some user'
    /\ hashed_password user' = hashed
    /\ username user' = username user
    /\ email user' = email user.
Proof.
  simpl. induction (users db) as [|u l IH]; simpl; [discriminate|].
  destruct (user_id u =? user_id user) eqn:E; simpl.
  - intros [= ->]. rewrite Z.eqb_refl. eauto.
  - rewrite E. exact IH.
Qed.

End AuthFacts.

Import AuthFacts.

(** C7 (as amended). A stored reset token whose user exists works
    once (token strings being unique).  While it has not run out the
    confirmation succeeds, stores the digest
    of the new password for that user and deletes the token, so that any
    later confirmation with the same token is turned down as invalid or
    expired and changes nothing.  Once it has run out, the confirmation
    deletes it and is turned down the same way. *)
Theorem reset_token_single_use hash db r :
  tokens_unique db ->
  In r (password_reset_tokens db) ->
  (forall new_password now user,
      now <= expires_at r ->
      find (fun u => user_id u =? token_user_id r) (users db) = Some user ->
      exists db1,
        auth.reset_password_confirm hash db (token r) new_password now
        = (db1, Ok tt)
        /\ (exists user',
              find (fun u => user_id u =? token_user_id r) (users db1)
              = Some user'
              /\ hashed_password user' = hash new_password)
        /\ fresh db1 (token r)
        /\ forall again later,
             auth.reset_password_confirm hash db1 (token r) again later
             = (db1, Raise (HTTPException 400 "Invalid or expired token")))
  /\ (forall new_password now,
        expires_at r < now ->
        exists db1,
          auth.reset_password_confirm hash db (token r) new_password now
          = (db1, Raise (HTTPException 400 "Invalid or expired token"))
          /\ users db1 = users db
          /\ fresh db1 (token r)).
Proof.
  intros Hu Hin. split.
  - intros new_password now user Hlive Huser.
    assert (Hid : user_id user = token_user_id r).
    { apply find_some in Huser. now apply Z.eqb_eq. }
    exists (auth.delete_token (auth.set_password db user (hash new_password)) r).
    assert (Hfresh : fresh (auth.delete_token
                              (auth.set_password db user (hash new_password)) r)
                           (token r)).
    { apply delete_token_fresh; [exact Hu | exact Hin]. }
    split.
    { unfold auth.reset_password_confirm. rewrite (find_token db r Hu Hin).
      assert (E : (expires_at r <? now) = false) by (apply Z.ltb_ge; lia).
      now rewrite E, Huser. }
    split.
    { rewrite <- Hid in Huser |- *.
      destruct (find_set_password db user (hash new_password) Huser)
        as (user' & Hf & Hh & _).
      exists user'. split; [exact Hf | exact Hh]. }
    split; [exact Hfresh|].
    intros again later. now apply confirm_fresh.
  - intros new_password now Hdead.
    exists (auth.delete_token db r). split.
    { unfold auth.reset_password_confirm. rewrite (find_token db r Hu Hin).
      assert (E : (expires_at r <? now) = true) by (apply Z.ltb_lt; lia).
      now rewrite E. }
    split; [reflexivity|].
    now apply delete_token_fresh.
Qed.

Lemma reset_token_single_use_witness :
  tokens_unique Sample.pending
  /\ In (mkToken 2 1 "s3cret" 4600) (password_reset_tokens Sample.pending)
  /\ In (mkToken 1 1 "stale" 500) (password_reset_tokens Sample.pending)
  /\ (exists db1,
        auth.reset_password_confirm Sample.hash Sample.pending "s3cret"
          "new pw" 1200 = (db1, Ok tt)
        /\ (exists user',
              find (fun u => user_id u =? 1) (users db1) = Some user'
              /\ hashed_password user' = Sample.hash "new pw")
        /\ fresh db1 "s3cret"
        /\ forall again later,
             auth.reset_password_confirm Sample.hash db1 "s3cret" again later
             = (db1, Raise (HTTPException 400 "Invalid or expired token")))
  /\ (exists db1,
        auth.reset_password_confirm Sample.hash Sample.pending "stale"
          "new pw" 1200
        = (db1, Raise (HTTPException 400 "Invalid or expired token"))
        /\ users db1 = users Sample.pending
        /\ fresh db1 "stale").
Proof.
  assert (Hu : tokens_unique Sample.pending).
  { unfold tokens_unique. simpl.
    repeat constructor; simpl; intuition discriminate. }
  assert (H1 : In (mkToken 2 1 "s3cret" 4600)
                  (password_reset_tokens Sample.pending))
    by (right; left; reflexivity).
  assert (H2 : In (mkToken 1 1 "stale" 500)
                  (password_reset_tokens Sample.pending))
    by (left; reflexivity).
  repeat (split; [assumption|]).
  split.
  - apply (proj1 (reset_token_single_use Sample.hash Sample.pending
                    (mkToken 2 1 "s3cret" 4600) Hu H1)
             "new pw" 1200 Sample.alice).
    + simpl. lia.
    + reflexivity.
  - apply (proj2 (reset_token_single_use Sample.hash Sample.pending
                    (mkToken 1 1 "stale" 500) Hu H2) "new pw" 1200).
    simpl. lia.
Defined.

(** C7 as it is written fails: Bob deletes his account, which leaves
    his reset token in the store; the token is stored and has not run
    out, yet the confirmation changes no password and does not delete
    it: it is answered 400 "User not found", and so is every later
    attempt, not the invalid-or-expired error. *)
Lemma token_of_deleted_user_is_kept :
  auth.delete_user_me Sample.verify Sample.town "hunter2" Sample.bob
  = Ok Sample.town_without_bob
  /\ In (mkToken 1 2 "bobs" 900) (password_reset_tokens Sample.town_without_bob)
  /\ 100 <= 900
  /\ auth.reset_password_confirm Sample.hash Sample.town_without_bob "bobs"
       "new pw" 100
     = (Sample.town_without_bob, Raise (HTTPException 400 "User not found"))
  /\ auth.reset_password_confirm Sample.hash Sample.town_without_bob "bobs"
       "new pw" 200
     = (Sample.town_without_bob, Raise (HTTPException 400 "User not found")).
Proof.
  split; [reflexivity|]. split; [left; reflexivity|]. split; [lia|].
  split; reflexivity.
Qed.

Lemma add_token_fresh db row :
  fresh db (token row) ->
  exists db', auth.add_token db row = Ok db' /\ users db' = users db.
Proof.
  intros Hf. unfold auth.add_token.
  destruct (existsb _ _) eqn:E.
  - apply existsb_exists in E. destruct E as (x & Hin & Ex).
    apply String.eqb_eq in Ex. now destruct (Hf x Hin).
  - eauto.
Qed.

(** Whether or not the address is registered, whether or not the mail
    goes out, the answer is the same. *)
Lemma forgot_password_response send db request_email tok now :
  fresh db tok ->
  exists db',
    auth.forgot_password send db request_email tok now
    = Ok (db', auth.mkResponse 200 auth.registered_message)
    /\ users db' = users db.
Proof.
  intros Hf. unfold auth.forgot_password.
  destruct (find _ (users db)) as [user|]; [|eauto].
  destruct (add_token_fresh db
              (mkToken (next_id (map token_id (password_reset_tokens db)))
                       (user_id user) tok (now + 3600)) Hf) as (db' & -> & Hu).
  simpl. destruct (send _); eauto.
Qed.

(** C8. Two forgot-password requests, one for the address of a
    registered user and one for an address nobody registered, both
    return 200 with the same message (the generated tokens being new to
    the store). *)
Theorem forgot_password_same_response send db1 db2 known unknown
    tok1 tok2 now1 now2 user :
  In user (users db1) ->
  email user = known ->
  (forall u, In u (users db2) -> email u <> unknown) ->
  fresh db1 tok1 ->
  exists db1' db2',
    auth.forgot_password send db1 known tok1 now1
    = Ok (db1', auth.mkResponse 200
            "If your email is registered, a password reset link has been sent.")
    /\ auth.forgot_password send db2 unknown tok2 now2
       = Ok (db2', auth.mkResponse 200
               "If your email is registered, a password reset link has been sent.")
    /\ db2' = db2.
Proof.
  intros Hin Hknown Hunknown Hf1.
  destruct (forgot_password_response send db1 known tok1 now1 Hf1)
    as (db1' & H1 & _).
  exists db1', db2. split; [exact H1|]. split; [|reflexivity].
  unfold auth.forgot_password.
  assert (E : find (fun u => String.eqb (email u) unknown) (users db2) = None).
  { apply find_none_iff. intros u Hu. apply String.eqb_neq. now apply Hunknown. }
  now rewrite E.
Qed.

Lemma forgot_password_same_response_witness :
  In Sample.alice (users Sample.pending)
  /\ (forall u, In u (users Sample.pending) -> email u <> "bob@x.com")
  /\ fresh Sample.pending "t0ken"
  /\ exists db1' db2',
      auth.forgot_password Sample.send Sample.pending "alice@x.com" "t0ken" 2000
      = Ok (db1', auth.mkResponse 200
              "If your email is registered, a password reset link has been sent.")
      /\ auth.forgot_password Sample.send Sample.pending "bob@x.com" "t0ken" 2000
         = Ok (db2', auth.mkResponse 200
                 "If your email is registered, a password reset link has been sent.")
      /\ db2' = Sample.pending.
Proof.
  assert (H1 : In Sample.alice (users Sample.pending)) by (left; reflexivity).
  assert (H2 : forall u, In u (users Sample.pending) -> email u <> "bob@x.com").
  { intros u [<-|[]]. discriminate. }
  assert (H3 : fresh Sample.pending "t0ken").
  { intros r [<-|[<-|[]]]; discriminate. }
  repeat (split; [assumption|]).
  exact (forgot_password_same_response Sample.send Sample.pending Sample.pending
           "alice@x.com" "bob@x.com" "t0ken" "t0ken" 2000 2000 Sample.alice
           H1 eq_refl H2 H3).
Defined.

(** The mail client being down changes neither the answer nor what is
    stored. *)
Lemma forgot_password_mail_down db request_email tok now :
  auth.forgot_password Sample.send_down db request_email tok now
  = auth.forgot_password Sample.send db request_email tok now.
Proof.
  unfold auth.forgot_password.
  destruct (find _ (users db)); [|reflexivity].
  now destruct (auth.add_token db _).
Qed.

(** A due date that does not parse is answered before the matches are
    looked up. *)
Lemma unparsable_due_date_answered_first :
  chatbot.execute_todo_action Sample.parse Sample.iter 0 0 "update_todo"
    Sample.due_whenever Sample.twins (Some Sample.alice)
  = Some (Sample.twins, chatbot.bad_date "whenever").
Proof. reflexivity. Qed.

(* ================================================================= *)
(** * Further properties of the task store *)

Module StoreFacts.
Import Invariants.

Lemma next_id_above (ids : list Z) x : In x ids -> x < next_id ids.
Proof.
  unfold next_id. induction ids as [|a ids IH]; intros Hin; [destruct Hin|].
  cbn [fold_right]. destruct Hin as [->|Hin]; [lia|].
  specialize (IH Hin). lia.
Qed.

Lemma find_app_last {A} (f : A -> bool) (l : list A) x :
  (forall y, In y l -> f y = false) -> f x = true ->
  find f (l ++ [x])%list = Some x.
Proof.
  intros Hl Hx. induction l as [|a l IH]; simpl.
  - now rewrite Hx.
  - rewrite (Hl a (or_introl eq_refl)). apply IH.
    intros y Hy. apply Hl. now right.
Qed.

(** Whatever the loop returns is a candidate nobody holds. *)
Lemma suffix_loop_some fuel db user ttl :
  forall k s, suffix_loop fuel db user ttl k = Some s ->
              free db user s /\ exists j, (k <= j)%nat /\ s = suffixed ttl j.
Proof.
  induction fuel as [|fuel IH]; intros k s H; [discriminate|].
  simpl in H. destruct (find _ _) eqn:E.
  - destruct (IH _ _ H) as (Hf & j & Hj & ->). split; [exact Hf|].
    exists j. split; [lia | reflexivity].
  - injection H as <-. split; [now apply find_free|].
    exists k. split; [lia | reflexivity].
Qed.

(** What [create_user_todo] returns, when it returns. *)
Lemma create_some fuel db todo user now db' row :
  create_user_todo fuel db todo user now = Some (db', row) ->
  db' = add_todo db row
  /\ row = new_row db todo (title row) user now
  /\ free db user (title row)
  /\ (title row = c_title todo
      \/ exists j, (2 <= j)%nat /\ title row = suffixed (c_title todo) j).
Proof.
  unfold create_user_todo. destruct (find _ _) eqn:E.
  - destruct (suffix_loop _ _ _ _ _) as [s|] eqn:L; [|discriminate].
    intros [= <- <-]. destruct (suffix_loop_some _ _ _ _ _ _ L) as (Hf & j & Hj & ->).
    repeat split; try assumption. right. eauto.
  - intros [= <- <-]. apply find_free in E. repeat split; auto.
Qed.

Lemma owned_titles_taken db user s :
  In (lower s) (map (fun t => lower (title t))
                    (filter (owned_by user) (todos db))) ->
  taken db user s.
Proof.
  intros H. apply in_map_iff in H. destruct H as (t & Ht & Hin).
  apply filter_In in Hin. apply taken_in. exists t. tauto.
Qed.

Lemma filter_add_owned db row user :
  owner_id row = Some user ->
  filter (owned_by user) (todos (add_todo db row))
  = (filter (owned_by user) (todos db) ++ [row])%list.
Proof.
  intros Ho. simpl. rewrite filter_app. simpl.
  unfold owned_by at 2. now rewrite Ho, Z.eqb_refl.
Qed.

Lemma filter_add_other db row user other :
  owner_id row = Some user -> other <> user ->
  filter (owned_by other) (todos (add_todo db row))
  = filter (owned_by other) (todos db).
Proof.
  intros Ho Hne. simpl. rewrite filter_app. simpl.
  unfold owned_by at 2. rewrite Ho.
  destruct (user =? other) eqn:E; [apply Z.eqb_eq in E; congruence|].
  apply app_nil_r.
Qed.

Lemma NoDup_snoc {A} (l : list A) x :
  NoDup l -> ~ In x l -> NoDup (l ++ [x])%list.
Proof.
  intros Hl Hx. apply NoDup_app; [exact Hl | repeat constructor; auto |].
  intros a Ha [<-|[]]. contradiction.
Qed.

Lemma create_id_above fuel db todo user now db' row :
  create_user_todo fuel db todo user now = Some (db', row) ->
  forall t, In t (todos db) -> id t < id row.
Proof.
  intros Hc t Hin. destruct (create_some _ _ _ _ _ _ _ Hc) as (_ & Hrow & _ & _).
  rewrite Hrow. simpl. apply next_id_above. now apply in_map.
Qed.

End StoreFacts.

Import Invariants StoreFacts.

(** X1. A title that matches none of the owner's tasks is stored as it
    was requested, with no suffix, whatever other owners hold and
    without a turn of the loop; the row belongs to the owner, is not
    completed, and takes the priority "low" and the category "others"
    when the request names none. *)
Theorem create_without_collision fuel db todo user now :
  (forall t, In t (todos db) -> owned_by user t = true ->
             lower (title t) <> lower (c_title todo)) ->
  exists row,
    create_user_todo fuel db todo user now = Some (add_todo db row, row)
    /\ title row = c_title todo
    /\ owner_id row = Some user
    /\ completed row = false
    /\ description row = c_description todo
    /\ due_at row = c_due_at todo
    /\ priority row = match c_priority todo with Some p => p | None => "low" end
    /\ category row
       = match c_category todo with Some c => c | None => "others" end.
Proof.
  intros Hnone.
  assert (Hf : free db user (c_title todo)).
  { apply free_not_taken. intros Ht. apply taken_in in Ht.
    destruct Ht as (t & Hin & Ho & Hc). exact (Hnone t Hin Ho Hc). }
  exists (new_row db todo (c_title todo) user now).
  rewrite (create_free _ _ _ _ _ Hf). repeat split.
Qed.

Lemma create_without_collision_witness :
  (forall t, In t (todos Sample.chores) -> owned_by 2 t = true ->
             lower (title t) <> lower "CALL MOM")
  /\ exists row,
      create_user_todo 0 Sample.chores (Sample.errand "CALL MOM") 2 7
      = Some (add_todo Sample.chores row, row)
      /\ title row = "CALL MOM"
      /\ owner_id row = Some 2
      /\ completed row = false
      /\ description row = Some "before noon"
      /\ due_at row = None
      /\ priority row = "low"
      /\ category row = "shopping".
Proof.
  assert (H : forall t, In t (todos Sample.chores) -> owned_by 2 t = true ->
                        lower (title t) <> lower "CALL MOM").
  { intros t [<-|[<-|[<-|[]]]] Ho; try discriminate Ho. discriminate. }
  split; [exact H|].
  exact (create_without_collision 0 Sample.chores (Sample.errand "CALL MOM") 2 7 H).
Defined.

(** X2. Creation keeps the owner's titles pairwise different whatever
    the case, and leaves the tasks of every other owner as they were. *)
Theorem create_keeps_titles_distinct fuel db todo user now db' row :
  create_user_todo fuel db todo user now = Some (db', row) ->
  titles_distinct db user ->
  titles_distinct db' user
  /\ forall other, other <> user ->
       filter (owned_by other) (todos db') = filter (owned_by other) (todos db).
Proof.
  intros Hc Hd. destruct (create_some _ _ _ _ _ _ _ Hc) as (-> & Hrow & Hf & _).
  assert (Ho : owner_id row = Some user) by (rewrite Hrow; reflexivity).
  split.
  - unfold titles_distinct. rewrite (filter_add_owned _ _ _ Ho), map_app.
    apply NoDup_snoc; [exact Hd|]. simpl.
    intros Hin. apply owned_titles_taken in Hin.
    now apply free_not_taken in Hf.
  - intros other Hne. now apply (filter_add_other db row user).
Qed.

Lemma create_keeps_titles_distinct_witness :
  create_user_todo 2 Sample.milk (Sample.request "BUY MILK") 1 0
  = Some (add_todo Sample.milk
            (new_row Sample.milk (Sample.request "BUY MILK") "BUY MILK (2)" 1 0),
          new_row Sample.milk (Sample.request "BUY MILK") "BUY MILK (2)" 1 0)
  /\ titles_distinct Sample.milk 1
  /\ titles_distinct
       (add_todo Sample.milk
          (new_row Sample.milk (Sample.request "BUY MILK") "BUY MILK (2)" 1 0)) 1.
Proof.
  assert (H1 : create_user_todo 2 Sample.milk (Sample.request "BUY MILK") 1 0
    = Some (add_todo Sample.milk
              (new_row Sample.milk (Sample.request "BUY MILK") "BUY MILK (2)" 1 0),
            new_row Sample.milk (Sample.request "BUY MILK") "BUY MILK (2)" 1 0))
    by reflexivity.
  assert (H2 : titles_distinct Sample.milk 1).
  { unfold titles_distinct. simpl. repeat constructor. simpl. tauto. }
  split; [exact H1|]. split; [exact H2|].
  exact (proj1 (create_keeps_titles_distinct _ _ _ _ _ _ _ H1 H2)).
Defined.

(** X3. The task a creation stores gets a primary key above every key
    in the table, so keys that were pairwise different stay so; the
    table is the old one with the new row at its end. *)
Theorem create_assigns_fresh_id fuel db todo user now db' row :
  create_user_todo fuel db todo user now = Some (db', row) ->
  todos db' = (todos db ++ [row])%list
  /\ (forall t, In t (todos db) -> id t < id row)
  /\ (ids_unique db -> ids_unique db').
Proof.
  intros Hc. pose proof (create_id_above _ _ _ _ _ _ _ Hc) as Hlt.
  destruct (create_some _ _ _ _ _ _ _ Hc) as (-> & Hrow & _ & _).
  split; [reflexivity|]. split; [exact Hlt|].
  unfold ids_unique. simpl. intros Hu. rewrite map_app. simpl.
  apply NoDup_snoc; [exact Hu|].
  intros Hin. apply in_map_iff in Hin. destruct Hin as (t & E & Hin).
  specialize (Hlt t Hin). lia.
Qed.

Lemma create_assigns_fresh_id_witness :
  create_user_todo 0 Sample.chores (Sample.request "Walk dog") 1 0
  = Some (add_todo Sample.chores (Sample.task 4 "Walk dog"),
          Sample.task 4 "Walk dog")
  /\ (forall t, In t (todos Sample.chores) -> id t < 4)
  /\ (ids_unique Sample.chores ->
      ids_unique (add_todo Sample.chores (Sample.task 4 "Walk dog"))).
Proof.
  assert (H : create_user_todo 0 Sample.chores (Sample.request "Walk dog") 1 0
              = Some (add_todo Sample.chores (Sample.task 4 "Walk dog"),
                      Sample.task 4 "Walk dog")) by reflexivity.
  split; [exact H|].
  exact (proj2 (create_assigns_fresh_id _ _ _ _ _ _ _ H)).
Defined.

(** X4. A created task can be read back: [get_todo] with the key of the
    row that [create_user_todo] returned, for the same owner, gives
    that row. *)
Theorem create_then_get fuel db todo user now db' row :
  create_user_todo fuel db todo user now = Some (db', row) ->
  get_todo db' (id row) user = Ok row.
Proof.
  intros Hc. pose proof (create_id_above _ _ _ _ _ _ _ Hc) as Hlt.
  destruct (create_some _ _ _ _ _ _ _ Hc) as (-> & Hrow & _ & _).
  unfold get_todo. simpl todos. rewrite find_app_last; [reflexivity| |].
  - intros t Hin. unfold id_filter.
    destruct (id t =? id row) eqn:Ei; [|reflexivity].
    apply Z.eqb_eq in Ei. specialize (Hlt t Hin). lia.
  - unfold id_filter, owned_by. rewrite Z.eqb_refl, Hrow. simpl.
    apply Z.eqb_refl.
Qed.

Lemma create_then_get_witness :
  create_user_todo 2 Sample.milk (Sample.request "buy milk") 1 0
  = Some (add_todo Sample.milk (Sample.task 2 "buy milk (2)"),
          Sample.task 2 "buy milk (2)")
  /\ get_todo (add_todo Sample.milk (Sample.task 2 "buy milk (2)")) 2 1
     = Ok (Sample.task 2 "buy milk (2)").
Proof.
  assert (H : create_user_todo 2 Sample.milk (Sample.request "buy milk") 1 0
              = Some (add_todo Sample.milk (Sample.task 2 "buy milk (2)"),
                      Sample.task 2 "buy milk (2)")) by reflexivity.
  split; [exact H|].
  exact (create_then_get _ _ _ _ _ _ _ H).
Defined.

Module ScopeFacts.

Lemma find_id_none db i user :
  (forall t, In t (todos db) -> id t = i -> owned_by user t = false) ->
  find (id_filter i user) (todos db) = None.
Proof.
  intros H. apply find_none_iff. intros t Hin. unfold id_filter.
  destruct (id t =? i) eqn:E; [|reflexivity].
  apply Z.eqb_eq in E. now rewrite (H t Hin E).
Qed.

Lemma find_id_some db i user t :
  find (id_filter i user) (todos db) = Some t ->
  In t (todos db) /\ id t = i /\ owned_by user t = true.
Proof.
  intros H. apply find_some in H. destruct H as [Hin Hf].
  unfold id_filter in Hf. apply andb_true_iff in Hf.
  destruct Hf as [Hi Ho]. apply Z.eqb_eq in Hi. auto.
Qed.

(** After the UPDATE the lookup by key gives the new row. *)
Lemma find_written (l : list Todo) i user old row :
  find (id_filter i user) l = Some old ->
  id row = i -> owned_by user row = true ->
  find (id_filter i user)
       (map (fun t => if id t =? id row then row else t) l) = Some row.
Proof.
  intros Hfind Hid Ho.
  assert (Hrow : id_filter i user row = true).
  { unfold id_filter. now rewrite Hid, Z.eqb_refl, Ho. }
  induction l as [|t l IH]; simpl in *; [discriminate|].
  destruct (id t =? id row) eqn:E.
  - now rewrite Hrow.
  - assert (Ht : id_filter i user t = false).
    { unfold id_filter. rewrite <- Hid, E. reflexivity. }
    rewrite Ht in *. auto.
Qed.

(** What an update returns, when it goes through. *)
Lemma update_ok db i patch user now db' row :
  update_user_todo db i (Model patch) user now = Ok (db', row) ->
  exists old,
    find (id_filter i user) (todos db) = Some old
    /\ row = flush old (setattrs old patch) now
    /\ db' = write_row db row.
Proof.
  unfold update_user_todo. destruct (find _ _) as [old|] eqn:E; [|discriminate].
  simpl. intros H. exists old. split; [reflexivity|].
  destruct (u_title patch) as [[new_title|]|]; simpl in H; try discriminate H;
    destruct (null_in_required patch); try discriminate H;
    try (destruct (if negb _ then _ else _)); try discriminate H;
    now injection H as <- <-.
Qed.

End ScopeFacts.

Import ScopeFacts.

(** X5. A key that names no task of the caller -- a task of somebody
    else, or no task at all -- is answered 404 "Todo not found" by
    [get_todo], [update_user_todo] and [delete_user_todo] alike: none of
    them returns or changes the other owner's task. *)
Theorem foreign_task_not_found db i user :
  (forall t, In t (todos db) -> id t = i -> owned_by user t = false) ->
  get_todo db i user = Raise (HTTPException 404 "Todo not found")
  /\ (forall todo now,
        update_user_todo db i todo user now
        = Raise (HTTPException 404 "Todo not found"))
  /\ delete_user_todo db i user = Raise (HTTPException 404 "Todo not found").
Proof.
  intros H. pose proof (find_id_none db i user H) as E.
  unfold get_todo, update_user_todo, delete_user_todo. rewrite E.
  repeat split.
Qed.

Lemma foreign_task_not_found_witness :
  (forall t, In t (todos Sample.chores) -> id t = 3 -> owned_by 1 t = false)
  /\ get_todo Sample.chores 3 1 = Raise (HTTPException 404 "Todo not found")
  /\ (forall todo now,
        update_user_todo Sample.chores 3 todo 1 now
        = Raise (HTTPException 404 "Todo not found"))
  /\ delete_user_todo Sample.chores 3 1
     = Raise (HTTPException 404 "Todo not found").
Proof.
  assert (H : forall t, In t (todos Sample.chores) -> id t = 3 ->
                        owned_by 1 t = false).
  { intros t [<-|[<-|[<-|[]]]] E; try discriminate E. reflexivity. }
  split; [exact H|].
  exact (foreign_task_not_found Sample.chores 3 1 H).
Defined.

(** X6. After a deletion the key is gone: [get_todo] answers 404 for
    it, the table is shorter, every row with another key is where it
    was, and users and reset tokens are untouched. *)
Theorem delete_then_get db i user db' :
  delete_user_todo db i user = Ok db' ->
  get_todo db' i user = Raise (HTTPException 404 "Todo not found")
  /\ todos db' = filter (fun t => negb (id t =? i)) (todos db)
  /\ (List.length (todos db') < List.length (todos db))%nat
  /\ users db' = users db
  /\ password_reset_tokens db' = password_reset_tokens db.
Proof.
  unfold delete_user_todo. destruct (find _ _) as [t|] eqn:E; [|discriminate].
  intros [= <-]. destruct (find_id_some _ _ _ _ E) as (Hin & Hid & Ho).
  rewrite Hid. simpl. split.
  - unfold get_todo. rewrite find_id_none; [reflexivity|].
    simpl. intros x Hx Ex. apply filter_In in Hx.
    rewrite Ex, Z.eqb_refl in Hx. now destruct Hx.
  - split; [reflexivity|]. split; [|split; reflexivity].
    clear E. induction (todos db) as [|x l IH]; [destruct Hin|].
    simpl. destruct Hin as [->|Hin].
    + rewrite Hid, Z.eqb_refl. simpl.
      pose proof (filter_length_le (fun t => negb (id t =? i)) l). lia.
    + specialize (IH Hin). destruct (negb (id x =? i)); simpl; lia.
Qed.

Lemma delete_then_get_witness :
  delete_user_todo Sample.chores 2 1
  = Ok (mkDb [Sample.alice]
          [Sample.task 1 "Buy milk";
           mkTodo 3 "Buy milk" None false None 0 0 "high" "work" (Some 2)] [])
  /\ get_todo
       (mkDb [Sample.alice]
          [Sample.task 1 "Buy milk";
           mkTodo 3 "Buy milk" None false None 0 0 "high" "work" (Some 2)] [])
       2 1
     = Raise (HTTPException 404 "Todo not found").
Proof.
  assert (H : delete_user_todo Sample.chores 2 1
    = Ok (mkDb [Sample.alice]
            [Sample.task 1 "Buy milk";
             mkTodo 3 "Buy milk" None false None 0 0 "high" "work" (Some 2)] []))
    by reflexivity.
  split; [exact H|].
  exact (proj1 (delete_then_get _ _ _ _ H)).
Defined.

(** X7. An update that went through can be read back: [get_todo] with
    the same key gives the row the update returned; the table keeps its
    length, and every row with another key is as it was. *)
Theorem update_then_get db i patch user now db' row :
  update_user_todo db i (Model patch) user now = Ok (db', row) ->
  get_todo db' i user = Ok row
  /\ id row = i
  /\ List.length (todos db') = List.length (todos db)
  /\ todos db' = map (fun t => if id t =? i then row else t) (todos db)
  /\ (forall t, In t (todos db) -> id t <> i -> In t (todos db')).
Proof.
  intros H. destruct (update_ok _ _ _ _ _ _ _ H) as (old & E & -> & ->).
  clear H.
  destruct (find_id_some _ _ _ _ E) as (Hin & Hid & Ho).
  destruct (flush_fields old (setattrs old patch) now)
    as (Hfid & _ & _ & _ & _ & _ & _ & Hfo).
  simpl in Hfid, Hfo.
  assert (Hrid : id (flush old (setattrs old patch) now) = i) by congruence.
  split.
  { unfold get_todo. simpl todos.
    rewrite (find_written (todos db) i user old); auto.
    unfold owned_by. rewrite Hfo. exact Ho. }
  split; [exact Hrid|]. split; [apply length_map|].
  split; [simpl; now rewrite Hrid|].
  intros t Ht Hne. simpl. apply in_map_iff. exists t. split; [|exact Ht].
  rewrite Hrid. apply Z.eqb_neq in Hne. now rewrite Hne.
Qed.

Lemma update_then_get_witness :
  update_user_todo Sample.chores 2 (Model Sample.rename_onto_milk) 1 9
  = Ok (write_row Sample.chores
          (mkTodo 2 "buy MILK" (Some "2 litres") true None 0 9 "high" "others"
                  (Some 1)),
        mkTodo 2 "buy MILK" (Some "2 litres") true None 0 9 "high" "others"
               (Some 1))
  /\ get_todo
       (write_row Sample.chores
          (mkTodo 2 "buy MILK" (Some "2 litres") true None 0 9 "high" "others"
                  (Some 1))) 2 1
     = Ok (mkTodo 2 "buy MILK" (Some "2 litres") true None 0 9 "high" "others"
                  (Some 1)).
Proof.
  assert (H : update_user_todo Sample.chores 2 (Model Sample.rename_onto_milk) 1 9
    = Ok (write_row Sample.chores
            (mkTodo 2 "buy MILK" (Some "2 litres") true None 0 9 "high" "others"
                    (Some 1)),
          mkTodo 2 "buy MILK" (Some "2 litres") true None 0 9 "high" "others"
                 (Some 1))) by reflexivity.
  split; [exact H|].
  exact (proj1 (update_then_get _ _ _ _ _ _ _ H)).
Defined.

(* ================================================================= *)
(** * Further properties of the dashboard queries *)

Module StatsFacts.

Lemma filter_and_length {A} (f g : A -> bool) (l : list A) :
  (List.length (filter (fun x => f x && g x) l)
   + List.length (filter (fun x => f x && negb (g x)) l)
   = List.length (filter f l))%nat.
Proof.
  induction l as [|x l IH]; simpl; [reflexivity|].
  destruct (f x), (g x); simpl; lia.
Qed.

Lemma filter_weaker_length {A} (f g : A -> bool) (l : list A) :
  (forall x, f x = true -> g x = true) ->
  (List.length (filter f l) <= List.length (filter g l))%nat.
Proof.
  intros H. induction l as [|x l IH]; simpl; [lia|].
  destruct (f x) eqn:E.
  - rewrite (H x E). simpl. lia.
  - destruct (g x); simpl; lia.
Qed.

(** Each value is counted once in the list without repetitions. *)
Lemma sum_indicator (ks : list string) a :
  NoDup ks -> In a ks ->
  sum (map (fun k => if string_dec a k then 1 else 0) ks) = 1.
Proof.
  unfold sum. induction ks as [|k ks IH]; intros Hnd Hin; [destruct Hin|].
  inversion Hnd as [|? ? Hnotin Hnd']; subst. simpl.
  destruct (string_dec a k) as [->|Hne].
  - assert (Z0 : fold_right Z.add 0
                   (map (fun k0 => if string_dec k k0 then 1 else 0) ks) = 0).
    { clear IH Hnd Hnd' Hin. induction ks as [|x ks IH]; [reflexivity|].
      simpl. destruct (string_dec k x) as [->|_].
      - exfalso. apply Hnotin. now left.
      - rewrite IH; [lia|]. intros H. apply Hnotin. now right. }
    rewrite Z0. lia.
  - destruct Hin as [->|Hin]; [congruence|]. rewrite (IH Hnd' Hin). lia.
Qed.

(** The grouped counts add up to the number of rows. *)
Lemma sum_group_counts (l ks : list string) :
  NoDup ks -> (forall a, In a l -> In a ks) ->
  sum (map (fun k => Z.of_nat (count_occ string_dec l k)) ks)
  = Z.of_nat (List.length l).
Proof.
  intros Hnd. induction l as [|a l IH]; intros Hin.
  - simpl. unfold sum. clear. induction ks as [|k ks IH]; simpl; [reflexivity|].
    now rewrite IH.
  - assert (E : sum (map (fun k => Z.of_nat (count_occ string_dec (a :: l) k)) ks)
              = sum (map (fun k => if string_dec a k then 1 else 0) ks)
                + sum (map (fun k => Z.of_nat (count_occ string_dec l k)) ks)).
    { clear. unfold sum. induction ks as [|k ks IH]; [reflexivity|].
      cbn [map fold_right]. rewrite IH. cbn [count_occ].
      destruct (string_dec a k); lia. }
    rewrite E, sum_indicator, IH; simpl List.length; auto; try lia.
    + intros x Hx. apply Hin. now right.
    + apply Hin. now left.
Qed.

Lemma group_count_sum (keys : list string) :
  sum (map snd (group_count keys)) = Z.of_nat (List.length keys).
Proof.
  unfold group_count. rewrite map_map. simpl.
  apply sum_group_counts; [apply NoDup_nodup|].
  intros a Ha. now apply nodup_In.
Qed.

Lemma group_count_positive (keys : list string) r :
  In r (group_count keys) -> 1 <= snd r /\ In (fst r) keys.
Proof.
  unfold group_count. intros H. apply in_map_iff in H.
  destruct H as (k & <- & Hk). apply nodup_In in Hk. simpl. split; [|exact Hk].
  apply (count_occ_In string_dec) in Hk. lia.
Qed.

End StatsFacts.

Import StatsFacts.

(** X8. The statistics hang together: [in_progress] is [total] less
    [completed], [completed] lies between 0 and [total], and [overdue],
    which counts only tasks not completed, lies between 0 and
    [in_progress]. *)
Theorem task_stats_consistent db user now :
  in_progress (get_task_stats db user now)
  = total (get_task_stats db user now)
    - stats_completed (get_task_stats db user now)
  /\ 0 <= stats_completed (get_task_stats db user now)
       <= total (get_task_stats db user now)
  /\ 0 <= overdue (get_task_stats db user now)
       <= in_progress (get_task_stats db user now).
Proof.
  unfold get_task_stats, count. simpl.
  pose proof (filter_and_length (owned_by user) completed (todos db)) as Hsplit.
  pose proof (filter_weaker_length
                (fun t => owned_by user t && negb (completed t) &&
                          match due_at t with
                          | Some d => d <? now
                          | None => false
                          end)
                (fun t => owned_by user t && negb (completed t))
                (todos db)) as Hover.
  assert (Hle : forall x,
    owned_by user x && negb (completed x) &&
      match due_at x with Some d => d <? now | None => false end = true ->
    owned_by user x && negb (completed x) = true).
  { intros x Hx. apply andb_true_iff in Hx. tauto. }
  specialize (Hover Hle). lia.
Qed.

Lemma count_occ_priority user p (l : list Todo) :
  count_occ string_dec (map priority (filter (owned_by user) l)) p =
  List.length (filter (fun t => owned_by user t && String.eqb (priority t) p) l).
Proof.
  induction l as [|t l IH]; simpl; [reflexivity|].
  destruct (owned_by user t); simpl; [|exact IH].
  destruct (string_dec (priority t) p) as [->|N].
  - rewrite String.eqb_refl. simpl. now rewrite IH.
  - rewrite (proj2 (String.eqb_neq _ _) N). exact IH.
Qed.

(** X9. The priority breakdown has one entry for each priority the
    owner uses and none for the others: [(p, c)] is listed exactly when
    [c] is the number of the owner's tasks of priority [p] and is at
    least 1; the priorities listed are pairwise different, and the
    counts add up to the owner's number of tasks. *)
Theorem priorities_partition_total db user now :
  NoDup (map ps_priority (get_tasks_by_priority db user))
  /\ (forall p c,
        In (mkPriorityStat p c) (get_tasks_by_priority db user) <->
        c = count (filter (fun t => owned_by user t
                                    && String.eqb (priority t) p) (todos db))
        /\ 1 <= c)
  /\ (forall p, In p (get_tasks_by_priority db user) -> 1 <= ps_count p)
  /\ sum (map ps_count (get_tasks_by_priority db user))
     = total (get_task_stats db user now).
Proof.
  split.
  { unfold get_tasks_by_priority, group_count. rewrite !map_map. simpl.
    rewrite map_id. apply NoDup_nodup. }
  split.
  { intros p c. unfold count. rewrite <- count_occ_priority.
    unfold get_tasks_by_priority, group_count. rewrite map_map. simpl.
    set (keys := map priority (filter (owned_by user) (todos db))).
    rewrite in_map_iff. split.
    - intros (k & E & Hk). injection E as -> <-. split; [reflexivity|].
      apply nodup_In in Hk. apply (count_occ_In string_dec) in Hk. lia.
    - intros [-> Hpos]. exists p. split; [reflexivity|].
      apply nodup_In. apply (count_occ_In string_dec). lia. }
  unfold get_tasks_by_priority. rewrite !map_map. simpl. split.
  - intros p Hp. apply in_map_iff in Hp. destruct Hp as (r & <- & Hr).
    simpl. now apply group_count_positive in Hr.
  - change (fun x : string * Z => snd x) with (@snd string Z).
    rewrite group_count_sum, length_map. reflexivity.
Qed.

Module CategoryFacts.

Lemma sum_indicator_out (ks : list string) a :
  ~ In a ks -> sum (map (fun k => if string_dec a k then 1 else 0) ks) = 0.
Proof.
  unfold sum. induction ks as [|k ks IH]; intros Hn; [reflexivity|].
  simpl. destruct (string_dec a k) as [->|_].
  - exfalso. apply Hn. now left.
  - rewrite IH; [lia|]. intros H. apply Hn. now right.
Qed.

Lemma mem_In x (s : list string) : chatbot.mem x s = true <-> In x s.
Proof.
  unfold chatbot.mem. rewrite existsb_exists. split.
  - intros (y & Hy & E). apply String.eqb_eq in E. now subst.
  - intros H. exists x. split; [exact H | apply String.eqb_refl].
Qed.

(** Counts taken for a list of names add up to the rows whose value is
    one of the names. *)
Lemma sum_counts_among (l ks : list string) :
  NoDup ks ->
  sum (map (fun k => Z.of_nat (count_occ string_dec l k)) ks)
  = Z.of_nat (List.length (filter (fun a => chatbot.mem a ks) l)).
Proof.
  intros Hnd. induction l as [|a l IH].
  - simpl. unfold sum. clear. induction ks as [|k ks IH]; simpl; [reflexivity|].
    now rewrite IH.
  - assert (E : sum (map (fun k => Z.of_nat (count_occ string_dec (a :: l) k)) ks)
              = sum (map (fun k => if string_dec a k then 1 else 0) ks)
                + sum (map (fun k => Z.of_nat (count_occ string_dec l k)) ks)).
    { clear. unfold sum. induction ks as [|k ks IH]; [reflexivity|].
      cbn [map fold_right]. rewrite IH. cbn [count_occ].
      destruct (string_dec a k); lia. }
    rewrite E, IH. cbn [filter].
    destruct (chatbot.mem a ks) eqn:M.
    + apply mem_In in M. rewrite (sum_indicator ks a Hnd M).
      cbn [List.length]. lia.
    + rewrite sum_indicator_out; [lia|].
      intros H. apply mem_In in H. congruence.
Qed.

Lemma filter_category_length user ks (l : list Todo) :
  List.length (filter (fun a => chatbot.mem a ks)
                      (map category (filter (owned_by user) l)))
  = List.length (filter (fun t => owned_by user t
                                  && chatbot.mem (category t) ks) l).
Proof.
  induction l as [|t l IH]; simpl; [reflexivity|].
  destruct (owned_by user t); simpl; [|exact IH].
  destruct (chatbot.mem (category t) ks); simpl; now rewrite IH.
Qed.

Lemma tasks_in_count_occ db user c :
  tasks_in db user c
  = Z.of_nat (count_occ string_dec
                (map category (filter (owned_by user) (todos db))) c).
Proof. unfold tasks_in, count. now rewrite count_occ_category. Qed.

Lemma all_categories_NoDup : NoDup dashboard.all_categories.
Proof.
  unfold dashboard.all_categories.
  repeat constructor; simpl; intuition discriminate.
Qed.

End CategoryFacts.

Import CategoryFacts.

(** X10. The counts of the dashboard's six categories add up to the
    number of the owner's tasks whose category is one of the six, which
    is at most [stats.total]: a task in "study" or "home", categories
    the assistant accepts, is in the total and in no category of the
    dashboard.  When every task of the owner is in one of the six, the
    counts add up to the total. *)
Theorem dashboard_categories_sum db current_user now :
  sum (map cs_count (categories (dashboard.get_dashboard_data db current_user now)))
  = count (filter (fun t => owned_by (user_id current_user) t && canonical t)
                  (todos db))
  /\ sum (map cs_count
            (categories (dashboard.get_dashboard_data db current_user now)))
     <= total (stats (dashboard.get_dashboard_data db current_user now))
  /\ ((forall t, In t (todos db) -> owned_by (user_id current_user) t = true ->
                 canonical t = true) ->
      sum (map cs_count
             (categories (dashboard.get_dashboard_data db current_user now)))
      = total (stats (dashboard.get_dashboard_data db current_user now))).
Proof.
  assert (E : sum (map cs_count
                (categories (dashboard.get_dashboard_data db current_user now)))
              = count (filter (fun t => owned_by (user_id current_user) t
                                        && canonical t) (todos db))).
  { unfold dashboard.get_dashboard_data.
    cbv beta iota zeta delta [categories]. rewrite map_map.
    cbv beta iota delta [cs_count].
    rewrite (map_ext _ (fun k => Z.of_nat (count_occ string_dec
               (map category (filter (owned_by (user_id current_user)) (todos db)))
               k))).
    - rewrite (sum_counts_among _ _ all_categories_NoDup).
      unfold count. now rewrite filter_category_length.
    - intros c. rewrite category_map_get. apply tasks_in_count_occ. }
  rewrite E. unfold dashboard.get_dashboard_data, get_task_stats, count. simpl.
  split; [reflexivity|]. split.
  - apply inj_le, filter_weaker_length.
    intros x Hx. apply andb_true_iff in Hx. tauto.
  - intros Hall. f_equal. f_equal. apply filter_ext_in.
    intros t Hin. destruct (owned_by (user_id current_user) t) eqn:Ho;
      [|reflexivity].
    now rewrite (Hall t Hin Ho).
Qed.

Lemma dashboard_categories_sum_witness :
  sum (map cs_count
         (categories (dashboard.get_dashboard_data Sample.week Sample.alice 100)))
  = 4
  /\ total (stats (dashboard.get_dashboard_data Sample.week Sample.alice 100)) = 5
  /\ (forall t, In t (todos Sample.chores) -> owned_by 1 t = true ->
                canonical t = true)
  /\ sum (map cs_count
            (categories (dashboard.get_dashboard_data Sample.chores Sample.alice 100)))
     = total (stats (dashboard.get_dashboard_data Sample.chores Sample.alice 100)).
Proof.
  split; [exact (proj1 (dashboard_categories_sum Sample.week Sample.alice 100))|].
  split; [reflexivity|].
  assert (H : forall t, In t (todos Sample.chores) ->
                owned_by (user_id Sample.alice) t = true -> canonical t = true).
  { intros t [<-|[<-|[<-|[]]]] Ho; reflexivity. }
  split; [exact H|].
  exact (proj2 (proj2 (dashboard_categories_sum Sample.chores Sample.alice 100)) H).
Defined.

Module DeadlineFacts.

Lemma In_firstn {A} n (l : list A) x : In x (firstn n l) -> In x l.
Proof.
  intros H. rewrite <- (firstn_skipn n l). apply in_or_app. now left.
Qed.

Lemma In_skipn {A} n (l : list A) x : In x (skipn n l) -> In x l.
Proof.
  intros H. rewrite <- (firstn_skipn n l). apply in_or_app. now right.
Qed.

Lemma insert_by_due_In t l x : In x (insert_by_due t l) <-> x = t \/ In x l.
Proof.
  induction l as [|y l IH]; simpl.
  - intuition congruence.
  - destruct (due_key t <=? due_key y); simpl; rewrite ?IH; intuition congruence.
Qed.

Lemma insert_by_due_ascending t l :
  due_ascending l -> due_ascending (insert_by_due t l).
Proof.
  induction l as [|y l IH]; simpl; intros H.
  - split; [intros ? []|exact I].
  - destruct H as [Hy Hl]. destruct (due_key t <=? due_key y) eqn:E.
    + apply Z.leb_le in E. simpl. split; [|split; assumption].
      intros z [<-|Hz]; [exact E|]. specialize (Hy z Hz). lia.
    + apply Z.leb_gt in E. simpl. split; [|now apply IH].
      intros z Hz. apply insert_by_due_In in Hz.
      destruct Hz as [->|Hz]; [lia | now apply Hy].
Qed.

Lemma order_by_due_In l x : In x (order_by_due l) <-> In x l.
Proof.
  unfold order_by_due. induction l as [|y l IH]; simpl; [tauto|].
  rewrite insert_by_due_In, IH. intuition congruence.
Qed.

Lemma order_by_due_ascending l : due_ascending (order_by_due l).
Proof.
  unfold order_by_due. induction l as [|y l IH]; simpl; [exact I|].
  now apply insert_by_due_ascending.
Qed.

Lemma firstn_ascending n l : due_ascending l -> due_ascending (firstn n l).
Proof.
  revert l. induction n as [|n IH]; intros [|x l] H; simpl; try exact I.
  destruct H as [Hx Hl]. split; [|now apply IH].
  intros y Hy. apply Hx. now apply (In_firstn n).
Qed.

End DeadlineFacts.

Import DeadlineFacts.

(** X11. The dashboard's deadlines are at most five tasks, each one a
    task of the owner that is not completed and is due strictly after
    now, in ascending order of due date: no completed, undated, past or
    foreign task is ever listed. *)
Theorem dashboard_deadlines_upcoming db current_user now :
  (List.length (deadlines (dashboard.get_dashboard_data db current_user now))
   <= 5)%nat
  /\ due_ascending (deadlines (dashboard.get_dashboard_data db current_user now))
  /\ forall t,
       In t (deadlines (dashboard.get_dashboard_data db current_user now)) ->
       In t (todos db)
       /\ owned_by (user_id current_user) t = true
       /\ completed t = false
       /\ exists d, due_at t = Some d /\ now < d.
Proof.
  unfold dashboard.get_dashboard_data. cbv beta iota zeta delta [deadlines].
  unfold get_upcoming_deadlines, offset_limit.
  change (5 <? 0) with false. cbv iota.
  change (Z.to_nat 5) with 5%nat. change (Z.to_nat 0) with 0%nat.
  cbn [skipn]. split; [apply firstn_le_length|]. split.
  - apply firstn_ascending, order_by_due_ascending.
  - intros t Hin. apply In_firstn, order_by_due_In, filter_In in Hin.
    destruct Hin as [Hin Hf]. apply andb_true_iff in Hf.
    destruct Hf as [Hf Hd]. apply andb_true_iff in Hf. destruct Hf as [Ho Hc].
    apply negb_true_iff in Hc. repeat (split; [assumption|]).
    destruct (due_at t) as [d|]; [|discriminate].
    exists d. split; [reflexivity | now apply Z.ltb_lt].
Qed.

Module PageFacts.

Lemma firstn_pages {A} (a b : nat) (l : list A) :
  (firstn a l ++ firstn b (skipn a l))%list = firstn (a + b) l.
Proof.
  revert l. induction a as [|a IH]; intros l; [reflexivity|].
  destruct l as [|x l]; simpl; [now rewrite firstn_nil|].
  now rewrite IH.
Qed.

Lemma lower_idem s : lower (lower s) = lower s.
Proof.
  induction s as [|c s IH]; simpl; [reflexivity|]. rewrite IH. f_equal.
  unfold lower_ascii.
  destruct ((65 <=? N_of_ascii c) && (N_of_ascii c <=? 90))%N eqn:E;
    [|now rewrite E].
  apply andb_true_iff in E. destruct E as [E1 E2].
  apply N.leb_le in E1. apply N.leb_le in E2.
  rewrite N_ascii_embedding by lia.
  assert (E3 : ((65 <=? N_of_ascii c + 32) && (N_of_ascii c + 32 <=? 90))%N
               = false).
  { apply andb_false_iff. right. apply N.leb_gt. lia. }
  now rewrite E3.
Qed.

End PageFacts.

Import PageFacts.

(** X12. [get_todos] pages through the owner's tasks and nobody
    else's: every row of a page is a stored task of the owner, a page
    of limit [n >= 0] has at most [n] rows, and the page of [a] rows
    from the start followed by the page of [b] rows after skipping [a]
    is the page of [a + b] rows from the start. *)
Theorem get_todos_pages db user a b :
  0 <= a -> 0 <= b ->
  (get_todos db user 0 a ++ get_todos db user a b)%list
  = get_todos db user 0 (a + b)
  /\ (List.length (get_todos db user a b) <= Z.to_nat b)%nat
  /\ forall skip limit t,
       In t (get_todos db user skip limit) ->
       In t (todos db) /\ owned_by user t = true.
Proof.
  intros Ha Hb. unfold get_todos, offset_limit.
  assert (Ea : (a <? 0) = false) by (apply Z.ltb_ge; lia).
  assert (Eb : (b <? 0) = false) by (apply Z.ltb_ge; lia).
  assert (Eab : (a + b <? 0) = false) by (apply Z.ltb_ge; lia).
  rewrite Ea, Eb, Eab. change (Z.to_nat 0) with 0%nat. cbn [skipn].
  split.
  { rewrite Z2Nat.inj_add by lia. apply firstn_pages. }
  split; [apply firstn_le_length|].
  intros skip limit t Hin. apply filter_In.
  destruct (limit <? 0).
  - now apply (In_skipn (Z.to_nat skip)).
  - apply In_firstn in Hin. now apply (In_skipn (Z.to_nat skip)).
Qed.

Lemma get_todos_pages_witness :
  0 <= 2 /\ 0 <= 3
  /\ (get_todos Sample.week 1 0 2 ++ get_todos Sample.week 1 2 3)%list
     = get_todos Sample.week 1 0 (2 + 3)
  /\ (List.length (get_todos Sample.week 1 2 3) <= Z.to_nat 3)%nat.
Proof.
  assert (H2 : 0 <= 2) by lia. assert (H3 : 0 <= 3) by lia.
  split; [exact H2|]. split; [exact H3|].
  destruct (get_todos_pages Sample.week 1 2 3 H2 H3) as (E & L & _).
  split; [exact E | exact L].
Defined.

(** X13. The lookup by title ignores case and other owners: two titles
    that differ by case only find the same rows (the title folded to
    lower case finds what the title finds), and every row found is a
    stored task of the owner whose title is the requested one up to
    case. *)
Theorem get_todos_by_title_ignores_case db user a :
  get_todos_by_title db (lower a) user = get_todos_by_title db a user
  /\ (forall b, lower a = lower b ->
                get_todos_by_title db a user = get_todos_by_title db b user)
  /\ forall t, In t (get_todos_by_title db a user) ->
               In t (todos db) /\ owned_by user t = true
               /\ lower (title t) = lower a.
Proof.
  assert (Hext : forall b, lower a = lower b ->
            get_todos_by_title db a user = get_todos_by_title db b user).
  { intros b E. unfold get_todos_by_title. apply filter_ext. intros t.
    unfold title_filter, eq_ci. now rewrite E. }
  split; [symmetry; apply Hext; symmetry; apply lower_idem|].
  split; [exact Hext|].
  intros t Hin. apply filter_In in Hin. destruct Hin as [Hin Hf].
  unfold title_filter in Hf. apply andb_true_iff in Hf. destruct Hf as [Hc Ho].
  apply eq_ci_true in Hc. auto.
Qed.

(* ================================================================= *)
(** * Further properties of the dispatcher *)

Module DispatchFacts.
Import chatbot.

Lemma execute_create parse iter fuel now args db user :
  execute_todo_action parse iter fuel now "create_todo" args db (Some user) =
  match a_due_at args with
  | None => guarded db (do_create iter fuel now args None db user)
  | Some s =>
      match parse s with
      | None => Some (db, bad_date s)
      | Some d => guarded db (do_create iter fuel now args (Some d) db user)
      end
  end.
Proof.
  unfold execute_todo_action, guarded. simpl.
  destruct (a_due_at args) as [s|]; [|reflexivity].
  now destruct (parse s).
Qed.

Lemma execute_delete parse iter fuel now args db user :
  execute_todo_action parse iter fuel now "delete_todo" args db (Some user) =
  guarded db (do_delete args db user).
Proof.
  unfold execute_todo_action, guarded. simpl.
  now destruct (a_due_at args).
Qed.

Lemma execute_create_parsed parse iter fuel now args db user :
  (forall s, a_due_at args = Some s -> parse s <> None) ->
  execute_todo_action parse iter fuel now "create_todo" args db (Some user) =
  guarded db (do_create iter fuel now args (due_of parse args) db user).
Proof.
  intros Hd. rewrite execute_create. unfold due_of.
  destruct (a_due_at args) as [s|]; [|reflexivity].
  destruct (parse s) eqn:E; [reflexivity|]. now destruct (Hd s eq_refl).
Qed.

Lemma execute_update_parsed parse iter fuel now args db user :
  (forall s, a_due_at args = Some s -> parse s <> None) ->
  execute_todo_action parse iter fuel now "update_todo" args db (Some user) =
  guarded db (do_update iter now args (due_of parse args) db user).
Proof.
  intros Hd. rewrite execute_update. unfold due_of.
  destruct (a_due_at args) as [s|]; [|reflexivity].
  destruct (parse s) eqn:E; [reflexivity|]. now destruct (Hd s eq_refl).
Qed.

(** A string has no more characters than bytes. *)
Lemma char_count_le s : (Str.char_count s <= String.length s)%nat.
Proof.
  induction s as [|c s IH]; simpl; [lia|].
  destruct ((128 <=? N_of_ascii c) && (N_of_ascii c <? 192))%N; lia.
Qed.

Lemma check_title_short ttl :
  (String.length ttl <= 255)%nat -> check_title ttl = Ok ttl.
Proof.
  intros H. unfold check_title. pose proof (char_count_le ttl) as L.
  assert (E : (255 <? Str.char_count ttl)%nat = false)
    by (apply Nat.ltb_ge; lia).
  now rewrite E.
Qed.

Lemma allowed_default v allowed dflt :
  allowed_if_given v allowed -> mem dflt allowed = true ->
  mem (match v with Some x => x | None => dflt end) allowed = true.
Proof.
  intros H Hd. destruct v as [x|]; [now apply H | exact Hd].
Qed.

End DispatchFacts.

Import DispatchFacts.

(** X14. [create_todo] with a priority or a category outside the
    allowed values stores nothing and answers the rejection that names
    the value: the priority is checked first, the category next, both
    before the title is looked at. *)
Theorem create_todo_rejects_unknown_value parse iter fuel now args db user :
  (forall s, chatbot.a_due_at args = Some s -> parse s <> None) ->
  (forall p, chatbot.a_priority args = Some p ->
             chatbot.mem p chatbot.allowed_priorities = false ->
             chatbot.execute_todo_action parse iter fuel now "create_todo" args
               db (Some user)
             = Some (db, chatbot.invalid_priority iter p))
  /\ (forall c, allowed_if_given (chatbot.a_priority args)
                  chatbot.allowed_priorities ->
                chatbot.a_category args = Some c ->
                chatbot.mem c chatbot.allowed_categories = false ->
                chatbot.execute_todo_action parse iter fuel now "create_todo"
                  args db (Some user)
                = Some (db, chatbot.invalid_category iter c)).
Proof.
  intros Hd. rewrite (execute_create_parsed _ _ _ _ _ _ _ Hd).
  unfold chatbot.do_create. split.
  - intros p Hp Hm. rewrite Hp, Hm. reflexivity.
  - intros c Hp Hc Hm.
    rewrite (allowed_default _ _ "low" Hp eq_refl), Hc, Hm. reflexivity.
Qed.

Lemma create_todo_rejects_unknown_value_witness :
  (forall s, chatbot.a_due_at Sample.add_hobby = Some s -> Sample.parse s <> None)
  /\ allowed_if_given (chatbot.a_priority Sample.add_hobby)
       chatbot.allowed_priorities
  /\ chatbot.mem "hobby" chatbot.allowed_categories = false
  /\ chatbot.execute_todo_action Sample.parse Sample.iter 5 0 "create_todo"
       Sample.add_hobby Sample.milk (Some Sample.alice)
     = Some (Sample.milk,
             "Invalid category 'hobby'. Allowed values are: work, personal, study, home, health, shopping, others.").
Proof.
  assert (H1 : forall s, chatbot.a_due_at Sample.add_hobby = Some s ->
                         Sample.parse s <> None) by discriminate.
  assert (H2 : allowed_if_given (chatbot.a_priority Sample.add_hobby)
                 chatbot.allowed_priorities) by (intros x; discriminate).
  assert (H3 : chatbot.mem "hobby" chatbot.allowed_categories = false)
    by reflexivity.
  repeat (split; [assumption|]).
  exact (proj2 (create_todo_rejects_unknown_value Sample.parse Sample.iter 5 0
                  Sample.add_hobby Sample.milk Sample.alice H1)
           "hobby" H2 eq_refl H3).
Defined.



Module DeleteFacts.
Import chatbot.

Lemma filter_singleton_in {A} (f : A -> bool) (l : list A) t :
  filter f l = [t] -> In t l /\ f t = true.
Proof.
  intros E. apply filter_In. rewrite E. now left.
Qed.

Lemma contains_quoted_deleted (l : list Todo) t :
  In t l -> contains (quoted (title t)) (multiple_delete_message l).
Proof.
  intros Hin. unfold multiple_delete_message.
  apply contains_app_r, contains_app_l.
  apply contains_join. now apply (in_map (fun t => quoted (title t))).
Qed.

End DeleteFacts.

Import DeleteFacts.

(** X16. [delete_todo] with a title that matches exactly one task of
    the caller, whatever the case, deletes that task and no row with
    another key, and answers with the title as it was stored; the same
    title then matches nothing. *)
Theorem delete_todo_single_match parse iter fuel now args db user ttl t :
  chatbot.a_title args = Some ttl ->
  ttl <> "" ->
  get_todos_by_title db ttl (user_id user) = [t] ->
  exists db',
    chatbot.execute_todo_action parse iter fuel now "delete_todo" args db
      (Some user)
    = Some (db', "Successfully deleted todo: '" ++ title t ++ "'.")
    /\ todos db' = filter (fun x => negb (id x =? id t)) (todos db)
    /\ ~ In t (todos db')
    /\ get_todos_by_title db' ttl (user_id user) = [].
Proof.
  intros Ht Hne Hm. rewrite execute_delete. unfold chatbot.do_delete.
  rewrite Ht. destruct ttl as [|c ttl]; [congruence|]. rewrite Hm.
  destruct (filter_singleton_in _ _ _ Hm) as [Hin Hf].
  unfold title_filter in Hf. apply andb_true_iff in Hf. destruct Hf as [_ Ho].
  assert (Hfind : exists old, find (id_filter (id t) (user_id user)) (todos db)
                              = Some old).
  { destruct (find _ _) eqn:E; [eauto|].
    pose proof (find_none _ _ E t Hin) as N. unfold id_filter in N.
    now rewrite Z.eqb_refl, Ho in N. }
  destruct Hfind as [old Hfind].
  destruct (find_id_some _ _ _ _ Hfind) as (_ & Hid & _).
  unfold delete_user_todo. rewrite Hfind. simpl. rewrite Hid.
  eexists. split; [reflexivity|]. simpl. split; [reflexivity|]. split.
  - intros H. apply filter_In in H. rewrite Z.eqb_refl in H. now destruct H.
  - unfold get_todos_by_title. simpl.
    destruct (filter (title_filter (String c ttl) (user_id user)) _)
      as [|x rest] eqn:E; [reflexivity|].
    assert (Hx : In x (filter (title_filter (String c ttl) (user_id user))
                         (filter (fun x => negb (id x =? id t)) (todos db))))
      by (rewrite E; now left).
    apply filter_In in Hx. destruct Hx as [Hx Hxf].
    apply filter_In in Hx. destruct Hx as [Hx Hxid].
    assert (Hxm : In x (get_todos_by_title db (String c ttl) (user_id user)))
      by (apply filter_In; now split).
    rewrite Hm in Hxm. destruct Hxm as [<-|[]].
    now rewrite Z.eqb_refl in Hxid.
Qed.

Lemma delete_todo_single_match_witness :
  chatbot.a_title Sample.drop_call = Some "CALL MOM"
  /\ "CALL MOM" <> ""
  /\ get_todos_by_title Sample.chores "CALL MOM" 1 = [Sample.task 2 "Call mom"]
  /\ exists db',
      chatbot.execute_todo_action Sample.parse Sample.iter 0 0 "delete_todo"
        Sample.drop_call Sample.chores (Some Sample.alice)
      = Some (db', "Successfully deleted todo: 'Call mom'.")
      /\ ~ In (Sample.task 2 "Call mom") (todos db')
      /\ get_todos_by_title db' "CALL MOM" 1 = [].
Proof.
  assert (H1 : chatbot.a_title Sample.drop_call = Some "CALL MOM") by reflexivity.
  assert (H2 : "CALL MOM" <> "") by discriminate.
  assert (H3 : get_todos_by_title Sample.chores "CALL MOM" (user_id Sample.alice)
               = [Sample.task 2 "Call mom"]) by reflexivity.
  repeat (split; [assumption|]).
  destruct (delete_todo_single_match Sample.parse Sample.iter 0 0 Sample.drop_call
              Sample.chores Sample.alice "CALL MOM" (Sample.task 2 "Call mom")
              H1 H2 H3) as (db' & Hrun & _ & Hgone & Hnone).
  exists db'. auto.
Defined.

(** X17. [delete_todo] deletes nothing unless exactly one task matches:
    with no match it answers that no task has that title, with two or
    more it answers the list of the matching titles, each quoted, and
    in both cases the store is as it was. *)
Theorem delete_todo_needs_one_match parse iter fuel now args db user ttl :
  chatbot.a_title args = Some ttl ->
  ttl <> "" ->
  (get_todos_by_title db ttl (user_id user) = [] ->
   chatbot.execute_todo_action parse iter fuel now "delete_todo" args db
     (Some user)
   = Some (db, "No todo found with title '" ++ ttl ++ "' for your account."))
  /\ ((2 <= List.length (get_todos_by_title db ttl (user_id user)))%nat ->
      chatbot.execute_todo_action parse iter fuel now "delete_todo" args db
        (Some user)
      = Some (db, chatbot.multiple_delete_message
                    (get_todos_by_title db ttl (user_id user)))
      /\ forall t, In t (get_todos_by_title db ttl (user_id user)) ->
                   contains (chatbot.quoted (title t))
                     (chatbot.multiple_delete_message
                        (get_todos_by_title db ttl (user_id user)))).
Proof.
  intros Ht Hne. rewrite execute_delete. unfold chatbot.do_delete.
  rewrite Ht. destruct ttl as [|c ttl]; [congruence|]. split.
  - intros E. rewrite E. reflexivity.
  - intros Hlen. split.
    + destruct (get_todos_by_title db (String c ttl) (user_id user))
        as [|t [|t2 rest]]; simpl in Hlen; try lia. reflexivity.
    + intros t Hin. now apply contains_quoted_deleted.
Qed.

Lemma delete_todo_needs_one_match_witness :
  chatbot.a_title Sample.drop_milk = Some "buy milk"
  /\ "buy milk" <> ""
  /\ (2 <= List.length (get_todos_by_title Sample.twins "buy milk" 1))%nat
  /\ chatbot.execute_todo_action Sample.parse Sample.iter 0 0 "delete_todo"
       Sample.drop_milk Sample.twins (Some Sample.alice)
     = Some (Sample.twins,
             "Multiple todos found. Please provide the exact title: 'Buy milk', 'buy milk'.").
Proof.
  assert (H1 : chatbot.a_title Sample.drop_milk = Some "buy milk") by reflexivity.
  assert (H2 : "buy milk" <> "") by discriminate.
  assert (H3 : (2 <= List.length
                  (get_todos_by_title Sample.twins "buy milk"
                     (user_id Sample.alice)))%nat) by (vm_compute; lia).
  repeat (split; [assumption|]).
  exact (proj1 (proj2 (delete_todo_needs_one_match Sample.parse Sample.iter 0 0
                         Sample.drop_milk Sample.twins Sample.alice "buy milk"
                         H1 H2) H3)).
Defined.

(** X18. A [create_todo] or [update_todo] call whose [due_at] the date
    parser cannot read is answered with the explanation that quotes the
    text, whatever else the call holds, and the store is as it was. *)
Theorem unreadable_date_stops_the_call parse iter fuel now action args db user s :
  action = "create_todo" \/ action = "update_todo" ->
  chatbot.a_due_at args = Some s ->
  parse s = None ->
  chatbot.execute_todo_action parse iter fuel now action args db (Some user)
  = Some (db, "Could not understand the date '" ++ s
              ++ "'. Please use a more specific format (e.g., 'tomorrow at 5pm', '2026-02-10').").
Proof.
  intros [->| ->] Hs Hp.
  - rewrite execute_create, Hs, Hp. reflexivity.
  - rewrite execute_update, Hs, Hp. reflexivity.
Qed.

Lemma unreadable_date_stops_the_call_witness :
  chatbot.a_due_at Sample.due_whenever = Some "whenever"
  /\ Sample.parse "whenever" = None
  /\ chatbot.execute_todo_action Sample.parse Sample.iter 3 0 "create_todo"
       Sample.due_whenever Sample.milk (Some Sample.alice)
     = Some (Sample.milk,
             "Could not understand the date 'whenever'. Please use a more specific format (e.g., 'tomorrow at 5pm', '2026-02-10').").
Proof.
  assert (H1 : chatbot.a_due_at Sample.due_whenever = Some "whenever")
    by reflexivity.
  assert (H2 : Sample.parse "whenever" = None) by reflexivity.
  repeat (split; [assumption|]).
  exact (unreadable_date_stops_the_call Sample.parse Sample.iter 3 0
           "create_todo" Sample.due_whenever Sample.milk Sample.alice "whenever"
           (or_introl eq_refl) H1 H2).
Defined.



(* ================================================================= *)
(** * Further properties of the password reset *)

Module ResetFacts.
Import auth.

Lemma add_token_spec db row :
  fresh db (token row) ->
  add_token db row
  = Ok {| users := users db; todos := todos db;
          password_reset_tokens := (password_reset_tokens db ++ [row])%list |}.
Proof.
  intros Hf. unfold add_token.
  destruct (existsb _ _) eqn:E; [|reflexivity].
  apply existsb_exists in E. destruct E as (x & Hin & Ex).
  apply String.eqb_eq in Ex. now destruct (Hf x Hin).
Qed.

(** What [forgot_password] does for a registered address. *)
Lemma forgot_password_registered send db request_email tok now user :
  find (fun u => String.eqb (email u) request_email) (users db) = Some user ->
  fresh db tok ->
  forgot_password send db request_email tok now
  = Ok ({| users := users db; todos := todos db;
           password_reset_tokens :=
             (password_reset_tokens db
              ++ [mkToken (next_id (map token_id (password_reset_tokens db)))
                          (user_id user) tok (now + 3600)])%list |},
        mkResponse 200 registered_message).
Proof.
  intros Hu Hf. unfold forgot_password. rewrite Hu.
  rewrite add_token_spec by exact Hf. simpl. now destruct (send _).
Qed.

Lemma tokens_unique_snoc db row :
  tokens_unique db -> fresh db (token row) ->
  tokens_unique {| users := users db; todos := todos db;
                   password_reset_tokens :=
                     (password_reset_tokens db ++ [row])%list |}.
Proof.
  unfold tokens_unique. simpl. intros Hu Hf. rewrite map_app. simpl.
  apply NoDup_snoc; [exact Hu|]. intros Hin. apply in_map_iff in Hin.
  destruct Hin as (x & E & Hx). exact (Hf x Hx E).
Qed.

Lemma find_by_id_exists (l : list User) user :
  In user l ->
  exists first, find (fun u => user_id u =? user_id user) l = Some first
                /\ user_id first = user_id user.
Proof.
  intros Hin. destruct (find _ l) as [first|] eqn:E.
  - exists first. split; [reflexivity|]. apply find_some in E.
    now apply Z.eqb_eq.
  - pose proof (find_none _ _ E user Hin) as N. simpl in N.
    now rewrite Z.eqb_refl in N.
Qed.

End ResetFacts.

Import ResetFacts.

(** X20. A forgotten password comes back through its token: for a
    registered address [forgot_password] stores a token that
    [reset_password_confirm] accepts up to one hour later, setting the
    digest of the new password for the user of that address and using
    the token up; past the hour the same token is turned down as
    invalid or expired, deleted, and no password changes. *)
Theorem forgot_then_confirm hash send db request_email tok now user :
  tokens_unique db ->
  fresh db tok ->
  find (fun u => String.eqb (email u) request_email) (users db) = Some user ->
  exists db1,
    auth.forgot_password send db request_email tok now
    = Ok (db1, auth.mkResponse 200 auth.registered_message)
    /\ (forall new_password later,
          later <= now + 3600 ->
          exists db2,
            auth.reset_password_confirm hash db1 tok new_password later
            = (db2, Ok tt)
            /\ (exists user',
                  find (fun u => user_id u =? user_id user) (users db2)
                  = Some user'
                  /\ hashed_password user' = hash new_password)
            /\ fresh db2 tok)
    /\ (forall new_password later,
          now + 3600 < later ->
          exists db2,
            auth.reset_password_confirm hash db1 tok new_password later
            = (db2, Raise (HTTPException 400 "Invalid or expired token"))
            /\ users db2 = users db
            /\ fresh db2 tok).
Proof.
  intros Hu Hf Huser.
  set (row := mkToken (next_id (map token_id (password_reset_tokens db)))
                      (user_id user) tok (now + 3600)).
  set (db1 := {| users := users db; todos := todos db;
                 password_reset_tokens :=
                   (password_reset_tokens db ++ [row])%list |}).
  exists db1. split; [now apply forgot_password_registered|].
  assert (Hu1 : tokens_unique db1) by (now apply tokens_unique_snoc).
  assert (Hin1 : In row (password_reset_tokens db1))
    by (simpl; apply in_or_app; right; now left).
  pose proof (find_token db1 row Hu1 Hin1) as Hfind. simpl token in Hfind.
  split.
  - intros new_password later Hlater.
    apply find_some in Huser. destruct Huser as [Hmem _].
    destruct (find_by_id_exists (users db) user Hmem) as (first & Hfirst & Hid).
    exists (auth.delete_token (auth.set_password db1 first (hash new_password)) row).
    split.
    { unfold auth.reset_password_confirm. rewrite Hfind.
      assert (E : (expires_at row <? later) = false)
        by (apply Z.ltb_ge; simpl; lia).
      rewrite E. simpl token_user_id. simpl users at 1. now rewrite Hfirst. }
    split.
    { rewrite <- Hid in Hfirst |- *.
      destruct (find_set_password db1 first (hash new_password) Hfirst)
        as (user' & Hf' & Hh & _).
      exists user'. split; [exact Hf' | exact Hh]. }
    apply (delete_token_fresh
             (auth.set_password db1 first (hash new_password)) row Hu1 Hin1).
  - intros new_password later Hlater.
    exists (auth.delete_token db1 row). split.
    { unfold auth.reset_password_confirm. rewrite Hfind.
      assert (E : (expires_at row <? later) = true)
        by (apply Z.ltb_lt; simpl; lia).
      now rewrite E. }
    split; [reflexivity|].
    apply (delete_token_fresh db1 row Hu1 Hin1).
Qed.

Lemma forgot_then_confirm_witness :
  tokens_unique Sample.pending
  /\ fresh Sample.pending "t0ken"
  /\ find (fun u => String.eqb (email u) "alice@x.com") (users Sample.pending)
     = Some Sample.alice
  /\ exists db1,
      auth.forgot_password Sample.send Sample.pending "alice@x.com" "t0ken" 1000
      = Ok (db1, auth.mkResponse 200 auth.registered_message)
      /\ (exists db2,
            auth.reset_password_confirm Sample.hash db1 "t0ken" "new pw" 4600
            = (db2, Ok tt)
            /\ fresh db2 "t0ken")
      /\ (exists db2,
            auth.reset_password_confirm Sample.hash db1 "t0ken" "new pw" 4601
            = (db2, Raise (HTTPException 400 "Invalid or expired token"))
            /\ users db2 = users Sample.pending).
Proof.
  assert (H1 : tokens_unique Sample.pending).
  { unfold tokens_unique. simpl. repeat constructor; simpl; intuition discriminate. }
  assert (H2 : fresh Sample.pending "t0ken").
  { intros r [<-|[<-|[]]]; discriminate. }
  assert (H3 : find (fun u => String.eqb (email u) "alice@x.com")
                    (users Sample.pending) = Some Sample.alice) by reflexivity.
  repeat (split; [assumption|]).
  destruct (forgot_then_confirm Sample.hash Sample.send Sample.pending
              "alice@x.com" "t0ken" 1000 Sample.alice H1 H2 H3)
    as (db1 & Hrun & Hok & Hlate).
  exists db1. split; [exact Hrun|]. split.
  - destruct (Hok "new pw" 4600) as (db2 & Hc & _ & Hfr); [lia|]. eauto.
  - destruct (Hlate "new pw" 4601) as (db2 & Hc & Husers & _); [lia|]. eauto.
Defined.

(** X21. [forgot_password] leaves users and tasks alone and keeps the
    token strings pairwise different.  For a registered address it adds
    one row: the given token, for the first user with that address,
    expiring 3600 seconds from now.  For an address nobody registered
    the store is as it was. *)
Theorem forgot_password_stores_one_token send db request_email tok now db' resp :
  tokens_unique db ->
  fresh db tok ->
  auth.forgot_password send db request_email tok now = Ok (db', resp) ->
  users db' = users db
  /\ todos db' = todos db
  /\ tokens_unique db'
  /\ (forall user,
        find (fun u => String.eqb (email u) request_email) (users db)
        = Some user ->
        exists key,
          password_reset_tokens db'
          = (password_reset_tokens db
             ++ [mkToken key (user_id user) tok (now + 3600)])%list
          /\ forall r, In r (password_reset_tokens db) -> token_id r < key)
  /\ (find (fun u => String.eqb (email u) request_email) (users db) = None ->
      db' = db).
Proof.
  intros Hu Hf Hrun.
  destruct (find (fun u => String.eqb (email u) request_email) (users db))
    as [user|] eqn:E.
  - rewrite (forgot_password_registered send db request_email tok now user E Hf)
      in Hrun.
    injection Hrun as <- _. split; [reflexivity|]. split; [reflexivity|].
    split; [now apply tokens_unique_snoc|]. split; [|discriminate].
    intros user' [= <-]. eexists. split; [reflexivity|].
    intros r Hr. apply next_id_above. now apply in_map.
  - unfold auth.forgot_password in Hrun. rewrite E in Hrun.
    injection Hrun as <- _. repeat split; try assumption; discriminate.
Qed.

Lemma forgot_password_stores_one_token_witness :
  tokens_unique Sample.pending
  /\ fresh Sample.pending "t0ken"
  /\ auth.forgot_password Sample.send_down Sample.pending "alice@x.com" "t0ken" 1000
     = Ok (mkDb [Sample.alice] []
             [mkToken 1 1 "stale" 500; mkToken 2 1 "s3cret" 4600;
              mkToken 3 1 "t0ken" 4600],
           auth.mkResponse 200 auth.registered_message)
  /\ tokens_unique
       (mkDb [Sample.alice] []
          [mkToken 1 1 "stale" 500; mkToken 2 1 "s3cret" 4600;
           mkToken 3 1 "t0ken" 4600]).
Proof.
  assert (H1 : tokens_unique Sample.pending).
  { unfold tokens_unique. simpl. repeat constructor; simpl; intuition discriminate. }
  assert (H2 : fresh Sample.pending "t0ken").
  { intros r [<-|[<-|[]]]; discriminate. }
  assert (H3 : auth.forgot_password Sample.send_down Sample.pending
                 "alice@x.com" "t0ken" 1000
     = Ok (mkDb [Sample.alice] []
             [mkToken 1 1 "stale" 500; mkToken 2 1 "s3cret" 4600;
              mkToken 3 1 "t0ken" 4600],
           auth.mkResponse 200 auth.registered_message)) by reflexivity.
  repeat (split; [assumption|]).
  exact (proj1 (proj2 (proj2 (forgot_password_stores_one_token _ _ _ _ _ _ _
                                H1 H2 H3)))).
Defined.

(** X22. A confirmation that cannot go through changes nothing: a token
    that is not stored is turned down as invalid or expired, and a
    stored, unexpired token whose user no longer exists is answered 400
    "User not found" and stays in the store, so that a retry gets the
    same answer. *)
Theorem confirm_without_effect hash db tok new_password now :
  (fresh db tok ->
   auth.reset_password_confirm hash db tok new_password now
   = (db, Raise (HTTPException 400 "Invalid or expired token")))
  /\ (forall r,
        find (fun x => String.eqb (token x) tok) (password_reset_tokens db)
        = Some r ->
        now <= expires_at r ->
        (forall u, In u (users db) -> user_id u <> token_user_id r) ->
        auth.reset_password_confirm hash db tok new_password now
        = (db, Raise (HTTPException 400 "User not found"))).
Proof.
  split.
  - intros Hf. unfold auth.reset_password_confirm. now rewrite fresh_find.
  - intros r Hr Hlive Hnone. unfold auth.reset_password_confirm. rewrite Hr.
    assert (E : (expires_at r <? now) = false) by (apply Z.ltb_ge; lia).
    rewrite E.
    assert (N : find (fun u => user_id u =? token_user_id r) (users db) = None).
    { apply find_none_iff. intros u Hu. apply Z.eqb_neq. now apply Hnone. }
    now rewrite N.
Qed.

Lemma confirm_without_effect_witness :
  find (fun x => String.eqb (token x) "ghost")
       (password_reset_tokens Sample.orphaned)
  = Some (mkToken 1 7 "ghost" 5000)
  /\ 1200 <= 5000
  /\ (forall u, In u (users Sample.orphaned) -> user_id u <> 7)
  /\ fresh Sample.orphaned "other"
  /\ auth.reset_password_confirm Sample.hash Sample.orphaned "ghost" "new pw" 1200
     = (Sample.orphaned, Raise (HTTPException 400 "User not found"))
  /\ auth.reset_password_confirm Sample.hash Sample.orphaned "other" "new pw" 1200
     = (Sample.orphaned, Raise (HTTPException 400 "Invalid or expired token")).
Proof.
  assert (H1 : find (fun x => String.eqb (token x) "ghost")
                    (password_reset_tokens Sample.orphaned)
               = Some (mkToken 1 7 "ghost" 5000)) by reflexivity.
  assert (H2 : 1200 <= 5000) by lia.
  assert (H3 : forall u, In u (users Sample.orphaned) -> user_id u <> 7).
  { intros u [<-|[]]. discriminate. }
  assert (H4 : fresh Sample.orphaned "other").
  { intros r [<-|[]]. discriminate. }
  repeat (split; [assumption|]).
  split.
  - exact (proj2 (confirm_without_effect Sample.hash Sample.orphaned "ghost"
                    "new pw" 1200) _ H1 H2 H3).
  - exact (proj1 (confirm_without_effect Sample.hash Sample.orphaned "other"
                    "new pw" 1200) H4).
Defined.

Module FrameFacts.
Import auth.

Lemma set_password_frame db user hashed :
  map user_id (users (set_password db user hashed)) = map user_id (users db)
  /\ map username (users (set_password db user hashed)) = map username (users db)
  /\ map email (users (set_password db user hashed)) = map email (users db)
  /\ forall u, In u (users db) -> user_id u <> user_id user ->
               In u (users (set_password db user hashed)).
Proof.
  simpl. rewrite !map_map. repeat split.
  - apply map_ext. intros u. now destruct (user_id u =? user_id user).
  - apply map_ext. intros u. now destruct (user_id u =? user_id user).
  - apply map_ext. intros u. now destruct (user_id u =? user_id user).
  - intros u Hin Hne. apply in_map_iff. exists u. split; [|exact Hin].
    apply Z.eqb_neq in Hne. now rewrite Hne.
Qed.

End FrameFacts.

Import FrameFacts.

(** X23. Whatever its outcome, [reset_password_confirm] touches no task,
    adds no token, and changes no key, username or address of a user;
    the only users whose row may change are those the stored token
    points to. *)
Theorem confirm_frame hash db tok new_password now :
  todos (fst (auth.reset_password_confirm hash db tok new_password now))
  = todos db
  /\ map user_id
       (users (fst (auth.reset_password_confirm hash db tok new_password now)))
     = map user_id (users db)
  /\ map username
       (users (fst (auth.reset_password_confirm hash db tok new_password now)))
     = map username (users db)
  /\ map email
       (users (fst (auth.reset_password_confirm hash db tok new_password now)))
     = map email (users db)
  /\ incl (password_reset_tokens
             (fst (auth.reset_password_confirm hash db tok new_password now)))
          (password_reset_tokens db)
  /\ forall u,
       In u (users db) ->
       (forall r, In r (password_reset_tokens db) -> token r = tok ->
                  token_user_id r <> user_id u) ->
       In u (users (fst (auth.reset_password_confirm hash db tok new_password now))).
Proof.
  unfold auth.reset_password_confirm.
  destruct (find _ (password_reset_tokens db)) as [r|] eqn:Er.
  2:{ simpl. repeat split; auto. apply incl_refl. }
  apply find_some in Er. destruct Er as [Hr Et]. apply String.eqb_eq in Et.
  assert (Hincl : forall d, password_reset_tokens d = password_reset_tokens db ->
            incl (password_reset_tokens (auth.delete_token d r))
                 (password_reset_tokens db)).
  { intros d Ed x Hx. simpl in Hx. apply filter_In in Hx. rewrite <- Ed. tauto. }
  destruct (expires_at r <? now).
  { simpl fst. repeat split; auto. }
  destruct (find _ (users db)) as [user|] eqn:Eu.
  2:{ simpl. repeat split; auto. apply incl_refl. }
  apply find_some in Eu. destruct Eu as [_ Eid]. apply Z.eqb_eq in Eid.
  destruct (set_password_frame db user (hash new_password))
    as (Hi & Hn & He & Hother).
  simpl fst. split; [reflexivity|]. split; [exact Hi|]. split; [exact Hn|].
  split; [exact He|]. split; [now apply Hincl|].
  intros u Hu Hfar. apply Hother; [exact Hu|].
  intros E. apply (Hfar r Hr Et). congruence.
Qed.

Lemma confirm_frame_witness :
  In Sample.bob (users Sample.town)
  /\ (forall r, In r (password_reset_tokens Sample.town) -> token r = "bobs" ->
                token_user_id r <> 1)
  /\ In (mkUser 1 "alice" "alice@x.com" (Sample.hash "pw"))
        (users (fst (auth.reset_password_confirm Sample.hash Sample.town "bobs"
                       "new pw" 100)))
  /\ todos (fst (auth.reset_password_confirm Sample.hash Sample.town "bobs"
                   "new pw" 100))
     = todos Sample.town.
Proof.
  assert (H1 : In Sample.bob (users Sample.town)) by (right; left; reflexivity).
  assert (H2 : forall r, In r (password_reset_tokens Sample.town) ->
                 token r = "bobs" ->
                 token_user_id r
                 <> user_id (mkUser 1 "alice" "alice@x.com" (Sample.hash "pw"))).
  { intros r [<-|[]] _. discriminate. }
  assert (H3 : In (mkUser 1 "alice" "alice@x.com" (Sample.hash "pw"))
                  (users Sample.town)) by (left; reflexivity).
  split; [exact H1|]. split; [exact H2|].
  destruct (confirm_frame Sample.hash Sample.town "bobs" "new pw" 100)
    as (Ht & _ & _ & _ & _ & Hkeep).
  split; [exact (Hkeep _ H3 H2) | exact Ht].
Defined.

(* ================================================================= *)
(** * Further properties of the accounts *)

Module AccountFacts.
Import auth.

Lemma add_user_new db row :
  (forall u, In u (users db) ->
             username u <> username row /\ email u <> email row) ->
  add_user db row
  = Ok {| users := (users db ++ [row])%list; todos := todos db;
          password_reset_tokens := password_reset_tokens db |}.
Proof.
  intros H. unfold add_user.
  destruct (existsb _ _) eqn:E; [|reflexivity].
  apply existsb_exists in E. destruct E as (u & Hu & Eu).
  destruct (H u Hu) as [Hn He].
  apply orb_true_iff in Eu. destruct Eu as [Eu|Eu];
    apply String.eqb_eq in Eu; congruence.
Qed.

Lemma add_user_clash db row u :
  In u (users db) -> username u = username row \/ email u = email row ->
  exists msg, add_user db row = Raise (IntegrityError msg).
Proof.
  intros Hu Hc. unfold add_user.
  assert (E : existsb (fun u => String.eqb (username u) (username row)
                                || String.eqb (email u) (email row))
                      (users db) = true).
  { apply existsb_exists. exists u. split; [exact Hu|].
    apply orb_true_iff. destruct Hc as [->| ->];
      [left | right]; apply String.eqb_refl. }
  rewrite E. eauto.
Qed.

Lemma find_email_none db e :
  (forall u, In u (users db) -> email u <> e) ->
  find (fun u => String.eqb (email u) e) (users db) = None.
Proof.
  intros H. apply find_none_iff. intros u Hu. apply String.eqb_neq. now apply H.
Qed.

Lemma find_unique {A} (key : A -> string) (l : list A) x :
  NoDup (map key l) -> In x l ->
  find (fun y => String.eqb (key y) (key x)) l = Some x.
Proof.
  induction l as [|a l IH]; intros Hnd Hin; [destruct Hin|].
  simpl in Hnd. inversion Hnd as [|? ? Hnotin Hnd']; subst. simpl.
  destruct Hin as [->|Hin]; [now rewrite String.eqb_refl|].
  destruct (String.eqb (key a) (key x)) eqn:E; [|now apply IH].
  apply String.eqb_eq in E. exfalso. apply Hnotin. rewrite E.
  now apply in_map.
Qed.

Lemma find_key_none {A} (key : A -> string) (l : list A) k :
  (forall y, In y l -> key y <> k) ->
  find (fun y => String.eqb (key y) k) l = None.
Proof.
  intros H. apply find_none_iff. intros y Hy. apply String.eqb_neq. now apply H.
Qed.

(** The lookup of a login name, by what the store holds. *)
Lemma first_by_name_none db name :
  (forall u, In u (users db) -> username u <> name /\ email u <> name) ->
  auth.first_by_name db name = None.
Proof.
  intros H. unfold auth.first_by_name.
  rewrite (find_key_none username) by (intros u Hu; now destruct (H u Hu)).
  apply (find_key_none email). intros u Hu. now destruct (H u Hu).
Qed.

Lemma first_by_username db user :
  NoDup (map username (users db)) -> In user (users db) ->
  auth.first_by_name db (username user) = Some user.
Proof.
  intros Hnd Hin. unfold auth.first_by_name.
  now rewrite (find_unique username (users db) user Hnd Hin).
Qed.

Lemma first_by_email db user :
  (forall u, In u (users db) -> username u <> email user) ->
  NoDup (map email (users db)) -> In user (users db) ->
  auth.first_by_name db (email user) = Some user.
Proof.
  intros Hno Hnd Hin. unfold auth.first_by_name.
  rewrite (find_key_none username) by exact Hno.
  exact (find_unique email (users db) user Hnd Hin).
Qed.

(** The lookup after a signup, for a name no older user answers to. *)
Lemma first_by_name_last db row name :
  (forall u, In u (users db) -> username u <> name /\ email u <> name) ->
  username row = name \/ email row = name ->
  auth.first_by_name
    {| users := (users db ++ [row])%list; todos := todos db;
       password_reset_tokens := password_reset_tokens db |} name
  = Some row.
Proof.
  intros Hl Hrow. unfold auth.first_by_name. simpl users.
  destruct (String.eqb (username row) name) eqn:E.
  - rewrite find_app_last; [reflexivity| |exact E].
    intros u Hu. apply String.eqb_neq. now destruct (Hl u Hu).
  - assert (N : find (fun u => String.eqb (username u) name)
                     (users db ++ [row])%list = None).
    { apply find_none_iff. intros u Hu. apply in_app_or in Hu.
      destruct Hu as [Hu|[<-|[]]]; [|exact E].
      apply String.eqb_neq. now destruct (Hl u Hu). }
    rewrite N. apply find_app_last.
    + intros u Hu. apply String.eqb_neq. now destruct (Hl u Hu).
    + destruct Hrow as [Hn|He]; [|rewrite He; apply String.eqb_refl].
      rewrite Hn, String.eqb_refl in E. discriminate.
Qed.

End AccountFacts.

Import AccountFacts.

(** X24. Signup turns a taken address or username down and stores
    nothing: an address some user has is answered 400 "Email already
    registered"; a new address with a username some user has is
    answered 400 "Username or email already registered". *)
Theorem signup_rejects_duplicates hash sign db user :
  (forall u, In u (users db) -> email u = auth.uc_email user ->
             auth.create_user hash sign db user
             = Raise (HTTPException 400 "Email already registered"))
  /\ (forall u, In u (users db) -> username u = auth.uc_username user ->
                (forall v, In v (users db) -> email v <> auth.uc_email user) ->
                auth.create_user hash sign db user
                = Raise (HTTPException 400
                           "Username or email already registered")).
Proof.
  split.
  - intros u Hu He. unfold auth.create_user.
    destruct (find _ (users db)) eqn:E; [reflexivity|].
    pose proof (find_none _ _ E u Hu) as N. simpl in N.
    now rewrite He, String.eqb_refl in N.
  - intros u Hu Hn Hfree. unfold auth.create_user.
    rewrite (find_email_none db _ Hfree).
    destruct (add_user_clash db
                (mkUser (next_id (map user_id (users db)))
                        (auth.uc_username user) (auth.uc_email user)
                        (hash (auth.uc_password user))) u Hu (or_introl Hn))
      as [msg ->].
    reflexivity.
Qed.

Lemma signup_rejects_duplicates_witness :
  In Sample.bob (users Sample.town)
  /\ auth.create_user Sample.hash Sample.sign Sample.town
       (auth.mkUserCreate "robert" "bob@x.com" "pw")
     = Raise (HTTPException 400 "Email already registered")
  /\ (forall v, In v (users Sample.town) -> email v <> "bob@y.com")
  /\ auth.create_user Sample.hash Sample.sign Sample.town
       (auth.mkUserCreate "bob" "bob@y.com" "pw")
     = Raise (HTTPException 400 "Username or email already registered").
Proof.
  assert (H1 : In Sample.bob (users Sample.town)) by (right; left; reflexivity).
  assert (H2 : forall v, In v (users Sample.town) -> email v <> "bob@y.com").
  { intros v [<-|[<-|[]]]; discriminate. }
  split; [exact H1|]. split.
  - exact (proj1 (signup_rejects_duplicates Sample.hash Sample.sign Sample.town
                    (auth.mkUserCreate "robert" "bob@x.com" "pw"))
             Sample.bob H1 eq_refl).
  - split; [exact H2|].
    exact (proj2 (signup_rejects_duplicates Sample.hash Sample.sign Sample.town
                    (auth.mkUserCreate "bob" "bob@y.com" "pw"))
             Sample.bob H1 eq_refl H2).
Defined.

(** X25. A signup with a username and an address nobody has stores one
    new user at the end of the table, with the digest of the password
    (not the password), a key above every key in use, and tasks and
    tokens untouched; usernames and addresses stay pairwise different;
    the answer carries the new user's key, name and address and a
    bearer token signed for the username for 30 minutes. *)
Theorem signup_stores_user hash sign db user :
  (forall u, In u (users db) ->
             username u <> auth.uc_username user
             /\ email u <> auth.uc_email user) ->
  exists key resp,
    auth.create_user hash sign db user
    = Ok ({| users := (users db
                       ++ [mkUser key (auth.uc_username user)
                                  (auth.uc_email user)
                                  (hash (auth.uc_password user))])%list;
             todos := todos db;
             password_reset_tokens := password_reset_tokens db |},
          resp)
    /\ (forall u, In u (users db) -> user_id u < key)
    /\ (users_unique db ->
        users_unique
          {| users := (users db
                       ++ [mkUser key (auth.uc_username user)
                                  (auth.uc_email user)
                                  (hash (auth.uc_password user))])%list;
             todos := todos db;
             password_reset_tokens := password_reset_tokens db |})
    /\ auth.uw_id resp = key
    /\ auth.uw_username resp = auth.uc_username user
    /\ auth.uw_email resp = auth.uc_email user
    /\ auth.uw_access_token resp = sign (auth.uc_username user) 30
    /\ auth.uw_token_type resp = "bearer".
Proof.
  intros Hnew. unfold auth.create_user.
  rewrite (find_email_none db (auth.uc_email user))
    by (intros u Hu; now destruct (Hnew u Hu)).
  rewrite add_user_new by exact Hnew.
  eexists. eexists. split; [reflexivity|]. split.
  { intros u Hu. apply next_id_above. now apply in_map. }
  split.
  { intros [Hn He]. unfold users_unique. simpl. rewrite !map_app. simpl.
    split; apply NoDup_snoc; try assumption; intros Hin;
      apply in_map_iff in Hin; destruct Hin as (u & E & Hu);
      destruct (Hnew u Hu); congruence. }
  repeat split.
Qed.

Lemma signup_stores_user_witness :
  (forall u, In u (users Sample.town) ->
             username u <> "carol" /\ email u <> "carol@x.com")
  /\ exists resp,
      auth.create_user Sample.hash Sample.sign Sample.town Sample.carol
      = Ok (mkDb [mkUser 1 "alice" "alice@x.com" (Sample.hash "pw"); Sample.bob;
                  mkUser 3 "carol" "carol@x.com" (Sample.hash "s3same")]
                 (todos Sample.town) (password_reset_tokens Sample.town),
            resp)
      /\ auth.uw_id resp = 3
      /\ auth.uw_access_token resp = Sample.sign "carol" 30.
Proof.
  assert (H : forall u, In u (users Sample.town) ->
                username u <> auth.uc_username Sample.carol
                /\ email u <> auth.uc_email Sample.carol).
  { intros u [<-|[<-|[]]]; split; discriminate. }
  split; [exact H|].
  destruct (signup_stores_user Sample.hash Sample.sign Sample.town Sample.carol H)
    as (key & resp & Hrun & _ & _ & Hid & _ & _ & Htok & _).
  exists resp.
  assert (Hkey : key = 3).
  { vm_compute in Hrun. now injection Hrun as Hrun _. }
  rewrite Hkey in Hrun, Hid.
  split; [exact Hrun|]. split; [exact Hid | exact Htok].
Defined.



(** X27. What a login answers.  A name that is neither a username nor
    an address in the store is answered 404, with the message for
    addresses when the name contains "@" and the one for usernames
    otherwise.  Else one user decides: the user whose username the name
    is, or, when the name is nobody's username, the user whose address
    it is (usernames and addresses being unique); a password the check
    turns down is answered 401, an accepted one gets the bearer token
    signed for that user's username, also when the name given was the
    address. *)
Theorem login_outcomes verify sign db name password :
  ((forall u, In u (users db) -> username u <> name /\ email u <> name) ->
   auth.login_for_access_token verify sign db name password
   = Raise (HTTPException 404
              (if auth.has_at name
               then "Account with that email does not exist"
               else "Account with that username does not exist")))
  /\ (forall user,
        In user (users db) ->
        (username user = name /\ NoDup (map username (users db)))
        \/ (email user = name /\ NoDup (map email (users db))
            /\ forall u, In u (users db) -> username u <> name) ->
        (verify password (hashed_password user) = false ->
         auth.login_for_access_token verify sign db name password
         = Raise (HTTPException 401 "Incorrect username or password"))
        /\ (verify password (hashed_password user) = true ->
            auth.login_for_access_token verify sign db name password
            = Ok (auth.mkAccessToken (sign (username user) 30) "bearer"))).
Proof.
  unfold auth.login_for_access_token. split.
  - intros Hnone. rewrite (first_by_name_none db name Hnone).
    now destruct (auth.has_at name).
  - intros user Hin Hcase.
    assert (E : auth.first_by_name db name = Some user).
    { destruct Hcase as [[<- Hnd]|(<- & Hnd & Hno)].
      - now apply first_by_username.
      - now apply first_by_email. }
    rewrite E. split; intros Hv; now rewrite Hv.
Qed.

Lemma login_outcomes_witness :
  (forall u, In u (users Sample.town) ->
             username u <> "dave@x.com" /\ email u <> "dave@x.com")
  /\ auth.login_for_access_token Sample.verify Sample.sign Sample.town
       "dave@x.com" "pw"
     = Raise (HTTPException 404 "Account with that email does not exist")
  /\ In Sample.bob (users Sample.town)
  /\ email Sample.bob = "bob@x.com"
  /\ NoDup (map email (users Sample.town))
  /\ (forall u, In u (users Sample.town) -> username u <> "bob@x.com")
  /\ Sample.verify "hunter2" (hashed_password Sample.bob) = true
  /\ auth.login_for_access_token Sample.verify Sample.sign Sample.town
       "bob@x.com" "hunter2"
     = Ok (auth.mkAccessToken (Sample.sign "bob" 30) "bearer")
  /\ Sample.verify "hunter3" (hashed_password Sample.bob) = false
  /\ auth.login_for_access_token Sample.verify Sample.sign Sample.town
       "bob@x.com" "hunter3"
     = Raise (HTTPException 401 "Incorrect username or password").
Proof.
  assert (H1 : forall u, In u (users Sample.town) ->
                 username u <> "dave@x.com" /\ email u <> "dave@x.com").
  { intros u [<-|[<-|[]]]; split; discriminate. }
  assert (H2 : In Sample.bob (users Sample.town)) by (right; left; reflexivity).
  assert (H2e : email Sample.bob = "bob@x.com") by reflexivity.
  assert (H2n : NoDup (map email (users Sample.town))).
  { simpl. repeat constructor; simpl; intuition discriminate. }
  assert (H2u : forall u, In u (users Sample.town) -> username u <> "bob@x.com").
  { intros u [<-|[<-|[]]]; discriminate. }
  assert (H3 : Sample.verify "hunter2" (hashed_password Sample.bob) = true)
    by reflexivity.
  assert (H4 : Sample.verify "hunter3" (hashed_password Sample.bob) = false)
    by reflexivity.
  split; [exact H1|]. split.
  { exact (proj1 (login_outcomes Sample.verify Sample.sign Sample.town
                    "dave@x.com" "pw") H1). }
  split; [exact H2|]. split; [exact H2e|]. split; [exact H2n|].
  split; [exact H2u|]. split; [exact H3|]. split.
  { exact (proj2 (proj2 (login_outcomes Sample.verify Sample.sign Sample.town
                           "bob@x.com" "hunter2") Sample.bob H2
                   (or_intror (conj H2e (conj H2n H2u)))) H3). }
  split; [exact H4|].
  exact (proj1 (proj2 (login_outcomes Sample.verify Sample.sign Sample.town
                         "bob@x.com" "hunter3") Sample.bob H2
                 (or_intror (conj H2e (conj H2n H2u)))) H4).
Defined.

Module RenameFacts.
Import auth.

Lemma find_map_stable {A} (p : A -> bool) (f : A -> A) (l : list A) :
  (forall x, p (f x) = p x) -> find p (map f l) = option_map f (find p l).
Proof.
  intros H. induction l as [|x l IH]; simpl; [reflexivity|].
  rewrite H. now destruct (p x).
Qed.

Lemma renamed_usernames (l : list User) key name x :
  In x (map username
          (map (fun u => if user_id u =? key
                         then mkUser (user_id u) name (email u) (hashed_password u)
                         else u) l)) ->
  x = name \/ In x (map username l).
Proof.
  induction l as [|u l IH]; simpl; [tauto|].
  intros [E|Hin].
  - destruct (user_id u =? key); simpl in E; auto.
  - destruct (IH Hin); auto.
Qed.

Lemma rename_absent (l : list User) key name :
  (forall u, In u l -> user_id u <> key) ->
  map (fun u => if user_id u =? key
                then mkUser (user_id u) name (email u) (hashed_password u)
                else u) l = l.
Proof.
  intros H. induction l as [|u l IH]; simpl; [reflexivity|].
  rewrite IH by (intros v Hv; apply H; now right).
  assert (E : (user_id u =? key) = false)
    by (apply Z.eqb_neq, H; now left).
  now rewrite E.
Qed.

Lemma rename_keeps_unique (l : list User) key name :
  NoDup (map user_id l) -> NoDup (map username l) ->
  ~ In name (map username l) ->
  NoDup (map username
           (map (fun u => if user_id u =? key
                          then mkUser (user_id u) name (email u)
                                      (hashed_password u)
                          else u) l)).
Proof.
  induction l as [|u l IH]; simpl; intros Hid Hn Hfree; [constructor|].
  inversion Hid as [|? ? Hidu Hid']; subst.
  inversion Hn as [|? ? Hnu Hn']; subst.
  destruct (user_id u =? key) eqn:E.
  - apply Z.eqb_eq in E. rewrite rename_absent.
    + simpl. constructor; [|exact Hn']. intros H. apply Hfree. now right.
    + intros v Hv Ev. apply Hidu. rewrite E, <- Ev. now apply in_map.
  - constructor.
    + intros H. apply renamed_usernames in H. destruct H as [H|H].
      * apply Hfree. now left.
      * contradiction.
    + apply IH; auto.
Qed.

End RenameFacts.

Import RenameFacts.

(** X28. Renaming oneself.  A body without a username, or with the
    current one, changes nothing.  A username some user has is answered
    400 "Username already taken".  A free one is written on the
    caller's row and on no other column: with keys and usernames
    pairwise different before, usernames are pairwise different after;
    the answer carries the new name and a bearer token signed for
    it. *)
Theorem rename_outcomes sign db new_username current_user :
  (new_username = None \/ new_username = Some (username current_user) ->
   auth.update_user_me sign db new_username current_user
   = Ok (db, auth.with_token sign db current_user))
  /\ (forall name,
        new_username = Some name ->
        name <> username current_user ->
        (forall u, In u (users db) -> username u = name ->
                   auth.update_user_me sign db new_username current_user
                   = Raise (HTTPException 400 "Username already taken"))
        /\ ((forall u, In u (users db) -> username u <> name) ->
            exists resp,
              auth.update_user_me sign db new_username current_user
              = Ok (auth.set_username db current_user name, resp)
              /\ auth.uw_username resp = name
              /\ auth.uw_id resp = user_id current_user
              /\ auth.uw_access_token resp = sign name 30
              /\ map email (users (auth.set_username db current_user name))
                 = map email (users db)
              /\ map hashed_password
                   (users (auth.set_username db current_user name))
                 = map hashed_password (users db)
              /\ todos (auth.set_username db current_user name) = todos db
              /\ (NoDup (map user_id (users db)) ->
                  NoDup (map username (users db)) ->
                  NoDup (map username
                           (users (auth.set_username db current_user name)))))).
Proof.
  split.
  - intros [->| ->]; unfold auth.update_user_me; [reflexivity|].
    now rewrite String.eqb_refl.
  - intros name -> Hne. unfold auth.update_user_me.
    rewrite (proj2 (String.eqb_neq name (username current_user)) Hne).
    cbn [negb]. split.
    + intros u Hu En. destruct (find _ (users db)) eqn:E; [reflexivity|].
      pose proof (find_none _ _ E u Hu) as N. simpl in N.
      now rewrite En, String.eqb_refl in N.
    + intros Hfree.
      assert (E : find (fun u => String.eqb (username u) name) (users db) = None).
      { apply find_none_iff. intros u Hu. apply String.eqb_neq. now apply Hfree. }
      rewrite E. eexists. split; [reflexivity|].
      repeat (split; [reflexivity|]). simpl users. split.
      { rewrite map_map. apply map_ext. intros u.
        now destruct (user_id u =? user_id current_user). }
      split.
      { rewrite map_map. apply map_ext. intros u.
        now destruct (user_id u =? user_id current_user). }
      split; [reflexivity|].
      intros Hid Hn. apply rename_keeps_unique; try assumption.
      intros Hin. apply in_map_iff in Hin. destruct Hin as (u & En & Hu).
      exact (Hfree u Hu En).
Qed.

Lemma rename_outcomes_witness :
  "bob" <> username Sample.alice
  /\ In Sample.bob (users Sample.town)
  /\ auth.update_user_me Sample.sign Sample.town (Some "bob") Sample.alice
     = Raise (HTTPException 400 "Username already taken")
  /\ "alicia" <> username Sample.alice
  /\ (forall u, In u (users Sample.town) -> username u <> "alicia")
  /\ exists resp,
      auth.update_user_me Sample.sign Sample.town (Some "alicia") Sample.alice
      = Ok (auth.set_username Sample.town Sample.alice "alicia", resp)
      /\ auth.uw_access_token resp = Sample.sign "alicia" 30.
Proof.
  assert (H1 : "bob" <> username Sample.alice) by discriminate.
  assert (H2 : In Sample.bob (users Sample.town)) by (right; left; reflexivity).
  assert (H3 : "alicia" <> username Sample.alice) by discriminate.
  assert (H4 : forall u, In u (users Sample.town) -> username u <> "alicia").
  { intros u [<-|[<-|[]]]; discriminate. }
  split; [exact H1|]. split; [exact H2|]. split.
  { exact (proj1 (proj2 (rename_outcomes Sample.sign Sample.town (Some "bob")
                           Sample.alice) "bob" eq_refl H1)
             Sample.bob H2 eq_refl). }
  split; [exact H3|]. split; [exact H4|].
  destruct (proj2 (proj2 (rename_outcomes Sample.sign Sample.town (Some "alicia")
                            Sample.alice) "alicia" eq_refl H3) H4)
    as (resp & Hrun & _ & _ & Htok & _).
  exists resp. split; [exact Hrun | exact Htok].
Defined.

(** X29. Changing one's password.  A current password the check turns
    down is answered 400 "Incorrect current password".  An accepted one
    stores the digest of the new password and nothing else: from then
    on a login under the user's username (usernames being unique)
    succeeds with the new password and is answered 401 with any
    password the check turns down against the new digest. *)
Theorem change_password_then_login hash verify sign db current new_password
    current_user :
  (verify current (hashed_password current_user) = false ->
   auth.reset_password hash verify db current new_password current_user
   = Raise (HTTPException 400 "Incorrect current password"))
  /\ (verify current (hashed_password current_user) = true ->
      In current_user (users db) ->
      NoDup (map username (users db)) ->
      verify new_password (hash new_password) = true ->
      exists db',
        auth.reset_password hash verify db current new_password current_user
        = Ok db'
        /\ todos db' = todos db
        /\ password_reset_tokens db' = password_reset_tokens db
        /\ map username (users db') = map username (users db)
        /\ auth.login_for_access_token verify sign db'
             (username current_user) new_password
           = Ok (auth.mkAccessToken (sign (username current_user) 30) "bearer")
        /\ forall other,
             verify other (hash new_password) = false ->
             auth.login_for_access_token verify sign db'
               (username current_user) other
             = Raise (HTTPException 401 "Incorrect username or password")).
Proof.
  unfold auth.reset_password. split; intros Hv; rewrite Hv; [reflexivity|].
  intros Hin Hnd Hnew. cbn [negb]. eexists. split; [reflexivity|].
  split; [reflexivity|]. split; [reflexivity|].
  destruct (set_password_frame db current_user (hash new_password))
    as (_ & Hn & _ & _).
  split; [exact Hn|].
  assert (E : auth.first_by_name
                (auth.set_password db current_user (hash new_password))
                (username current_user)
              = Some (mkUser (user_id current_user) (username current_user)
                             (email current_user) (hash new_password))).
  { unfold auth.first_by_name. simpl users. rewrite find_map_stable.
    - rewrite (find_unique username (users db) current_user Hnd Hin).
      simpl. now rewrite Z.eqb_refl.
    - intros u. now destruct (user_id u =? user_id current_user). }
  unfold auth.login_for_access_token.
  rewrite E. simpl hashed_password. simpl username. rewrite Hnew.
  split; [reflexivity|]. intros other Ho. now rewrite Ho.
Qed.

Lemma change_password_then_login_witness :
  Sample.verify "hunter2" (hashed_password Sample.bob) = true
  /\ In Sample.bob (users Sample.town)
  /\ NoDup (map username (users Sample.town))
  /\ Sample.verify "correct horse" (Sample.hash "correct horse") = true
  /\ Sample.verify "hunter2" (Sample.hash "correct horse") = false
  /\ exists db',
      auth.reset_password Sample.hash Sample.verify Sample.town "hunter2"
        "correct horse" Sample.bob = Ok db'
      /\ auth.login_for_access_token Sample.verify Sample.sign db' "bob"
           "correct horse"
         = Ok (auth.mkAccessToken (Sample.sign "bob" 30) "bearer")
      /\ auth.login_for_access_token Sample.verify Sample.sign db' "bob" "hunter2"
         = Raise (HTTPException 401 "Incorrect username or password").
Proof.
  assert (H1 : Sample.verify "hunter2" (hashed_password Sample.bob) = true)
    by reflexivity.
  assert (H2 : In Sample.bob (users Sample.town)) by (right; left; reflexivity).
  assert (H2n : NoDup (map username (users Sample.town))).
  { simpl. repeat constructor; simpl; intuition discriminate. }
  assert (H3 : Sample.verify "correct horse" (Sample.hash "correct horse") = true)
    by reflexivity.
  assert (H4 : Sample.verify "hunter2" (Sample.hash "correct horse") = false)
    by reflexivity.
  repeat (split; [assumption|]).
  destruct (proj2 (change_password_then_login Sample.hash Sample.verify
                     Sample.sign Sample.town "hunter2" "correct horse"
                     Sample.bob) H1 H2 H2n H3)
    as (db' & Hrun & _ & _ & _ & Hin & Hout).
  exists db'. split; [exact Hrun|]. split; [exact Hin | exact (Hout _ H4)].
Defined.

(** X30. Deleting one's account.  A password the check turns down is
    answered 401 "Incorrect password".  An accepted one removes the
    user and every task the user owns, keeps every task of the other
    owners and every other user, and leaves the reset tokens as they
    are; afterwards every lookup of a task on behalf of the deleted
    user is answered 404. *)
Theorem delete_account_cascades verify db password current_user :
  (verify password (hashed_password current_user) = false ->
   auth.delete_user_me verify db password current_user
   = Raise (HTTPException 401 "Incorrect password"))
  /\ (verify password (hashed_password current_user) = true ->
      exists db',
        auth.delete_user_me verify db password current_user = Ok db'
        /\ (forall t, In t (todos db') ->
                      owned_by (user_id current_user) t = false)
        /\ (forall t, In t (todos db) ->
                      owned_by (user_id current_user) t = false ->
                      In t (todos db'))
        /\ (forall u, In u (users db') <->
                      In u (users db) /\ user_id u <> user_id current_user)
        /\ password_reset_tokens db' = password_reset_tokens db
        /\ forall i, get_todo db' i (user_id current_user)
                     = Raise (HTTPException 404 "Todo not found")).
Proof.
  unfold auth.delete_user_me. split; intros Hv; rewrite Hv; [reflexivity|].
  cbn [negb]. eexists. split; [reflexivity|]. simpl.
  assert (Hgone : forall t,
            In t (filter (fun t => negb (owned_by (user_id current_user) t))
                         (todos db)) ->
            owned_by (user_id current_user) t = false).
  { intros t Ht. apply filter_In in Ht. destruct Ht as [_ Ht].
    now apply negb_true_iff. }
  split; [exact Hgone|]. split.
  { intros t Ht Ho. apply filter_In. split; [exact Ht|]. now rewrite Ho. }
  split.
  { intros u. rewrite filter_In, negb_true_iff, Z.eqb_neq. tauto. }
  split; [reflexivity|].
  intros i. unfold get_todo. rewrite find_id_none; [reflexivity|].
  simpl. intros t Ht _. now apply Hgone.
Qed.

Lemma delete_account_cascades_witness :
  Sample.verify "hunter2" (hashed_password Sample.bob) = true
  /\ auth.delete_user_me Sample.verify Sample.town "hunter2" Sample.bob
     = Ok (mkDb [mkUser 1 "alice" "alice@x.com" (Sample.hash "pw")]
                [Sample.task 1 "Buy milk"] [mkToken 1 2 "bobs" 900])
  /\ Sample.verify "hunter3" (hashed_password Sample.bob) = false
  /\ auth.delete_user_me Sample.verify Sample.town "hunter3" Sample.bob
     = Raise (HTTPException 401 "Incorrect password").
Proof.
  assert (H1 : Sample.verify "hunter2" (hashed_password Sample.bob) = true)
    by reflexivity.
  assert (H2 : Sample.verify "hunter3" (hashed_password Sample.bob) = false)
    by reflexivity.
  split; [exact H1|]. split.
  { destruct (proj2 (delete_account_cascades Sample.verify Sample.town "hunter2"
                       Sample.bob) H1) as (db' & Hrun & _).
    rewrite Hrun. f_equal. vm_compute in Hrun. now injection Hrun as <-. }
  split; [exact H2|].
  exact (proj1 (delete_account_cascades Sample.verify Sample.town "hunter3"
                  Sample.bob) H2).
Defined.

(* ================================================================= *)
(** * The statements above on Alice's week *)

Lemma priorities_partition_total_witness :
  2 = count (filter (fun t => owned_by 1 t && String.eqb (priority t) "high")
                    (todos Sample.week))
  /\ 1 <= 2
  /\ In (mkPriorityStat "high" 2) (get_tasks_by_priority Sample.week 1)
  /\ 1 <= ps_count (mkPriorityStat "high" 2)
  /\ sum (map ps_count (get_tasks_by_priority Sample.week 1)) = 5.
Proof.
  assert (H1 : 2 = count (filter (fun t => owned_by 1 t
                                           && String.eqb (priority t) "high")
                                 (todos Sample.week))) by reflexivity.
  assert (H2 : 1 <= 2) by lia.
  destruct (priorities_partition_total Sample.week 1 100)
    as (_ & Hiff & Hpos & Hsum).
  pose proof (proj2 (Hiff "high" 2) (conj H1 H2)) as H.
  split; [exact H1|]. split; [exact H2|]. split; [exact H|].
  split; [exact (Hpos _ H) | exact Hsum].
Defined.

Lemma dashboard_deadlines_upcoming_witness :
  In (mkTodo 4 "Milk" None false (Some 200) 0 0 "low" "shopping" (Some 1))
     (deadlines (dashboard.get_dashboard_data Sample.week Sample.alice 100))
  /\ owned_by 1 (mkTodo 4 "Milk" None false (Some 200) 0 0 "low" "shopping"
                        (Some 1)) = true
  /\ exists d, Some 200 = Some d /\ 100 < d.
Proof.
  assert (H : In (mkTodo 4 "Milk" None false (Some 200) 0 0 "low" "shopping"
                         (Some 1))
                 (deadlines (dashboard.get_dashboard_data Sample.week
                               Sample.alice 100)))
    by (vm_compute; auto).
  destruct (proj2 (proj2 (dashboard_deadlines_upcoming Sample.week Sample.alice
                            100)) _ H) as (_ & Ho & _ & Hd).
  split; [exact H|]. split; [exact Ho | exact Hd].
Defined.

Lemma get_todos_by_title_ignores_case_witness :
  lower "BUY MILK" = lower "buy milk"
  /\ get_todos_by_title Sample.twins "BUY MILK" 1
     = get_todos_by_title Sample.twins "buy milk" 1
  /\ In (Sample.task 2 "buy milk") (get_todos_by_title Sample.twins "BUY MILK" 1)
  /\ lower (title (Sample.task 2 "buy milk")) = lower "BUY MILK".
Proof.
  assert (H1 : lower "BUY MILK" = lower "buy milk") by reflexivity.
  assert (H2 : In (Sample.task 2 "buy milk")
                  (get_todos_by_title Sample.twins "BUY MILK" 1))
    by (vm_compute; auto).
  destruct (get_todos_by_title_ignores_case Sample.twins 1 "BUY MILK")
    as (_ & Hext & Hall).
  split; [exact H1|]. split; [exact (Hext _ H1)|].
  split; [exact H2|]. exact (proj2 (proj2 (Hall _ H2))).
Defined.

(** A name that is one user's address and another's username logs the
    second in: Ann's row comes first and her address is "bob", but
    "bob" with Bob's password gets Bob's token and with Ann's is
    answered 401. *)
Lemma login_prefers_the_username :
  auth.login_for_access_token Sample.verify Sample.sign Sample.namesakes
    "bob" "bob's"
  = Ok (auth.mkAccessToken (Sample.sign "bob" 30) "bearer")
  /\ auth.login_for_access_token Sample.verify Sample.sign Sample.namesakes
       "bob" "ann's"
     = Raise (HTTPException 401 "Incorrect username or password").
Proof. split; reflexivity. Qed.
